(* ===== verification/_CoqProject ===== *)
-Q . S2P
Prelude.v
Text.v
Json.v
JsonText.v
PyRepr.v
Schema.v
Paths.v
Extractor.v
Console.v
Refinement.v
Inspector.v
EndToEnd.v
