(* ===== verification/Prelude.v ===== *)
(** * QuizGrinder: a verification development

    The repository (src/pdf_to_json.py, src/inspect_outputs.py) is a batch
    tool that turns scanned exam PDFs into JSON through a remote model,
    and a script that prints one summary line per JSON file.  This
    development models both in Rocq, one file per component, each a
    shallow embedding of the Python code it names.

    ** The program and its parts, and the files that model them

    - [Prelude.v] (this file): notations in [qg_scope], tactics, the hint
      databases [qg] and [qg_rw], and the error-accumulating applicative
      ([acc_ap], [<*>], [<$$>]) that models pydantic's collection of all
      errors.
    - [Text.v]: Python strings as lists of code points; the strict UTF-8
      encoder of [f.write] (pdf_to_json.py line 122, which fails on lone
      surrogates) and decoder of [open(f)] (inspect_outputs.py line 8).
    - [Json.v]: the values [json.loads] builds (Module [Json]), dicts as
      association lists in insertion order with [d[k] = v] as [dict_set],
      and the interface [JsonCodec] (a class: [loads], [dumps] and the
      law that [loads] reads back what [dumps] printed) through which the
      extractor uses the JSON layer.
    - [JsonText.v]: the printer of [model_dump_json(indent=2,
      ensure_ascii=False)] (line 122) and CPython's [json.loads] scanner
      (line 106), with the round trip [loads_dumps] that discharges the
      law of [JsonCodec].  The parser runs on fuel [length s + 1]; the
      grammar of JSON text ([jvalue], [jmembers], [jelements], mutually
      inductive relations) states what it accepts, and [loads_grammar]
      proves [loads] equivalent to it, so the fuel never runs out.
    - [PyRepr.v]: CPython's [str()] and [repr()] of the values
      [json.loads] builds ([unicode_repr] with its quote choice and
      escapes, lists, dicts, None, booleans, ints), which the inspector
      applies to the year.
    - [Schema.v]: the pydantic models [Options], [ExamProblem], [ExamSet]
      (lines 12-31) as records; [model_validate] (line 109) in lax mode
      returning all errors with their locations or the record;
      [model_dump]; the schema stated as a relation ([exam_set_of]).
    - [Paths.v]: posixpath [basename], [splitext], [join] and the output
      path of lines 45-51, which always lies in ./json and is shared
      exactly by the inputs whose base names have the same root.
    - [Extractor.v]: [extract_exams_from_pdf] (lines 36-145) as a function
      on an explicit [state] (the file system as a [gmap] from paths to
      entries, the console as the list of messages printed, the log of
      requests sent), in a Section over any [JsonCodec]; the world that is
      not code of the repository is the record [env] (whether
      [genai.Client()] can be built, the model's answer to a request,
      whether a write succeeds).  [run_files] and [main] are the batch of
      lines 149-167.
    - [Console.v]: the text every [print] of the extractor writes
      ([render]), and the shape of the console of a batch: a progress
      line per file followed by its call's messages, which end with
      exactly one verdict.
    - [Refinement.v]: the contract of the specification (sections 4.1
      and 7) as an inductive relation [convert] on file systems, with
      verdicts Skipped, Failed, Converted and Aborted, and [batch], its
      composition over the files; [extract_refines_convert] and
      [main_refines_batch] show the code refines it when writes succeed
      and answers are encodable.
    - [Inspector.v]: inspect_outputs.py with Python's exceptions as the
      [exn] of an error monad (stdpp's [MBind]); [os.listdir] is the
      relation [listdir_spec] (Extractor.v) between the file system and
      the names it returns.
    - [EndToEnd.v]: concrete states (the example of the specification,
      a two-file batch, an answer with a lone surrogate escape, ./out
      holding an extractor output), [JsonText] as the codec, the
      theorem [stale_output_breaks_convert], and the witnesses of the
      theorems.

    The tools interact only through the file system: the extractor writes
    ./json/<name>_structured_output.json, the inspector lists ./out.

    ** What is proved

    - Validation: [model_validate] is equivalent to the schema relation;
      missing options and out-of-enum subjects are rejected at the right
      location; every reported error names a place of the input; keys the
      models do not declare are ignored; in lax mode an int field takes
      the decimal text of an int, white space around it allowed, up to
      pydantic's 4300-character limit ([int_parsing_size] beyond it,
      and for floats outside the i64 range).
    - JSON and text: printing then parsing is the identity on the values
      a record dumps to; [json.loads] accepts exactly the texts of the
      JSON grammar (so its fuel is enough on every input); non-ASCII text
      is printed as it is; the UTF-8 encoder succeeds exactly on strings
      of scalar values and the decoder yields only scalar values.
    - The extractor: the output file is the only file a call changes, and
      only after validation; skip-if-exists sends nothing and writes
      nothing, for one call and for a batch whose outputs all exist,
      whatever the environment; the written file reads back to the
      validated record; bad answers are reported without a write; the
      batch isolates failures when the client can be built, and never
      modifies an existing file.
    - The console: when the client can be built, the batch prints for
      each file its progress line and then exactly one verdict, the
      saved message exactly when the call returned the record.
    - The inspector: its line for an extractor output, its errors on
      other shapes, the first error ending the loop, and, when every
      entry of its directory is an extractor output, a run that reaches
      the end of the listing with one line per entry.
    - Refinement: the batch of [main] implements the specification's
      contract under the conditions above; without them it does not
      ([stale_output_breaks_convert]).
    - Findings: a failed write leaves an empty output that blocks later
      runs; a client failure aborts the batch; different inputs share one
      output name; the source field is not checked against the input;
      the inspector reads ./out, not ./json, and separates the count
      with a space; numeric strings pass as ints.

    ** Bounds and choices

    - Integers are Python ints, unbounded: [Z] with no wrap-around.
    - Floats of JSON text are kept as exact decimal literals; the
      rounding to binary64 and the overflow of literals such as 1e400 to
      inf are not modelled (no claim depends on a float; an int field
      given such a literal is the one place where the model differs).
    - A write that fails leaves the output file empty; a partial write
      (a full disk during the flush) is not modelled.
    - Parsing uses fuel [length s + 1]: every call of the parser either
      consumes input or stops, so the fuel is enough; [loads_grammar]
      proves it by showing [loads] equivalent to the fuel-free grammar.
    - CPython raises RecursionError on values nested deeper than its
      recursion limit (about 1000 levels); the model parses any depth.
    - The order of [os.listdir] is unspecified: the listing is a
      parameter of [main] and of the inspector, constrained by
      [listdir_spec] where a theorem needs the names to be the entries.

    ** Not modelled

    - The remote model, the API client and the schema sent to it
      (lines 72-75): parameters of [env].
    - The text of [str(e)] for a pydantic [ValidationError] and for the
      exception the outer handler catches: parameters of [Console.render].
    - Two tables of CPython behind [str()] in the inspector: which
      non-ASCII characters are printable (the Unicode database) and the
      shortest repr of a binary64 float; parameters of PyRepr.v.
    - CPython's 4300-digit limit on int conversion in [json.loads] (a
      longer integer literal raises ValueError there) and its recursion
      limit on nesting.
    - The contents of the PDF. *)

From stdpp Require Export base list strings gmap.
From Stdlib Require Export ZArith Lia.

#[export] Set Warnings "-clear-no-such-hyp,-unused-intro-pattern".

Declare Scope qg_scope.
Delimit Scope qg_scope with qg.
Open Scope Z_scope.

Create HintDb qg.
Create Rewrite HintDb qg_rw.

(** Python strings are sequences of code points. *)
Abbreviation text := (list Z).
(** File contents and request payloads are sequences of bytes. *)
Abbreviation bytes := (list Z).

(** ** Error accumulation

    pydantic validates every field of a model and reports all the errors
    it found, in field order.  This is the applicative on [sum (list E)]
    that collects errors from both sides instead of stopping at the
    first. *)

Definition acc_ap {E A B : Type} (rf : list E + (A -> B)) (ra : list E + A)
  : list E + B :=
  match rf, ra with
  | inr f, inr a => inr (f a)
  | inl e1, inl e2 => inl (e1 ++ e2)
  | inl e, inr _ => inl e
  | inr _, inl e => inl e
  end.

Definition acc_map_err {E E' A : Type} (f : E -> E') (r : list E + A)
  : list E' + A :=
  match r with
  | inl es => inl (map f es)
  | inr a => inr a
  end.

Definition acc_fmap {E A B : Type} (f : A -> B) (r : list E + A) : list E + B :=
  match r with
  | inl es => inl es
  | inr a => inr (f a)
  end.

Notation "rf <*> ra" := (acc_ap rf ra) (at level 61, left associativity) : qg_scope.
Notation "f <$$> ra" := (acc_fmap f ra) (at level 61, left associativity) : qg_scope.

Open Scope qg_scope.

(** A result "explains itself" when every failure carries an error. *)
Definition explained {E A : Type} (r : list E + A) : Prop :=
  forall es, r = inl es -> es <> [].

(** The errors a result reports. *)
Definition errs_of {E A : Type} (r : list E + A) : list E :=
  match r with inl es => es | inr _ => [] end.

(** ** Tactics *)

Ltac invc H := inversion H; subst; clear H.

(** A decidable fact about closed terms, by evaluation. *)
Ltac closed_decide := apply (bool_decide_unpack _); vm_compute; reflexivity.

(** Split hypotheses of the shape [r1 <*> r2 = inr x] into their parts. *)
Ltac acc_inv :=
  repeat match goal with
  | H : acc_ap ?rf ?ra = inr _ |- _ =>
      destruct rf eqn:?, ra eqn:?; simpl in H; try discriminate H;
      injection H as <-
  | H : acc_fmap ?f ?ra = inr _ |- _ =>
      destruct ra eqn:?; simpl in H; try discriminate H;
      injection H as <-
  end.

(** Turn the boolean comparisons of the context into propositions. *)
Ltac bool_facts :=
  repeat match goal with
  | H : _ && _ = true |- _ => apply andb_prop in H as [? ?]
  | H : negb _ = true |- _ => apply negb_true_iff in H
  | H : _ && _ = false |- _ => apply andb_false_iff in H
  | H : _ \/ _ |- _ => destruct H
  | H : (_ <=? _) = true |- _ => apply Z.leb_le in H
  | H : (_ <? _) = true |- _ => apply Z.ltb_lt in H
  | H : (_ <=? _) = false |- _ => apply Z.leb_gt in H
  | H : (_ <? _) = false |- _ => apply Z.ltb_ge in H
  end.

(** ** Generic lemmas *)

Lemma acc_ap_inr_iff {E A B : Type} (rf : list E + (A -> B)) ra b :
  rf <*> ra = inr b <-> exists f a, rf = inr f /\ ra = inr a /\ b = f a.
Proof.
  split.
  - destruct rf, ra; simpl; intros H; invc H; eauto.
  - intros (f & a & -> & -> & ->). reflexivity.
Qed.

Lemma acc_fmap_inr_iff {E A B : Type} (f : A -> B) (ra : list E + A) b :
  f <$$> ra = inr b <-> exists a, ra = inr a /\ b = f a.
Proof.
  split.
  - destruct ra; simpl; intros H; invc H; eauto.
  - intros (a & -> & ->). reflexivity.
Qed.

Lemma acc_ap_explained {E A B : Type} (rf : list E + (A -> B)) ra :
  explained rf -> explained ra -> explained (rf <*> ra).
Proof.
  intros Hf Ha es. destruct rf as [e1|f], ra as [e2|a]; simpl; intros H; invc H.
  - intros Hnil. apply app_eq_nil in Hnil as [-> _]. by apply (Hf []).
  - by apply Hf.
  - by apply Ha.
Qed.

Lemma acc_fmap_explained {E A B : Type} (f : A -> B) (ra : list E + A) :
  explained ra -> explained (f <$$> ra).
Proof. intros Ha es. destruct ra; simpl; intros H; invc H. by apply Ha. Qed.

Lemma acc_map_err_explained {E E' A : Type} (g : E -> E') (r : list E + A) :
  explained r -> explained (acc_map_err g r).
Proof.
  intros Hr es. destruct r as [e|a]; simpl; intros H; invc H.
  intros Hnil. apply map_eq_nil in Hnil. by apply (Hr e).
Qed.

Lemma inr_explained {E A : Type} (a : A) : @explained E A (inr a).
Proof. intros es H. discriminate H. Qed.

Lemma inl_cons_explained {E A : Type} (e : E) es : @explained E A (inl (e :: es)).
Proof. intros es' H. by invc H. Qed.

#[export] Hint Resolve acc_ap_explained acc_fmap_explained acc_map_err_explained
  inr_explained inl_cons_explained : qg.
#[export] Hint Rewrite @acc_ap_inr_iff @acc_fmap_inr_iff : qg_rw.

Lemma errs_of_ap {E A B : Type} (rf : list E + (A -> B)) ra :
  errs_of (rf <*> ra) = errs_of rf ++ errs_of ra.
Proof. destruct rf, ra; simpl; by rewrite ?app_nil_r. Qed.

Lemma errs_of_fmap {E A B : Type} (f : A -> B) (ra : list E + A) :
  errs_of (f <$$> ra) = errs_of ra.
Proof. by destruct ra. Qed.

Lemma errs_of_map_err {E E' A : Type} (g : E -> E') (r : list E + A) :
  errs_of (acc_map_err g r) = map g (errs_of r).
Proof. by destruct r. Qed.

(** A result that reports an error is a failure. *)
Lemma errs_of_inl {E A : Type} (r : list E + A) e :
  e ∈ errs_of r -> exists es, r = inl es /\ e ∈ es.
Proof. destruct r; simpl; [eauto | set_solver]. Qed.

#[export] Hint Rewrite @errs_of_ap @errs_of_fmap @errs_of_map_err : qg_rw.

Lemma Forall_id_map {A : Type} (P : A -> Prop) (l : list A) :
  Forall id (map P l) <-> Forall P l.
Proof. induction l as [|x l IH]; simpl; rewrite ?Forall_cons, ?IH; [done|done]. Qed.

