(* ===== verification/Text.v ===== *)
(** Python strings as lists of code points, and the UTF-8 codec.

    [pdf_to_json.py] writes its output with [open(path, 'w',
    encoding='utf-8')] (line 121) and [inspect_outputs.py] reads it back
    with [open(f)] (line 8, with a UTF-8 locale).  [Utf8.encode] is
    CPython's strict encoder: it fails on a lone surrogate (a string
    json.loads can build from a \ud800 escape), as the serialiser of
    [model_dump_json] does before [f.write] is reached.  [Utf8.decode] is the strict
    decoder, which refuses overlong forms, surrogates and code points
    above U+10FFFF.  [txt] turns a Rocq string literal (UTF-8 bytes) into
    a Python string. *)

From S2P Require Import Prelude.

Module Utf8.

Definition is_surrogate (c : Z) : bool := (0xD800 <=? c) && (c <=? 0xDFFF).

(** A Unicode scalar value: what a UTF-8 file can hold. *)
Definition is_scalar (c : Z) : bool :=
  (0 <=? c) && (c <? 0x110000) && negb (is_surrogate c).

Definition cont_byte (c : Z) : Z := Z.lor 0x80 (Z.land c 0x3F).

Definition encode_char (c : Z) : option bytes :=
  if c <? 0 then None
  else if c <? 0x80 then Some [c]
  else if c <? 0x800 then Some [Z.lor 0xC0 (Z.shiftr c 6); cont_byte c]
  else if c <? 0x10000 then
    if is_surrogate c then None
    else Some [Z.lor 0xE0 (Z.shiftr c 12); cont_byte (Z.shiftr c 6); cont_byte c]
  else if c <? 0x110000 then
    Some [Z.lor 0xF0 (Z.shiftr c 18); cont_byte (Z.shiftr c 12);
          cont_byte (Z.shiftr c 6); cont_byte c]
  else None.

Fixpoint encode (t : text) : option bytes :=
  match t with
  | [] => Some []
  | c :: t' =>
      match encode_char c, encode t' with
      | Some bs, Some rest => Some (bs ++ rest)
      | _, _ => None
      end
  end.

Definition is_cont (b : Z) : bool := (0x80 <=? b) && (b <? 0xC0).

Definition payload (b : Z) : Z := Z.land b 0x3F.

Fixpoint decode (bs : bytes) : option text :=
  match bs with
  | [] => Some []
  | b0 :: r =>
      if (0 <=? b0) && (b0 <? 0x80) then cons b0 <$> decode r
      else if (0xC0 <=? b0) && (b0 <? 0xE0) then
        match r with
        | b1 :: r1 =>
            let c := Z.lor (Z.shiftl (Z.land b0 0x1F) 6) (payload b1) in
            if is_cont b1 && (0x80 <=? c) then cons c <$> decode r1 else None
        | _ => None
        end
      else if (0xE0 <=? b0) && (b0 <? 0xF0) then
        match r with
        | b1 :: b2 :: r2 =>
            let c := Z.lor (Z.shiftl (Z.land b0 0x0F) 12)
                       (Z.lor (Z.shiftl (payload b1) 6) (payload b2)) in
            if is_cont b1 && is_cont b2 && (0x800 <=? c) && negb (is_surrogate c)
            then cons c <$> decode r2 else None
        | _ => None
        end
      else if (0xF0 <=? b0) && (b0 <? 0xF8) then
        match r with
        | b1 :: b2 :: b3 :: r3 =>
            let c := Z.lor (Z.shiftl (Z.land b0 0x07) 18)
                       (Z.lor (Z.shiftl (payload b1) 12)
                          (Z.lor (Z.shiftl (payload b2) 6) (payload b3))) in
            if is_cont b1 && is_cont b2 && is_cont b3 && (0x10000 <=? c) && (c <? 0x110000)
            then cons c <$> decode r3 else None
        | _ => None
        end
      else None
  end.

End Utf8.

(** A Rocq string literal, read as UTF-8, as a Python string. *)
Definition txt (s : string) : text :=
  default [] (Utf8.decode (map (fun a => Z.of_N (Ascii.N_of_ascii a)) (String.list_ascii_of_string s))).

(** The value of a string of ASCII decimal digits, read after [acc]. *)
Fixpoint digits_value (acc : Z) (s : text) : option Z :=
  match s with
  | [] => Some acc
  | c :: s' => if (48 <=? c) && (c <=? 57) then digits_value (acc * 10 + (c - 48)) s' else None
  end.

(** [sep.join(parts)] *)
Fixpoint str_join (sep : text) (parts : list text) : text :=
  match parts with
  | [] => []
  | [a] => a
  | a :: rest => a ++ sep ++ str_join sep rest
  end.

(** ** Bit arithmetic *)

Lemma lor_disjoint (m k x : Z) :
  0 <= k -> 0 <= x < 2 ^ k -> Z.lor (m * 2 ^ k) x = m * 2 ^ k + x.
Proof.
  intros Hk Hx.
  assert (Hpos : 0 < 2 ^ k) by (apply Z.pow_pos_nonneg; lia).
  assert (Hland : Z.land (m * 2 ^ k) x = 0).
  { assert (Hx' : x = Z.land x (Z.ones k))
      by (rewrite Z.land_ones by lia; rewrite Z.mod_small; lia).
    rewrite Hx', (Z.land_comm x), Z.land_assoc, (Z.land_ones _ k), Z.mod_mul by lia.
    apply Z.land_0_l. }
  pose proof (Z.add_lor_land (m * 2 ^ k) x). lia.
Qed.

(** Evaluate the constant powers of two. *)
Ltac pow_eval :=
  repeat match goal with
  | |- context [2 ^ ?k] => let v := eval vm_compute in (2 ^ k) in change (2 ^ k) with v in *
  | H : context [2 ^ ?k] |- _ =>
      let v := eval vm_compute in (2 ^ k) in change (2 ^ k) with v in *
  end.

(** Linear arithmetic with constant divisions and powers. *)
Ltac zlia := pow_eval; Z.div_mod_to_equations; lia.

Lemma lead_arith (m k q : Z) (base : Z) :
  base = m * 2 ^ k -> 0 <= k -> 0 <= q < 2 ^ k -> Z.lor base q = base + q.
Proof. intros ->. apply lor_disjoint. Qed.

(** A continuation byte in arithmetic form. *)
Lemma cont_byte_arith (c : Z) : Utf8.cont_byte c = 128 + c mod 64.
Proof.
  unfold Utf8.cont_byte. change 0x3F with (Z.ones 6). rewrite Z.land_ones by lia.
  apply (lead_arith 2 6); [reflexivity | lia | zlia].
Qed.

(** Rewrite the masks and shifts of the codec into arithmetic. *)
Ltac bits_to_arith :=
  rewrite ?cont_byte_arith; unfold Utf8.payload, Utf8.is_cont, Utf8.is_surrogate;
  change 0x3F with (Z.ones 6); change 0x1F with (Z.ones 5);
  change 0x0F with (Z.ones 4); change 0x07 with (Z.ones 3);
  repeat match goal with
  | |- context [Z.shiftr ?a ?n] => rewrite (Z.shiftr_div_pow2 a n) by lia
  | |- context [Z.shiftl ?a ?n] => rewrite (Z.shiftl_mul_pow2 a n) by lia
  | |- context [Z.land ?a (Z.ones ?n)] => rewrite (Z.land_ones a n) by lia
  end.

(** Turn disjoint [Z.lor]s into additions; the side conditions are bounds. *)
Ltac lor_to_add :=
  repeat match goal with
  | |- context [Z.lor (?a * 2 ^ ?k) ?x] => rewrite (lor_disjoint a k x) by zlia
  end.

(** Decide the tests of the outermost [if] of the goal one comparison at a
    time, dropping the branches the arithmetic rules out. *)
Ltac zbool :=
  repeat (match goal with
          | |- context [if ?t then _ else _] =>
              match t with
              | context [?a <? ?b] => destruct (Z.ltb_spec a b)
              | context [?a <=? ?b] => destruct (Z.leb_spec a b)
              | context [?a =? ?b] => destruct (Z.eqb_spec a b)
              end
          end; cbn [andb negb orb]; try (exfalso; zlia)).

(** ** The codec round trip *)

(** Decoding reads back what [encode_char] wrote, whatever follows. *)
Lemma utf8_encode_char_decode (c : Z) (bs rest : bytes) :
  Utf8.encode_char c = Some bs ->
  Utf8.decode (bs ++ rest) = cons c <$> Utf8.decode rest.
Proof.
  unfold Utf8.encode_char, Utf8.is_surrogate. intros H.
  destruct (Z.ltb_spec c 0); [discriminate|].
  destruct (Z.ltb_spec c 0x80).
  { injection H as <-. cbn [app Utf8.decode]. zbool. reflexivity. }
  destruct (Z.ltb_spec c 0x800).
  { injection H as <-. rewrite (lead_arith 6 5 (Z.shiftr c 6)) by (bits_to_arith; zlia).
    cbn [app Utf8.decode]. bits_to_arith. lor_to_add. zbool.
    do 2 f_equal. zlia. }
  destruct (Z.ltb_spec c 0x10000).
  { destruct ((0xD800 <=? c) && (c <=? 0xDFFF)) eqn:Hs; [discriminate|].
    injection H as <-. rewrite (lead_arith 14 4 (Z.shiftr c 12)) by (bits_to_arith; zlia).
    cbn [app Utf8.decode]. bits_to_arith. lor_to_add. zbool.
    all: try (do 2 f_equal; zlia).
    all: destruct (Z.leb_spec 0xD800 c), (Z.leb_spec c 0xDFFF); simpl in Hs; try discriminate; zlia. }
  destruct (Z.ltb_spec c 0x110000); [|discriminate].
  injection H as <-. rewrite (lead_arith 30 3 (Z.shiftr c 18)) by (bits_to_arith; zlia).
  cbn [app Utf8.decode]. bits_to_arith. lor_to_add. zbool.
  do 2 f_equal. zlia.
Qed.

(** [encode_char] succeeds exactly on the Unicode scalar values. *)
Lemma utf8_encode_char_is_Some (c : Z) :
  is_Some (Utf8.encode_char c) <-> Utf8.is_scalar c = true.
Proof.
  unfold Utf8.encode_char, Utf8.is_scalar, Utf8.is_surrogate. split.
  - intros [bs Hbs]. repeat case_match; try discriminate; lia.
  - intros Hsc. repeat case_match; eauto; lia.
Qed.

(** C25: the UTF-8 encoder of f.write succeeds exactly on strings of Unicode
    scalar values. *)
Lemma utf8_encode_is_Some (t : text) :
  is_Some (Utf8.encode t) <-> Forall (fun c => Utf8.is_scalar c = true) t.
Proof.
  induction t as [|c t IH]; simpl.
  - split; [constructor | eauto].
  - rewrite Forall_cons, <- IH, <- utf8_encode_char_is_Some.
    destruct (Utf8.encode_char c), (Utf8.encode t); unfold is_Some; naive_solver.
Qed.

(** Reading a file back gives the string that was written. *)
Lemma utf8_decode_encode (t : text) (bs : bytes) :
  Utf8.encode t = Some bs -> Utf8.decode bs = Some t.
Proof.
  revert bs. induction t as [|c t IH]; simpl; intros bs H.
  - by injection H as <-.
  - destruct (Utf8.encode_char c) as [b|] eqn:Hc, (Utf8.encode t) as [r|] eqn:Ht;
      try discriminate. injection H as <-.
    rewrite (utf8_encode_char_decode c b r Hc), (IH r eq_refl). reflexivity.
Qed.

(** ** The decoder yields scalar values *)

(** The code point of a multi-byte sequence, in arithmetic form. *)
Lemma utf8_lead2 b0 b1 :
  Z.lor (Z.shiftl (Z.land b0 0x1F) 6) (Utf8.payload b1) = b0 mod 32 * 64 + b1 mod 64.
Proof. bits_to_arith. lor_to_add. zlia. Qed.
Lemma utf8_lead3 b0 b1 b2 :
  Z.lor (Z.shiftl (Z.land b0 0x0F) 12) (Z.lor (Z.shiftl (Utf8.payload b1) 6) (Utf8.payload b2)) =
  b0 mod 16 * 4096 + b1 mod 64 * 64 + b2 mod 64.
Proof. bits_to_arith. lor_to_add. zlia. Qed.
Lemma utf8_lead4 b0 b1 b2 b3 :
  Z.lor (Z.shiftl (Z.land b0 0x07) 18)
    (Z.lor (Z.shiftl (Utf8.payload b1) 12) (Z.lor (Z.shiftl (Utf8.payload b2) 6) (Utf8.payload b3))) =
  b0 mod 8 * 262144 + b1 mod 64 * 4096 + b2 mod 64 * 64 + b3 mod 64.
Proof. bits_to_arith. lor_to_add. zlia. Qed.

(** A scalar value from its bounds. *)
Lemma is_scalar_intro c :
  0 <= c < 0x110000 -> ~ (0xD800 <= c <= 0xDFFF) -> Utf8.is_scalar c = true.
Proof.
  intros H1 H2. unfold Utf8.is_scalar, Utf8.is_surrogate.
  destruct (Z.leb_spec 0xD800 c), (Z.leb_spec c 0xDFFF); simpl; try lia;
    apply andb_true_iff; split; apply Z.leb_le || apply Z.ltb_lt; lia.
Qed.

(** C26: the strict decoder of open(f).read() yields only Unicode scalar
    values: no surrogate and nothing above U+10FFFF, whatever the bytes
    of the file. *)
Theorem utf8_decode_scalars bs t :
  Utf8.decode bs = Some t -> Forall (fun c => Utf8.is_scalar c = true) t.
Proof.
  revert t. induction bs as [bs IH] using (induction_ltof1 _ (@length Z)); unfold ltof in IH.
  intros t Hd. destruct bs as [|b0 r]; [by injection Hd as <-|].
  cbn [Utf8.decode] in Hd.
  repeat case_match; try discriminate;
    match goal with H : cons ?c <$> Utf8.decode ?r' = Some t |- _ =>
      destruct (Utf8.decode r') as [t'|] eqn:Hr; [|discriminate]; injection H as <-;
      constructor; [|apply (IH r'); [simpl; lia|done]] end;
    rewrite ?utf8_lead2, ?utf8_lead3, ?utf8_lead4 in *;
    unfold Utf8.is_cont, Utf8.is_surrogate in *; bool_facts; apply is_scalar_intro; zlia.
Qed.
