(* ===== verification/Json.v ===== *)
(** JSON values: the Python objects [json.loads] builds.

    [json.loads] (pdf_to_json.py, line 106) returns None, bool, int,
    float, str, list or dict.  A dict is modelled as the association list
    of its items in insertion order; [dict_set] is Python's [d[k] = v],
    which keeps the position of an existing key and replaces its value
    (so the last duplicate key of a JSON object wins, as in [json.loads]),
    and [dict_get] is [d.get(k)].  Floats are kept as the decimal literal
    they were read from ([FDec m e] is m * 10^e), or as the constants
    [NaN], [Infinity], [-Infinity] that [json.loads] also accepts.

    The interface [JsonCodec] is what the extractor needs from the JSON
    layer: [loads] (None for [JSONDecodeError]) and [dumps] (the printer
    of [model_dump_json]) with the law that [loads] reads back what
    [dumps] printed.  [JsonText.v] implements it. *)

From S2P Require Import Prelude Text.

Module Json.

Inductive pyfloat : Type :=
  | FDec (m e : Z)
  | FInf (negative : bool)
  | FNaN.

#[warnings="-register-all"]
Inductive value : Type :=
  | JNull
  | JBool (b : bool)
  | JInt (z : Z)
  | JFloat (f : pyfloat)
  | JStr (s : text)
  | JArr (vs : list value)
  | JObj (kvs : list (text * value)).

(** Structural induction that sees through the lists of a value. *)
Section value_ind.
  Variable P : value -> Prop.
  Hypothesis Hnull : P JNull.
  Hypothesis Hbool : forall b, P (JBool b).
  Hypothesis Hint : forall z, P (JInt z).
  Hypothesis Hfloat : forall f, P (JFloat f).
  Hypothesis Hstr : forall s, P (JStr s).
  Hypothesis Harr : forall vs, Forall P vs -> P (JArr vs).
  Hypothesis Hobj : forall kvs, Forall (fun kv => P kv.2) kvs -> P (JObj kvs).

Fixpoint value_ind' (v : value) : P v :=
    match v with
    | JNull => Hnull
    | JBool b => Hbool b
    | JInt z => Hint z
    | JFloat f => Hfloat f
    | JStr s => Hstr s
    | JArr vs =>
        Harr vs ((fix go (l : list value) : Forall P l :=
                    match l with
                    | [] => List.Forall_nil _
                    | x :: l' => @List.Forall_cons _ P x l' (value_ind' x) (go l')
                    end) vs)
    | JObj kvs =>
        Hobj kvs ((fix go (l : list (text * value)) : Forall (fun kv => P kv.2) l :=
                     match l with
                     | [] => List.Forall_nil _
                     | kv :: l' =>
                         @List.Forall_cons _ (fun kv => P kv.2) kv l' (value_ind' kv.2) (go l')
                     end) kvs)
    end.
End value_ind.

(** [d.get(k)] *)
Fixpoint dict_get (k : text) (d : list (text * value)) : option value :=
  match d with
  | [] => None
  | (k', v) :: d' => if decide (k = k') then Some v else dict_get k d'
  end.

(** [d[k] = v] *)
Fixpoint dict_set (k : text) (v : value) (d : list (text * value))
  : list (text * value) :=
  match d with
  | [] => [(k, v)]
  | (k', v') :: d' => if decide (k = k') then (k', v) :: d' else (k', v') :: dict_set k v d'
  end.

(** ** The interface between the extractor and the JSON layer *)

(** Values the printer of [model_dump_json] writes and [json.loads]
    reads back: dicts with unique keys, strings of code points (never
    negative), no floats (a validated [ExamSet] has none). *)
Definition chars_ok (s : text) : Prop := Forall (fun c => 0 <= c) s.

Fixpoint printable (v : value) : Prop :=
  match v with
  | JFloat _ => False
  | JStr s => chars_ok s
  | JArr vs => Forall id (map printable vs)
  | JObj kvs => NoDup kvs.*1 /\ Forall (fun kv => chars_ok kv.1) kvs /\
                     Forall id (map (fun kv => printable kv.2) kvs)
  | _ => True
  end.

Class JsonCodec : Type := {
  loads : text -> option value;
  dumps : value -> text;
  loads_dumps : forall v, printable v -> loads (dumps v) = Some v
}.

(** ** Lemmas on dicts *)

Lemma dict_get_set_eq (k : text) v d : dict_get k (dict_set k v d) = Some v.
Proof.
  induction d as [|[k' v'] d IH]; simpl.
  - by rewrite decide_True.
  - destruct (decide (k = k')) as [->|Hne]; simpl.
    + by rewrite decide_True.
    + by rewrite decide_False.
Qed.

Lemma dict_get_set_ne (k k0 : text) v d :
  k0 <> k -> dict_get k0 (dict_set k v d) = dict_get k0 d.
Proof.
  intros Hne. induction d as [|[k' v'] d IH]; simpl.
  - by rewrite decide_False.
  - destruct (decide (k = k')) as [->|Hne']; simpl.
    + by rewrite !decide_False.
    + by destruct (decide (k0 = k')).
Qed.

Lemma dict_get_In (k : text) d v : dict_get k d = Some v -> In (k, v) d.
Proof.
  induction d as [|[k' v'] d IH]; simpl; [discriminate|].
  destruct (decide (k = k')) as [->|]; [intros [= ->]; by left|].
  intros H. right. by apply IH.
Qed.

Lemma dict_get_NoDup_In (k : text) d v :
  NoDup d.*1 -> In (k, v) d -> dict_get k d = Some v.
Proof.
  induction d as [|[k' v'] d IH]; simpl; [done|].
  intros Hnd [Heq|Hin]; apply NoDup_cons in Hnd as [Hnot Hnd].
  - injection Heq as -> ->. by rewrite decide_True.
  - destruct (decide (k = k')) as [->|]; [|by apply IH].
    exfalso. apply Hnot, list_elem_of_In, in_map_iff. by exists (k', v).
Qed.

Lemma dict_set_keys_elem (k x : text) v d :
  x ∈ (dict_set k v d).*1 <-> x = k \/ x ∈ d.*1.
Proof.
  induction d as [|[k' v'] d IH]; cbn [dict_set].
  - set_solver.
  - destruct (decide (k = k')) as [->|Hne]; cbn [fmap list_fmap fst];
      rewrite ?elem_of_cons, ?IH; naive_solver.
Qed.

Lemma dict_set_NoDup (k : text) v d : NoDup d.*1 -> NoDup (dict_set k v d).*1.
Proof.
  induction d as [|[k' v'] d IH]; cbn [dict_set].
  - intros _. apply NoDup_singleton.
  - intros Hnd. apply NoDup_cons in Hnd as [Hnot Hnd].
    destruct (decide (k = k')) as [->|Hne]; cbn [fmap list_fmap fst];
      apply NoDup_cons; split; auto.
    rewrite dict_set_keys_elem. naive_solver.
Qed.

Lemma dict_set_fresh (k : text) v d : k ∉ d.*1 -> dict_set k v d = d ++ [(k, v)].
Proof.
  induction d as [|[k' v'] d IH]; simpl; [done|].
  intros Hk. rewrite decide_False by set_solver. rewrite IH by set_solver. done.
Qed.

End Json.
