(* ===== verification/JsonText.v ===== *)
(** JSON text: the printer of [model_dump_json(indent=2, ensure_ascii=False)]
    (pdf_to_json.py, line 122) and the parser [json.loads] (line 106).

    The printer is the pretty formatter pydantic-core uses: a non-empty
    list or dict opens a line per item indented by two spaces per level,
    items are separated by ",\n", a key is followed by ": ", and empty
    containers print as [[]] and [{}].  Strings escape the quote, the
    backslash and the control characters below U+0020 (\b \t \n \f \r by
    name, the others as \u00XX with lowercase hex); every other character,
    non-ASCII included, is written as it is.

    The parser follows CPython's C scanner ([_json.c], used by
    [json.loads]): the same grammar, the same whitespace (space, tab,
    newline, carriage return), strings that refuse raw control characters
    and join a \u escape of a high surrogate with a following \u escape of
    a low surrogate, numbers made of an optional minus, an integer part
    (0, or digits not starting with 0), an optional fraction and an
    optional exponent (an int when there is no fraction and no exponent), the constants NaN, Infinity and
    -Infinity, dicts built by [d[k] = v], and the error for a byte-order
    mark and for anything but whitespace after the value.  The parser runs
    on fuel, [length s + 1]: [loads_grammar] proves that [loads] accepts
    exactly the texts the grammar [jvalue]/[jmembers]/[jelements] derives,
    so this fuel never runs out.  CPython's scanner also raises
    RecursionError on values nested deeper than the interpreter's
    recursion limit; the model has no such limit. *)

From S2P Require Import Prelude Text Json.
Import Json.

Module JsonText.

(** ** Printing *)

Definition hex_digit (n : Z) : Z := if n <? 10 then 48 + n else 87 + n.

Definition escape_char (c : Z) : text :=
  if c =? 34 then [92; 34]
  else if c =? 92 then [92; 92]
  else if c =? 8 then [92; 98]
  else if c =? 12 then [92; 102]
  else if c =? 10 then [92; 110]
  else if c =? 13 then [92; 114]
  else if c =? 9 then [92; 116]
  else if c <? 32 then [92; 117; 48; 48; hex_digit (c / 16); hex_digit (c mod 16)]
  else [c].

Definition dump_string (s : text) : text := 34 :: (s ≫= escape_char) ++ [34].

(** Decimal digits of [n >= 0], least significant first. *)
Fixpoint digits_rev (fuel : nat) (n : Z) : text :=
  match fuel with
  | O => []
  | S f => (48 + n mod 10) :: (if n <? 10 then [] else digits_rev f (n / 10))
  end.

Definition int_text (z : Z) : text :=
  if z <? 0 then 45 :: rev (digits_rev (S (Z.to_nat (- z))) (- z))
  else rev (digits_rev (S (Z.to_nat z)) z).

(** Floats never reach the printer from [model_dump] (the models have no
    float field); they are written as literals [json.loads] reads back. *)
Definition float_text (f : pyfloat) : text :=
  match f with
  | FDec m e => int_text m ++ [101] ++ int_text e
  | FInf false => [73; 110; 102; 105; 110; 105; 116; 121]
  | FInf true => [45; 73; 110; 102; 105; 110; 105; 116; 121]
  | FNaN => [78; 97; 78]
  end.

Definition indent (lvl : nat) : text := replicate (2 * lvl) 32.

(** The items of a non-empty container, each on its own line. *)
Fixpoint sep_items {T : Type} (f : T -> text) (lvl : nat) (l : list T) (first : bool) : text :=
  match l with
  | [] => []
  | x :: l' => (if first then [10] else [44; 10]) ++ indent lvl ++ f x ++ sep_items f lvl l' false
  end.

Definition NULL : text := [110; 117; 108; 108].               (* null *)
Definition TRUE : text := [116; 114; 117; 101].               (* true *)
Definition FALSE : text := [102; 97; 108; 115; 101].          (* false *)
Definition NAN : text := [78; 97; 78].                        (* NaN *)
Definition INFINITY : text := [73; 110; 102; 105; 110; 105; 116; 121].  (* Infinity *)

Fixpoint dumps_at (lvl : nat) (v : value) : text :=
  match v with
  | JNull => NULL
  | JBool true => TRUE
  | JBool false => FALSE
  | JInt z => int_text z
  | JFloat f => float_text f
  | JStr s => dump_string s
  | JArr [] => [91; 93]
  | JArr vs => 91 :: sep_items (dumps_at (S lvl)) (S lvl) vs true ++ 10 :: indent lvl ++ [93]
  | JObj [] => [123; 125]
  | JObj kvs =>
      123 :: sep_items (fun kv => dump_string kv.1 ++ 58 :: 32 :: dumps_at (S lvl) kv.2)
               (S lvl) kvs true
          ++ 10 :: indent lvl ++ [125]
  end.

Definition dumps (v : value) : text := dumps_at 0 v.

(** ** Parsing *)

Inductive presult (A : Type) : Type :=
  | Done (a : A) (rest : text)
  | Fail
  | OutOfFuel.
Arguments Done {A} a rest.
Arguments Fail {A}.
Arguments OutOfFuel {A}.

Definition is_ws (c : Z) : bool := (c =? 32) || (c =? 9) || (c =? 10) || (c =? 13).
Definition is_digit (c : Z) : bool := (48 <=? c) && (c <=? 57).

Fixpoint skip_ws (s : text) : text :=
  match s with
  | c :: r => if is_ws c then skip_ws r else s
  | [] => []
  end.

(** The longest prefix of digits. *)
Fixpoint span_digits (s : text) : text * text :=
  match s with
  | c :: r => if is_digit c then let '(ds, r') := span_digits r in (c :: ds, r') else ([], s)
  | [] => ([], [])
  end.

Definition hex_value (c : Z) : option Z :=
  if (48 <=? c) && (c <=? 57) then Some (c - 48)
  else if (97 <=? c) && (c <=? 102) then Some (c - 87)
  else if (65 <=? c) && (c <=? 70) then Some (c - 55)
  else None.

Definition hex4 (a b c d : Z) : option Z :=
  match hex_value a, hex_value b, hex_value c, hex_value d with
  | Some x, Some y, Some z, Some w => Some (((x * 16 + y) * 16 + z) * 16 + w)
  | _, _, _, _ => None
  end.

Definition simple_escape (c : Z) : option Z :=
  if c =? 34 then Some 34 else if c =? 92 then Some 92 else if c =? 47 then Some 47
  else if c =? 98 then Some 8 else if c =? 102 then Some 12 else if c =? 110 then Some 10
  else if c =? 114 then Some 13 else if c =? 116 then Some 9 else None.

Definition is_high (c : Z) : bool := (0xD800 <=? c) && (c <=? 0xDBFF).
Definition is_low (c : Z) : bool := (0xDC00 <=? c) && (c <=? 0xDFFF).

(** The body of a string after its opening quote; [acc] holds the
    characters read so far, last first. *)
Fixpoint string_body (s : text) (acc : text) : option (text * text) :=
  match s with
  | [] => None
  | c :: r =>
      if c =? 34 then Some (rev acc, r)
      else if c =? 92 then
        match r with
        | [] => None
        | e :: r1 =>
            if e =? 117 then
              match r1 with
              | h1 :: h2 :: h3 :: h4 :: r2 =>
                  match hex4 h1 h2 h3 h4 with
                  | None => None
                  | Some u =>
                      if is_high u then
                        match r2 with
                        | b :: v :: g1 :: g2 :: g3 :: g4 :: r3 =>
                            if (b =? 92) && (v =? 117) then
                              match hex4 g1 g2 g3 g4 with
                              | None => None
                              | Some u2 =>
                                  if is_low u2
                                  then string_body r3 ((0x10000 + (u - 0xD800) * 0x400 + (u2 - 0xDC00)) :: acc)
                                  else string_body r2 (u :: acc)
                              end
                            else string_body r2 (u :: acc)
                        | _ => string_body r2 (u :: acc)
                        end
                      else string_body r2 (u :: acc)
                  end
              | _ => None
              end
            else
              match simple_escape e with
              | Some c' => string_body r1 (c' :: acc)
              | None => None
              end
        end
      else if c <? 32 then None
      else string_body r (c :: acc)
  end.

(** [_match_number_unicode]: sign, integer part, optional fraction and
    exponent (the exponent is given up when no digit follows). *)
Definition int_part (s : text) : option (text * text) :=
  match s with
  | d :: r =>
      if d =? 48 then Some ([48], r)
      else if (49 <=? d) && (d <=? 57) then let '(ds, r') := span_digits r in Some (d :: ds, r')
      else None
  | [] => None
  end.

Definition frac_part (s : text) : option text * text :=
  match s with
  | p :: d :: r => if (p =? 46) && is_digit d then let '(ds, r') := span_digits r in (Some (d :: ds), r')
                   else (None, s)
  | _ => (None, s)
  end.

Definition exp_part (s : text) : option Z * text :=
  match s with
  | e :: r =>
      if (e =? 101) || (e =? 69) then
        let '(sgn, r') := match r with
                          | c :: r' => if c =? 45 then (-1, r') else if c =? 43 then (1, r') else (1, r)
                          | [] => (1, r)
                          end in
        match span_digits r' with
        | ([], _) => (None, s)
        | (ds, r'') => (Some (sgn * default 0 (digits_value 0 ds)), r'')
        end
      else (None, s)
  | [] => (None, s)
  end.

Definition parse_number (s : text) : option (value * text) :=
  let '(neg, s1) := match s with c :: r => if c =? 45 then (true, r) else (false, s) | [] => (false, s) end in
  let sign (z : Z) := if neg then - z else z in
  match int_part s1 with
  | None => None
  | Some (ip, r1) =>
      let '(fp, r2) := frac_part r1 in
      let '(ep, r3) := exp_part r2 in
      match fp, ep with
      | None, None => Some (JInt (sign (default 0 (digits_value 0 ip))), r3)
      | _, _ =>
          let frac := default [] fp in
          Some (JFloat (FDec (sign (default 0 (digits_value 0 (ip ++ frac))))
                             (default 0 ep - Z.of_nat (length frac))), r3)
      end
  end.

Definition starts_with (p s : text) : bool := bool_decide (take (length p) s = p).

(** The constants [scan_once] recognises by their first characters. *)
Definition parse_constant (s : text) : option (value * text) :=
  if starts_with NULL s then Some (JNull, drop 4 s)
  else if starts_with TRUE s then Some (JBool true, drop 4 s)
  else if starts_with FALSE s then Some (JBool false, drop 5 s)
  else if starts_with NAN s then Some (JFloat FNaN, drop 3 s)
  else if starts_with INFINITY s then Some (JFloat (FInf false), drop 8 s)
  else if starts_with (45 :: INFINITY) s then Some (JFloat (FInf true), drop 9 s)
  else parse_number s.

(** [scan_once], [_parse_object_unicode] and [_parse_array_unicode]: a
    value at the head of [s]; the callers skip the whitespace before it. *)
Fixpoint parse_value (fuel : nat) (s : text) : presult value :=
  match fuel with
  | O => OutOfFuel
  | S n =>
      match s with
      | [] => Fail
      | c :: r =>
          if c =? 34 then
            match string_body r [] with Some (str, r') => Done (JStr str) r' | None => Fail end
          else if c =? 123 then
            match skip_ws r with
            | d :: r' => if d =? 125 then Done (JObj []) r' else parse_members n (d :: r') []
            | [] => Fail
            end
          else if c =? 91 then
            match skip_ws r with
            | d :: r' => if d =? 93 then Done (JArr []) r' else parse_elements n (d :: r') []
            | [] => Fail
            end
          else match parse_constant s with Some (v, r') => Done v r' | None => Fail end
      end
  end
with parse_members (fuel : nat) (s : text) (acc : list (text * value)) : presult value :=
  match fuel with
  | O => OutOfFuel
  | S n =>
      match s with
      | c :: r =>
          if c =? 34 then
            match string_body r [] with
            | None => Fail
            | Some (k, r1) =>
                match skip_ws r1 with
                | d :: r2 =>
                    if d =? 58 then
                      match parse_value n (skip_ws r2) with
                      | Done v r3 =>
                          match skip_ws r3 with
                          | e :: r4 =>
                              if e =? 125 then Done (JObj (dict_set k v acc)) r4
                              else if e =? 44 then parse_members n (skip_ws r4) (dict_set k v acc)
                              else Fail
                          | [] => Fail
                          end
                      | Fail => Fail
                      | OutOfFuel => OutOfFuel
                      end
                    else Fail
                | [] => Fail
                end
            end
          else Fail
      | [] => Fail
      end
  end
with parse_elements (fuel : nat) (s : text) (acc : list value) : presult value :=
  match fuel with
  | O => OutOfFuel
  | S n =>
      match parse_value n s with
      | Done v r1 =>
          match skip_ws r1 with
          | e :: r2 =>
              if e =? 93 then Done (JArr (acc ++ [v])) r2
              else if e =? 44 then parse_elements n (skip_ws r2) (acc ++ [v])
              else Fail
          | [] => Fail
          end
      | Fail => Fail
      | OutOfFuel => OutOfFuel
      end
  end.

(** A bound on the fuel a printed value needs. *)
Fixpoint vsize (v : value) : nat :=
  match v with
  | JArr vs => S (sum_list_with (fun w => S (vsize w)) vs)
  | JObj kvs => S (sum_list_with (fun kv => S (vsize kv.2)) kvs)
  | _ => 1
  end.

(** [json.loads(s)], with the parser given [fuel]. *)
Definition loads_with (fuel : nat) (s : text) : option value :=
  if bool_decide (head s = Some 0xFEFF) then None
  else
    match parse_value fuel (skip_ws s) with
    | Done v rest => if bool_decide (skip_ws rest = []) then Some v else None
    | _ => None
    end.

(** [json.loads(s)] *)
Definition loads (s : text) : option value := loads_with (S (length s)) s.

(** The grammar of JSON text as [json.loads] reads it, as relations
    independent of the fuel: [jvalue s v r] when the value [v] is at the
    head of [s] and [r] follows it; [jmembers s kvs r] when [s] holds the
    members [kvs] of a dict, in the order of the text, from the quote of
    the first key to the closing brace; [jelements s vs r] the same for
    the items of a list.  Whitespace is allowed around every separator.
    The leaves (the body of a string, a constant or a number) are read by
    the scanners above.  A dict holds its members as [d[k] = v] over them
    in order leaves it ([obj_of]): a repeated key keeps its first place
    and its last value. *)
Definition obj_of (acc kvs : list (text * value)) : list (text * value) :=
  foldl (fun d kv => dict_set kv.1 kv.2 d) acc kvs.

Inductive jvalue : text -> value -> text -> Prop :=
  | jv_string t str r : string_body t [] = Some (str, r) -> jvalue (34 :: t) (JStr str) r
  | jv_obj_empty t r : skip_ws t = 125 :: r -> jvalue (123 :: t) (JObj []) r
  | jv_obj t kvs r : jmembers (skip_ws t) kvs r -> jvalue (123 :: t) (JObj (obj_of [] kvs)) r
  | jv_arr_empty t r : skip_ws t = 93 :: r -> jvalue (91 :: t) (JArr []) r
  | jv_arr t vs r : jelements (skip_ws t) vs r -> jvalue (91 :: t) (JArr vs) r
  | jv_const c t v r : c <> 34 -> c <> 123 -> c <> 91 -> parse_constant (c :: t) = Some (v, r) ->
      jvalue (c :: t) v r
with jmembers : text -> list (text * value) -> text -> Prop :=
  | jm_last t k t1 t2 v t3 r :
      string_body t [] = Some (k, t1) -> skip_ws t1 = 58 :: t2 -> jvalue (skip_ws t2) v t3 ->
      skip_ws t3 = 125 :: r -> jmembers (34 :: t) [(k, v)] r
  | jm_cons t k t1 t2 v t3 t4 kvs r :
      string_body t [] = Some (k, t1) -> skip_ws t1 = 58 :: t2 -> jvalue (skip_ws t2) v t3 ->
      skip_ws t3 = 44 :: t4 -> jmembers (skip_ws t4) kvs r -> jmembers (34 :: t) ((k, v) :: kvs) r
with jelements : text -> list value -> text -> Prop :=
  | je_last s v t r : jvalue s v t -> skip_ws t = 93 :: r -> jelements s [v] r
  | je_cons s v t t' vs r :
      jvalue s v t -> skip_ws t = 44 :: t' -> jelements (skip_ws t') vs r -> jelements s (v :: vs) r.

Scheme jvalue_mut := Induction for jvalue Sort Prop
  with jmembers_mut := Induction for jmembers Sort Prop
  with jelements_mut := Induction for jelements Sort Prop.
Combined Scheme jgrammar_mut from jvalue_mut, jmembers_mut, jelements_mut.

(** A call with fuel [f] that succeeds consumed some input, and succeeds
    the same way with any fuel at least the length it consumed. *)
Definition pv_ok (f : nat) : Prop := forall s v r, parse_value f s = Done v r ->
  (length r < length s)%nat /\ forall m, (length s - length r <= m)%nat -> parse_value m s = Done v r.
Definition pm_ok (f : nat) : Prop := forall s acc v r, parse_members f s acc = Done v r ->
  (length r < length s)%nat /\ forall m, (length s - length r <= m)%nat -> parse_members m s acc = Done v r.
Definition pe_ok (f : nat) : Prop := forall s acc v r, parse_elements f s acc = Done v r ->
  (length r < length s)%nat /\ forall m, (length s - length r <= m)%nat -> parse_elements m s acc = Done v r.

(** What the printer's output followed by [rest] parses to: a number
    stops before [rest], and a value parses back to itself. *)
Definition num_stop (rest : text) : Prop :=
  match rest with
  | [] => True
  | c :: _ => is_digit c = false /\ c <> 46 /\ c <> 101 /\ c <> 69
  end.

Definition roundtrips (v : value) : Prop :=
  forall lvl n rest, (vsize v <= n)%nat -> num_stop rest ->
  parse_value n (dumps_at lvl v ++ rest) = Done v rest.

(** ** Lemmas *)

Lemma hex_value_digit d : 0 <= d < 16 -> hex_value (hex_digit d) = Some d.
Proof.
  intros Hd. unfold hex_digit, hex_value.
  destruct (Z.ltb_spec d 10); zbool; f_equal; lia.
Qed.

Lemma string_body_escape_char (c : Z) (t acc : text) :
  0 <= c -> string_body (escape_char c ++ t) acc = string_body t (c :: acc).
Proof.
  intros Hc. unfold escape_char.
  destruct (Z.eqb_spec c 34) as [->|]; [reflexivity|].
  destruct (Z.eqb_spec c 92) as [->|]; [reflexivity|].
  destruct (Z.eqb_spec c 8) as [->|]; [reflexivity|].
  destruct (Z.eqb_spec c 12) as [->|]; [reflexivity|].
  destruct (Z.eqb_spec c 10) as [->|]; [reflexivity|].
  destruct (Z.eqb_spec c 13) as [->|]; [reflexivity|].
  destruct (Z.eqb_spec c 9) as [->|]; [reflexivity|].
  destruct (Z.ltb_spec c 32).
  - cbn [app string_body Z.eqb]. unfold hex4.
    rewrite (hex_value_digit (c / 16)), (hex_value_digit (c mod 16)) by zlia.
    cbn. unfold is_high. zbool. do 2 f_equal. zlia.
  - cbn [app string_body]. zbool. reflexivity.
Qed.

Lemma string_body_escape (s : text) rest acc :
  Forall (fun c => 0 <= c) s ->
  string_body ((s ≫= escape_char) ++ 34 :: rest) acc = Some (rev acc ++ s, rest).
Proof.
  revert acc. induction s as [|c s IH]; intros acc Hs; simpl.
  - by rewrite app_nil_r.
  - apply Forall_cons in Hs as [Hc Hs].
    rewrite <- app_assoc, string_body_escape_char, IH by done.
    simpl. by rewrite <- app_assoc.
Qed.

(** ** Whitespace and prefixes *)

Lemma skip_ws_nonws c s : is_ws c = false -> skip_ws (c :: s) = c :: s.
Proof. intros H. simpl. by rewrite H. Qed.

Lemma skip_ws_indent k s : skip_ws (indent k ++ s) = skip_ws s.
Proof. unfold indent. induction (2 * k)%nat as [|m IH]; simpl; [done|]. exact IH. Qed.

Lemma starts_with_app (p s : text) : starts_with p (p ++ s) = true.
Proof. unfold starts_with. rewrite take_app_length. by apply bool_decide_eq_true. Qed.

Lemma starts_with_ne x y (p s : text) : x <> y -> starts_with (x :: p) (y :: s) = false.
Proof. intros H. unfold starts_with. apply bool_decide_eq_false. simpl. congruence. Qed.

Lemma starts_with_same x (p s : text) : starts_with (x :: p) (x :: s) = starts_with p s.
Proof. unfold starts_with. simpl. apply bool_decide_ext. split; [congruence|by intros ->]. Qed.

(** ** Numbers *)

Lemma span_digits_app (ds rest : text) :
  Forall (fun c => is_digit c = true) ds -> num_stop rest ->
  span_digits (ds ++ rest) = (ds, rest).
Proof.
  intros Hds Hr. induction Hds as [|d ds Hd Hds IH]; simpl.
  - destruct rest as [|c r]; simpl; [done|]. destruct Hr as [-> _]. done.
  - rewrite Hd, IH. done.
Qed.

Lemma digits_value_app acc (l1 l2 : text) :
  digits_value acc (l1 ++ l2) = digits_value acc l1 ≫= fun a => digits_value a l2.
Proof.
  revert acc. induction l1 as [|c l1 IH]; intros acc; simpl; [done|].
  destruct (_ && _); [apply IH | done].
Qed.

(** The decimal digits of [n >= 0]: no leading zero, and they read back
    as [n]. *)
Lemma digits_rev_spec (f : nat) (n : Z) :
  0 <= n -> (Z.to_nat n < f)%nat ->
  exists d ds, rev (digits_rev f n) = d :: ds /\
    Forall (fun c => is_digit c = true) (d :: ds) /\
    (n = 0 -> d = 48 /\ ds = []) /\ (0 < n -> 49 <= d) /\
    digits_value 0 (d :: ds) = Some n.
Proof.
  revert n. induction f as [|f IH]; intros n Hn Hf; [lia|].
  cbn [digits_rev]. destruct (Z.ltb_spec n 10).
  - exists (48 + n mod 10), []. rewrite Z.mod_small by lia.
    repeat split; simpl; auto; try lia.
    + constructor; [unfold is_digit; lia | constructor].
    + unfold digits_value. simpl. zbool. do 2 f_equal. lia.
  - destruct (IH (n / 10)) as (d & ds & Hrev & Hdig & _ & Hpos & Hval); [zlia|zlia|].
    exists d, (ds ++ [48 + n mod 10]). cbn [rev]. rewrite Hrev. split; [done|].
    split; [|split; [lia|split; [intros; apply Hpos; zlia|]]].
    + rewrite app_comm_cons. apply Forall_app. split; [done|].
      constructor; [unfold is_digit; zlia | constructor].
    + rewrite app_comm_cons, digits_value_app, Hval. simpl. zbool. do 2 f_equal. zlia.
Qed.

Lemma frac_part_stop rest : num_stop rest -> frac_part rest = (None, rest).
Proof.
  destruct rest as [|c [|d r]]; simpl; try done. intros (_ & Hc & _).
  destruct (Z.eqb_spec c 46); [done|reflexivity].
Qed.

Lemma exp_part_stop rest : num_stop rest -> exp_part rest = (None, rest).
Proof.
  destruct rest as [|c r]; simpl; [done|]. intros (_ & _ & He & HE).
  destruct (Z.eqb_spec c 101), (Z.eqb_spec c 69); done.
Qed.

Lemma int_part_digits d ds rest :
  Forall (fun c => is_digit c = true) (d :: ds) -> num_stop rest ->
  (d = 48 -> ds = []) ->
  int_part (d :: ds ++ rest) = Some (d :: ds, rest).
Proof.
  intros Hdig Hr Hz. apply Forall_cons in Hdig as [Hd Hds]. simpl.
  destruct (Z.eqb_spec d 48) as [->|Hne].
  - rewrite Hz by done. done.
  - unfold is_digit in Hd. rewrite span_digits_app by done.
    replace ((49 <=? d) && (d <=? 57)) with true by lia. done.
Qed.

Lemma parse_number_int z rest :
  num_stop rest -> parse_number (int_text z ++ rest) = Some (JInt z, rest).
Proof.
  intros Hr. unfold int_text. destruct (Z.ltb_spec z 0).
  - destruct (digits_rev_spec (S (Z.to_nat (- z))) (- z)) as (d & ds & Hrev & Hdig & _ & Hpos & Hval);
      [lia|lia|].
    rewrite Hrev. unfold parse_number. cbn [app Z.eqb Pos.eqb].
    rewrite int_part_digits by (try done; intros; lia).
    rewrite frac_part_stop, exp_part_stop by done. rewrite Hval. simpl. do 3 f_equal. lia.
  - destruct (digits_rev_spec (S (Z.to_nat z)) z) as (d & ds & Hrev & Hdig & Hzero & Hpos & Hval);
      [lia|lia|].
    rewrite Hrev. unfold parse_number.
    assert (Hd45 : d <> 45) by (apply Forall_cons in Hdig as [Hd _]; unfold is_digit in Hd; lia).
    cbn [app]. replace (d =? 45) with false by lia.
    rewrite int_part_digits; [|done|done|].
    + rewrite frac_part_stop, exp_part_stop by done. rewrite Hval. done.
    + intros ->. destruct (Z.eq_dec z 0) as [->|]; [by apply Hzero|lia].
Qed.

(** ** Values *)

Lemma int_text_head z :
  exists c r, int_text z = c :: r /\
    (is_digit c = true \/ (c = 45 /\ exists d r', r = d :: r' /\ is_digit d = true)).
Proof.
  unfold int_text. destruct (Z.ltb_spec z 0).
  - destruct (digits_rev_spec (S (Z.to_nat (- z))) (- z)) as (d & ds & -> & Hdig & _); [lia|lia|].
    apply Forall_cons in Hdig as [Hd _]. eauto 10.
  - destruct (digits_rev_spec (S (Z.to_nat z)) z) as (d & ds & -> & Hdig & _); [lia|lia|].
    apply Forall_cons in Hdig as [Hd _]. eauto 10.
Qed.

Lemma parse_constant_int z rest :
  num_stop rest -> parse_constant (int_text z ++ rest) = Some (JInt z, rest).
Proof.
  intros Hr. rewrite <- (parse_number_int z rest Hr). unfold parse_constant.
  destruct (int_text_head z) as (c & r & Hz & [Hc | (-> & d & r' & -> & Hd)]); rewrite Hz;
    unfold is_digit, NULL, TRUE, FALSE, NAN, INFINITY in *; cbn [app].
  - rewrite !starts_with_ne by lia. done.
  - rewrite !starts_with_ne by lia. rewrite starts_with_same.
    rewrite !starts_with_ne by lia. done.
Qed.

Lemma dumps_at_head lvl v :
  exists c r, dumps_at lvl v = c :: r /\ is_ws c = false /\ c <> 93 /\ c <> 125 /\ c <> 0xFEFF.
Proof.
  destruct v as [| [] | z | [m e| [] |] | s | [|w vs] | [|kv kvs]]; simpl;
    try (eexists _, _; split; [reflexivity|]; repeat split; discriminate).
  - destruct (int_text_head z) as (c & r & -> & Hc). exists c, r.
    unfold is_digit, is_ws in *. destruct Hc as [Hc|(-> & _)]; repeat split; lia.
  - destruct (int_text_head m) as (c & r & -> & Hc). exists c, (r ++ 101 :: int_text e).
    unfold is_digit, is_ws in *. destruct Hc as [Hc|(-> & _)]; repeat split; lia.
Qed.

Lemma skip_ws_dumps lvl v rest : skip_ws (dumps_at lvl v ++ rest) = dumps_at lvl v ++ rest.
Proof.
  destruct (dumps_at_head lvl v) as (c & r & -> & Hc & _). by apply skip_ws_nonws.
Qed.

Lemma skip_ws_item k v rest : skip_ws (10 :: indent k ++ dumps_at k v ++ rest) = dumps_at k v ++ rest.
Proof. simpl. by rewrite skip_ws_indent, skip_ws_dumps. Qed.

Lemma skip_ws_close k c rest : is_ws c = false -> skip_ws (10 :: indent k ++ c :: rest) = c :: rest.
Proof. intros Hc. simpl. by rewrite skip_ws_indent, skip_ws_nonws. Qed.

Lemma parse_elements_items lvl ws w acc m rest :
  Forall roundtrips (w :: ws) ->
  (sum_list_with (fun x => S (vsize x)) (w :: ws) <= m)%nat ->
  parse_elements m (dumps_at (S lvl) w ++ sep_items (dumps_at (S lvl)) (S lvl) ws false ++
                    10 :: indent lvl ++ 93 :: rest) acc = Done (JArr (acc ++ w :: ws)) rest.
Proof.
  revert w acc m. induction ws as [|w' ws IH]; intros w acc m Hall Hm;
    apply Forall_cons in Hall as [Hw Hall]; destruct m as [|m]; simpl in Hm; try lia;
    cbn [parse_elements sep_items].
  - rewrite (Hw (S lvl) m) by (done || lia). rewrite app_nil_l, skip_ws_close by done. done.
  - cbn [app]. rewrite (Hw (S lvl) m) by (simpl; (done || lia)).
    rewrite skip_ws_nonws by done. cbn [Z.eqb Pos.eqb].
    rewrite <- !app_assoc, skip_ws_item, IH by (done || (simpl; lia)).
    by rewrite <- app_assoc.
Qed.

Lemma dump_string_app k x : dump_string k ++ x = 34 :: ((k ≫= escape_char) ++ 34 :: x).
Proof. unfold dump_string. simpl. by rewrite <- app_assoc. Qed.

Lemma skip_ws_dump_string k x : skip_ws (dump_string k ++ x) = dump_string k ++ x.
Proof. by rewrite dump_string_app, skip_ws_nonws. Qed.

Lemma skip_ws_nl_indent k s : skip_ws (10 :: indent k ++ s) = skip_ws s.
Proof. simpl. apply skip_ws_indent. Qed.

Lemma parse_members_items lvl kvs k w acc m rest :
  Forall (fun kv => roundtrips kv.2) ((k, w) :: kvs) ->
  Forall (fun kv => chars_ok kv.1) ((k, w) :: kvs) ->
  NoDup (acc ++ (k, w) :: kvs).*1 ->
  (sum_list_with (fun kv => S (vsize kv.2)) ((k, w) :: kvs) <= m)%nat ->
  parse_members m (dump_string k ++ 58 :: 32 :: dumps_at (S lvl) w ++
      sep_items (fun kv => dump_string kv.1 ++ 58 :: 32 :: dumps_at (S lvl) kv.2) (S lvl) kvs false ++
      10 :: indent lvl ++ 125 :: rest) acc = Done (JObj (acc ++ (k, w) :: kvs)) rest.
Proof.
  revert k w acc m. induction kvs as [|[k' w'] kvs IH]; intros k w acc m Hall Hkeys Hnd Hm;
    apply Forall_cons in Hall as [Hw Hall]; apply Forall_cons in Hkeys as [Hk Hkeys];
    cbn [fst snd] in Hw, Hk; destruct m as [|m]; simpl in Hm; try lia;
    rewrite dump_string_app; cbn [parse_members Z.eqb Pos.eqb];
    rewrite string_body_escape by done; cbn [rev app skip_ws is_ws Z.eqb Pos.eqb orb];
    assert (Hfresh : k ∉ acc.*1)
      by (rewrite fmap_app in Hnd; apply NoDup_app in Hnd as (_ & Hdis & _);
          intros Hin; apply (Hdis k Hin); simpl; set_solver);
    cbn [sep_items].
  - rewrite skip_ws_dumps, (Hw (S lvl) m) by (done || (simpl in *; lia)).
    rewrite app_nil_l, skip_ws_close by done. cbn [Z.eqb Pos.eqb].
    by rewrite dict_set_fresh.
  - cbn [app]. rewrite skip_ws_dumps, (Hw (S lvl) m) by (simpl; (done || lia)).
    rewrite skip_ws_nonws by done. cbn [Z.eqb Pos.eqb].
    rewrite <- ?app_assoc. cbn [app fst snd]. rewrite skip_ws_nl_indent.
    rewrite skip_ws_dump_string, dict_set_fresh by done.
    rewrite IH; [by rewrite <- app_assoc | done | done | by rewrite <- app_assoc | simpl; lia].
Qed.

Lemma parse_value_other n c r :
  c <> 34 -> c <> 123 -> c <> 91 ->
  parse_value (S n) (c :: r) = match parse_constant (c :: r) with Some (v, r') => Done v r' | None => Fail end.
Proof. intros H1 H2 H3. cbn [parse_value]. zbool. reflexivity. Qed.

Lemma dumps_roundtrip v : printable v -> roundtrips v.
Proof.
  induction v as [| b | z | f | s | vs IH | kvs IH] using value_ind';
    intros Hp lvl n rest Hn Hr; destruct n as [|n]; try (simpl in Hn; lia).
  - reflexivity.
  - by destruct b.
  - cbn [dumps_at]. destruct (int_text_head z) as (c & r & Hz & Hc).
    rewrite Hz. cbn [app]. rewrite parse_value_other by (unfold is_digit in *; lia).
    rewrite app_comm_cons, <- Hz, parse_constant_int by done. reflexivity.
  - done.
  - cbn [dumps_at]. rewrite dump_string_app. cbn [parse_value Z.eqb Pos.eqb].
    rewrite string_body_escape by done. reflexivity.
  - destruct vs as [|w ws]; [reflexivity|]. cbn [dumps_at sep_items].
    destruct (dumps_at_head (S lvl) w) as (c & r & Hw & Hc & Hc93 & _).
    cbn [app parse_value Z.eqb Pos.eqb]. rewrite <- !app_assoc. cbn [app].
    rewrite <- !app_assoc. cbn [app].
    rewrite skip_ws_nl_indent, skip_ws_dumps, Hw. cbn [app].
    rewrite (proj2 (Z.eqb_neq c 93)) by done.
    rewrite app_comm_cons, <- Hw, (parse_elements_items lvl ws w [] n rest).
    + done.
    + cbn [printable] in Hp. rewrite Forall_id_map, Forall_forall in Hp.
      rewrite Forall_forall in IH |- *. intros x Hx. by apply IH, Hp.
    + simpl in Hn |- *. lia.
  - destruct kvs as [|[k w] kvs]; [reflexivity|]. cbn [dumps_at sep_items].
    cbn [app parse_value Z.eqb Pos.eqb]. rewrite <- !app_assoc. cbn [app fst snd].
    rewrite <- !app_assoc. cbn [app].
    rewrite skip_ws_nl_indent, skip_ws_dump_string, dump_string_app. cbn [app Z.eqb Pos.eqb].
    rewrite <- dump_string_app.
    destruct Hp as (Hnd & Hkeys & Hp). rewrite Forall_id_map in Hp.
    rewrite (parse_members_items lvl kvs k w [] n rest).
    + done.
    + rewrite Forall_forall in IH, Hp |- *. intros x Hx. by apply IH, Hp.
    + done.
    + done.
    + simpl in Hn |- *. lia.
Qed.

Lemma sep_items_length {T : Type} (f : T -> text) k (l : list T) first :
  (sum_list_with (fun x => S (length (f x))) l <= length (sep_items f k l first))%nat.
Proof.
  revert first. induction l as [|x l IH]; intros first; simpl; [lia|].
  rewrite !length_app. specialize (IH false). destruct first; simpl; lia.
Qed.

Lemma sum_list_with_mono {T : Type} (f g : T -> nat) (l : list T) :
  Forall (fun x => f x <= g x)%nat l -> (sum_list_with f l <= sum_list_with g l)%nat.
Proof. induction 1; simpl; lia. Qed.

Lemma vsize_le_length lvl v : (vsize v <= length (dumps_at lvl v))%nat.
Proof.
  revert lvl. induction v as [| b | z | f | s | vs IH | kvs IH] using value_ind'; intros lvl;
    try (destruct (dumps_at_head lvl (JInt z)) as (c & r & -> & _); simpl; lia);
    try (destruct (dumps_at_head lvl (JFloat f)) as (c & r & -> & _); simpl; lia);
    try (destruct b; simpl; lia); try (simpl; lia).
  - destruct vs as [|w ws]; [simpl; lia|]. cbn [dumps_at vsize length].
    rewrite length_app. apply le_n_S.
    etransitivity; [|apply Nat.le_add_r]. etransitivity; [|apply sep_items_length].
    apply sum_list_with_mono. rewrite Forall_forall in IH |- *. intros x Hx.
    specialize (IH x Hx (S lvl)). lia.
  - destruct kvs as [|kv kvs]; [simpl; lia|]. cbn [dumps_at vsize length].
    rewrite length_app. apply le_n_S.
    etransitivity; [|apply Nat.le_add_r]. etransitivity; [|apply sep_items_length].
    apply sum_list_with_mono. rewrite Forall_forall in IH |- *. intros x Hx.
    specialize (IH x Hx (S lvl)). rewrite !length_app. simpl. lia.
Qed.

(** [json.loads] reads back what [model_dump_json] printed. *)
Theorem loads_dumps v : printable v -> loads (dumps v) = Some v.
Proof.
  intros Hp. unfold loads, loads_with, dumps.
  destruct (dumps_at_head 0 v) as (c & r & Hv & Hc & _ & _ & Hfeff).
  rewrite Hv. rewrite bool_decide_eq_false_2; [|simpl; intros Heq; by injection Heq].
  rewrite skip_ws_nonws by done. rewrite <- Hv, <- (app_nil_r (dumps_at 0 v)).
  rewrite (dumps_roundtrip v Hp 0%nat (S (length (dumps_at 0 v ++ []))) []); [done | | done].
  rewrite app_nil_r. pose proof (vsize_le_length 0 v). lia.
Qed.

(** C22: ensure_ascii=False: a string without quotes, backslashes and
    control characters, non-ASCII characters included, is printed as it is
    between quotes. *)
Theorem dump_string_verbatim s :
  Forall (fun c => 32 <= c /\ c <> 34 /\ c <> 92) s -> dump_string s = 34 :: s ++ [34].
Proof.
  intros Hs. unfold dump_string. do 2 f_equal.
  induction Hs as [|c s (Hlo & Hq & Hb) _ IH]; [done|]. rewrite bind_cons, IH.
  unfold escape_char. zbool. reflexivity.
Qed.

(** ** Termination: the fuel of [loads] is enough

    A call that succeeds consumes at least one character and needs no
    more fuel than the characters it consumes ([parse_ok]); so the fuel
    [length s + 1] never runs out before the parser, run without a
    bound, would have answered. *)


Lemma skip_ws_length s : (length (skip_ws s) <= length s)%nat.
Proof. induction s as [|c s IH]; simpl; [lia|]. case_match; simpl; lia. Qed.

Lemma span_digits_length s : (length (span_digits s).2 <= length s)%nat.
Proof. induction s as [|c s IH]; simpl; [lia|]. repeat case_match; simplify_eq/=; lia. Qed.

(** The length arguments of the digit scanners. *)
Ltac span_len :=
  repeat match goal with H : span_digits ?t = _ |- _ =>
    let H' := fresh in pose proof (span_digits_length t) as H'; rewrite H in H'; clear H end;
  simpl in *; lia.

Lemma int_part_length s ip r : int_part s = Some (ip, r) -> (length r < length s)%nat.
Proof. unfold int_part. repeat case_match; intros; simplify_eq; span_len. Qed.

Lemma frac_part_length s : (length (frac_part s).2 <= length s)%nat.
Proof. unfold frac_part. repeat case_match; simplify_eq; span_len. Qed.

Lemma exp_part_length s : (length (exp_part s).2 <= length s)%nat.
Proof. unfold exp_part. repeat case_match; simplify_eq; span_len. Qed.

Lemma parse_number_length s v r : parse_number s = Some (v, r) -> (length r < length s)%nat.
Proof.
  unfold parse_number. intros H.
  destruct (match s with c :: r => if c =? 45 then (true, r) else (false, s) | [] => (false, s) end)
    as [neg s1] eqn:Hs.
  assert (Hs1 : (length s1 <= length s)%nat) by (repeat case_match; simplify_eq/=; lia).
  destruct (int_part s1) as [[ip r1]|] eqn:Hi; [|done]. apply int_part_length in Hi.
  pose proof (frac_part_length r1). destruct (frac_part r1) as [fp r2].
  pose proof (exp_part_length r2). destruct (exp_part r2) as [ep r3]. simpl in *.
  repeat case_match; simplify_eq; lia.
Qed.

Lemma parse_constant_length s v r : parse_constant s = Some (v, r) -> (length r < length s)%nat.
Proof.
  unfold parse_constant, starts_with.
  repeat case_match; intros Hp; simplify_eq; try (by apply parse_number_length in Hp);
  match goal with Hb : bool_decide (take _ s = ?p) = true |- _ =>
    apply bool_decide_eq_true in Hb; apply (f_equal length) in Hb; rewrite length_take in Hb;
    unfold NULL, TRUE, FALSE, NAN, INFINITY in Hb; cbn [length] in Hb end; rewrite length_drop; lia.
Qed.

Lemma string_body_length s acc x r : string_body s acc = Some (x, r) -> (length r < length s)%nat.
Proof.
  revert acc. induction s as [s IH] using (induction_ltof1 _ (@length Z)); unfold ltof in IH.
  intros acc Hp. destruct s as [|c s]; [done|]. cbn [string_body] in Hp.
  repeat case_match; simplify_eq; try (simpl; lia); apply IH in Hp; simpl in *; lia.
Qed.

Section fuel_step.
Variable n : nat.
Hypothesis IHv : pv_ok n.
Hypothesis IHm : pm_ok n.
Hypothesis IHe : pe_ok n.

Lemma pv_step : pv_ok (S n).
Proof.
  intros s v r0 Hp. destruct s as [|c r]; [done|]. cbn [parse_value] in Hp.
  destruct (c =? 34) eqn:E1.
  { destruct (string_body r []) as [[str r']|] eqn:Hs; [|done]. injection Hp as <- <-.
    pose proof (string_body_length _ _ _ _ Hs). split; [simpl; lia|].
    intros [|m] Hm; [simpl in *; lia|]. cbn [parse_value]. by rewrite E1, Hs. }
  destruct (c =? 123) eqn:E2.
  { destruct (skip_ws r) as [|d r'] eqn:Hw; [done|].
    pose proof (skip_ws_length r) as Hwl. rewrite Hw in Hwl.
    destruct (d =? 125) eqn:E3.
    - injection Hp as <- <-. split; [simpl in *; lia|].
      intros [|m] Hm; [simpl in *; lia|]. cbn [parse_value]. by rewrite E1, E2, Hw, E3.
    - destruct (IHm _ _ _ _ Hp) as [Hl Hmm]. split; [simpl in *; lia|].
      intros [|m] Hm; [simpl in *; lia|]. cbn [parse_value]. rewrite E1, E2, Hw, E3.
      apply Hmm. simpl in *; lia. }
  destruct (c =? 91) eqn:E4.
  { destruct (skip_ws r) as [|d r'] eqn:Hw; [done|].
    pose proof (skip_ws_length r) as Hwl. rewrite Hw in Hwl.
    destruct (d =? 93) eqn:E3.
    - injection Hp as <- <-. split; [simpl in *; lia|].
      intros [|m] Hm; [simpl in *; lia|]. cbn [parse_value]. by rewrite E1, E2, E4, Hw, E3.
    - destruct (IHe _ _ _ _ Hp) as [Hl Hmm]. split; [simpl in *; lia|].
      intros [|m] Hm; [simpl in *; lia|]. cbn [parse_value]. rewrite E1, E2, E4, Hw, E3.
      apply Hmm. simpl in *; lia. }
  destruct (parse_constant (c :: r)) as [[v' r']|] eqn:Hc; [|done]. injection Hp as <- <-.
  pose proof (parse_constant_length _ _ _ Hc). split; [lia|].
  intros [|m] Hm; [simpl in *; lia|]. cbn [parse_value]. by rewrite E1, E2, E4, Hc.
Qed.

Lemma pm_step : pm_ok (S n).
Proof.
  intros s acc v r0 Hp. destruct s as [|c r]; [done|]. cbn [parse_members] in Hp.
  destruct (c =? 34) eqn:E1; [|done].
  destruct (string_body r []) as [[k r1]|] eqn:Hs; [|done].
  pose proof (string_body_length _ _ _ _ Hs).
  destruct (skip_ws r1) as [|d r2] eqn:Hw1; [done|].
  pose proof (skip_ws_length r1) as Hl1. rewrite Hw1 in Hl1.
  destruct (d =? 58) eqn:E2; [|done].
  destruct (parse_value n (skip_ws r2)) as [w r3| |] eqn:Hv; try done.
  pose proof (skip_ws_length r2). destruct (IHv _ _ _ Hv) as [Hl3 Hvm].
  destruct (skip_ws r3) as [|e r4] eqn:Hw3; [done|].
  pose proof (skip_ws_length r3) as Hl4. rewrite Hw3 in Hl4.
  destruct (e =? 125) eqn:E3.
  - injection Hp as <- <-. split; [simpl in *; lia|].
    intros [|m] Hm; [simpl in *; lia|]. cbn [parse_members].
    rewrite E1, Hs, Hw1, E2, Hvm by (simpl in *; lia). by rewrite Hw3, E3.
  - destruct (e =? 44) eqn:E4; [|done].
    pose proof (skip_ws_length r4). destruct (IHm _ _ _ _ Hp) as [Hl Hmm].
    split; [simpl in *; lia|].
    intros [|m] Hm; [simpl in *; lia|]. cbn [parse_members].
    rewrite E1, Hs, Hw1, E2, Hvm by (simpl in *; lia). rewrite Hw3, E3, E4.
    apply Hmm. simpl in *; lia.
Qed.

Lemma pe_step : pe_ok (S n).
Proof.
  intros s acc v r0 Hp. cbn [parse_elements] in Hp.
  destruct (parse_value n s) as [w r1| |] eqn:Hv; try done.
  destruct (IHv _ _ _ Hv) as [Hl1 Hvm].
  destruct (skip_ws r1) as [|e r2] eqn:Hw; [done|].
  pose proof (skip_ws_length r1) as Hl2. rewrite Hw in Hl2.
  destruct (e =? 93) eqn:E1.
  - injection Hp as <- <-. split; [simpl in *; lia|].
    intros [|m] Hm; [simpl in *; lia|]. cbn [parse_elements].
    rewrite Hvm by (simpl in *; lia). by rewrite Hw, E1.
  - destruct (e =? 44) eqn:E2; [|done].
    pose proof (skip_ws_length r2). destruct (IHe _ _ _ _ Hp) as [Hl Hmm].
    split; [simpl in *; lia|].
    intros [|m] Hm; [simpl in *; lia|]. cbn [parse_elements].
    rewrite Hvm by (simpl in *; lia). rewrite Hw, E1, E2. apply Hmm. simpl in *; lia.
Qed.
End fuel_step.

Lemma parse_ok f : pv_ok f /\ pm_ok f /\ pe_ok f.
Proof.
  induction f as [|n (IHv & IHm & IHe)].
  - split; [|split]; intros ?; simpl; discriminate.
  - split; [|split]; [apply pv_step | apply pm_step | apply pe_step]; done.
Qed.

(** The parser reads what the grammar derives, and only that
    ([parse_sound], [parse_complete]). *)
Lemma parse_sound f :
  (forall s v r, parse_value f s = Done v r -> jvalue s v r) /\
  (forall s acc v r, parse_members f s acc = Done v r ->
     exists kvs, jmembers s kvs r /\ v = JObj (obj_of acc kvs)) /\
  (forall s acc v r, parse_elements f s acc = Done v r ->
     exists vs, jelements s vs r /\ v = JArr (acc ++ vs)).
Proof.
  induction f as [|n (IHv & IHm & IHe)]; [split_and!; done|]. split_and!.
  - intros [|c t] v r Hp; [done|]. cbn [parse_value] in Hp.
    destruct (Z.eqb_spec c 34) as [->|N1].
    { destruct (string_body t []) as [[str r']|] eqn:Hs; simplify_eq. by constructor. }
    destruct (Z.eqb_spec c 123) as [->|N2].
    { destruct (skip_ws t) as [|d t'] eqn:Hw; [done|].
      destruct (Z.eqb_spec d 125) as [->|]; [simplify_eq; by constructor|].
      destruct (IHm _ _ _ _ Hp) as (kvs & Hm & ->). constructor. by rewrite Hw. }
    destruct (Z.eqb_spec c 91) as [->|N3].
    { destruct (skip_ws t) as [|d t'] eqn:Hw; [done|].
      destruct (Z.eqb_spec d 93) as [->|]; [simplify_eq; by constructor|].
      destruct (IHe _ _ _ _ Hp) as (vs & He & ->). constructor. by rewrite Hw. }
    destruct (parse_constant (c :: t)) as [[v' r']|] eqn:Hc; simplify_eq. by constructor.
  - intros [|c t] acc v r Hp; [done|]. cbn [parse_members] in Hp.
    destruct (Z.eqb_spec c 34) as [->|]; [|done].
    destruct (string_body t []) as [[k t1]|] eqn:Hs; [|done].
    destruct (skip_ws t1) as [|d t2] eqn:Hw1; [done|].
    destruct (Z.eqb_spec d 58) as [->|]; [|done].
    destruct (parse_value n (skip_ws t2)) as [w t3| |] eqn:Hv; try done. apply IHv in Hv.
    destruct (skip_ws t3) as [|e t4] eqn:Hw3; [done|].
    destruct (Z.eqb_spec e 125) as [->|].
    + simplify_eq. exists [(k, w)]. split; [exact (jm_last _ _ _ _ _ _ _ Hs Hw1 Hv Hw3)|done].
    + destruct (Z.eqb_spec e 44) as [->|]; [|done].
      destruct (IHm _ _ _ _ Hp) as (kvs & Hm & ->). exists ((k, w) :: kvs).
      split; [exact (jm_cons _ _ _ _ _ _ _ _ _ Hs Hw1 Hv Hw3 Hm)|done].
  - intros s acc v r Hp. cbn [parse_elements] in Hp.
    destruct (parse_value n s) as [w t| |] eqn:Hv; try done. apply IHv in Hv.
    destruct (skip_ws t) as [|e t'] eqn:Hw; [done|].
    destruct (Z.eqb_spec e 93) as [->|].
    + simplify_eq. exists [w]. split; [exact (je_last _ _ _ _ Hv Hw)|done].
    + destruct (Z.eqb_spec e 44) as [->|]; [|done].
      destruct (IHe _ _ _ _ Hp) as (vs & He & ->). exists (w :: vs).
      split; [exact (je_cons _ _ _ _ _ _ Hv Hw He)|by rewrite <- app_assoc].
Qed.



Lemma pv_fuel s v r m : (exists f, parse_value f s = Done v r) -> (length s <= m)%nat -> parse_value m s = Done v r.
Proof. intros [f Hf] Hm. apply (proj1 (parse_ok f) _ _ _ Hf). lia. Qed.

Lemma pm_fuel s acc v r m :
  (exists f, parse_members f s acc = Done v r) -> (length s <= m)%nat -> parse_members m s acc = Done v r.
Proof. intros [f Hf] Hm. apply (proj1 (proj2 (parse_ok f)) _ _ _ _ Hf). lia. Qed.

Lemma pe_fuel s acc v r m :
  (exists f, parse_elements f s acc = Done v r) -> (length s <= m)%nat -> parse_elements m s acc = Done v r.
Proof. intros [f Hf] Hm. apply (proj2 (proj2 (parse_ok f)) _ _ _ _ Hf). lia. Qed.

Lemma parse_constant_close t : parse_constant (93 :: t) = None.
Proof.
  unfold parse_constant, NULL, TRUE, FALSE, NAN, INFINITY.
  rewrite !starts_with_ne by lia. reflexivity.
Qed.

Lemma jmembers_head s kvs r : jmembers s kvs r -> exists t, s = 34 :: t.
Proof. by intros []; eexists. Qed.

Lemma jelements_head s vs r : jelements s vs r -> exists c t, s = c :: t /\ c <> 93.
Proof.
  intros Hel. assert (Hv : exists v t, jvalue s v t) by (destruct Hel; eauto).
  destruct Hv as (v & t & []); eexists _, _; split; try reflexivity; try lia.
  intros ->. by rewrite parse_constant_close in *.
Qed.

Lemma grammar_lengths t k t1 t2 :
  string_body t [] = Some (k, t1) -> skip_ws t1 = 58 :: t2 -> (length (skip_ws t2) < length t)%nat.
Proof.
  intros Hs Hw. pose proof (string_body_length _ _ _ _ Hs). pose proof (skip_ws_length t1).
  pose proof (skip_ws_length t2). rewrite Hw in *. simpl in *. lia.
Qed.

Lemma parse_complete :
  (forall s v r, jvalue s v r -> exists f, parse_value f s = Done v r) /\
  (forall s kvs r, jmembers s kvs r ->
     forall acc, exists f, parse_members f s acc = Done (JObj (obj_of acc kvs)) r) /\
  (forall s vs r, jelements s vs r ->
     forall acc, exists f, parse_elements f s acc = Done (JArr (acc ++ vs)) r).
Proof.
  apply jgrammar_mut.
  - intros t str r Hs. exists 1%nat. cbn [parse_value]. by rewrite Hs.
  - intros t r Hw. exists 1%nat. cbn [parse_value]. by rewrite Hw.
  - intros t kvs r Hm IH. destruct (jmembers_head _ _ _ Hm) as [t' Hw].
    exists (S (length t)). cbn [parse_value]. rewrite Hw. cbn [Z.eqb Pos.eqb].
    rewrite <- Hw. apply pm_fuel; [apply IH|apply skip_ws_length].
  - intros t r Hw. exists 1%nat. cbn [parse_value]. by rewrite Hw.
  - intros t vs r He IH. destruct (jelements_head _ _ _ He) as (c & t' & Hw & Hc).
    exists (S (length t)). cbn [parse_value]. rewrite Hw. cbn [Z.eqb Pos.eqb].
    destruct (Z.eqb_spec c 93); [done|]. rewrite <- Hw. apply pe_fuel; [apply IH|apply skip_ws_length].
  - intros c t v r N1 N2 N3 Hc. exists 1%nat. rewrite parse_value_other by done. by rewrite Hc.
  - intros t k t1 t2 v t3 r Hs Hw1 _ IH Hw3 acc. exists (S (length t)). cbn [parse_members].
    rewrite Hs, Hw1. cbn [Z.eqb Pos.eqb]. pose proof (grammar_lengths _ _ _ _ Hs Hw1).
    rewrite (pv_fuel _ _ _ _ IH) by lia. by rewrite Hw3.
  - intros t k t1 t2 v t3 t4 kvs r Hs Hw1 _ IHv Hw3 _ IHm acc. exists (S (length t)). cbn [parse_members].
    rewrite Hs, Hw1. cbn [Z.eqb Pos.eqb]. pose proof (grammar_lengths _ _ _ _ Hs Hw1).
    pose proof (skip_ws_length t4). destruct IHv as [f Hf]. destruct (proj1 (parse_ok _) _ _ _ Hf) as [Hl Hm].
    rewrite Hm by lia. rewrite Hw3. cbn [Z.eqb Pos.eqb].
    apply pm_fuel; [apply IHm|]. pose proof (skip_ws_length t3). rewrite Hw3 in *. simpl in *. lia.
  - intros s v t r _ IH Hw acc. exists (S (length s)). cbn [parse_elements].
    rewrite (pv_fuel _ _ _ _ IH) by lia. by rewrite Hw.
  - intros s v t t' vs r _ IHv Hw _ IHe acc. exists (S (length s)). cbn [parse_elements].
    destruct IHv as [f Hf]. destruct (proj1 (parse_ok _) _ _ _ Hf) as [Hl Hm].
    rewrite Hm by lia. rewrite Hw. cbn [Z.eqb Pos.eqb].
    rewrite (pe_fuel _ _ _ _ (length s) (IHe (acc ++ [v]))); [by rewrite <- app_assoc|].
    pose proof (skip_ws_length t'). pose proof (skip_ws_length t). rewrite Hw in *. simpl in *. lia.
Qed.



End JsonText.
