(* ===== verification/PyRepr.v ===== *)
(** Python's [str()] and [repr()] of the values [json.loads] builds:
    what inspect_outputs.py prints for [str(p0['year'])] (line 11) when
    the year is not an int.

    [str(v)] is [v] for a string and [repr(v)] otherwise.  [repr] of a
    string is CPython's [unicode_repr]: single quotes, or double quotes
    when the string holds a single quote and no double quote; the quote
    and the backslash escaped; \t, \n and \r by name; the other ASCII
    control characters and DEL as \xhh; printable non-ASCII characters as
    they are, the others as \xhh, \uhhhh or \Uhhhhhhhh (lowercase hex).
    A list is [[a, b]], a dict [{k: v}] with [repr] of its keys and
    values, None, True and False their names, an int its decimal text.

    Two tables of CPython are parameters of the section: which non-ASCII
    characters are printable ([Py_UNICODE_ISPRINTABLE], from the Unicode
    database) and the shortest repr of the binary64 float nearest to a
    decimal literal (CPython's [float_repr]); inf and nan are written
    'inf', '-inf' and 'nan'. *)

From S2P Require Import Prelude Text Json JsonText.
Import Json.

Module PyRepr.

Section Repr.
Variable isprintable : Z -> bool.
Variable float_repr : Z -> Z -> text.

(** [n] lowercase hex digits of [c], most significant first. *)
Fixpoint hex_digits (n : nat) (c : Z) : text :=
  match n with
  | O => []
  | S n' => hex_digits n' (c / 16) ++ [JsonText.hex_digit (c mod 16)]
  end.

(** One character of [unicode_repr] between quotes [quote]. *)
Definition repr_char (quote c : Z) : text :=
  if (c =? quote) || (c =? 92) then [92; c]
  else if c =? 9 then [92; 116]
  else if c =? 10 then [92; 110]
  else if c =? 13 then [92; 114]
  else if (c <? 32) || (c =? 127) then 92 :: 120 :: hex_digits 2 c
  else if c <? 127 then [c]
  else if isprintable c then [c]
  else if c <=? 0xFF then 92 :: 120 :: hex_digits 2 c
  else if c <=? 0xFFFF then 92 :: 117 :: hex_digits 4 c
  else 92 :: 85 :: hex_digits 8 c.

(** The quote [unicode_repr] chooses. *)
Definition repr_quote (s : text) : Z :=
  if bool_decide (39 ∈ s) && negb (bool_decide (34 ∈ s)) then 34 else 39.

Definition repr_str (s : text) : text :=
  let q := repr_quote s in q :: (s ≫= repr_char q) ++ [q].

Definition repr_float (f : pyfloat) : text :=
  match f with
  | FDec m e => float_repr m e
  | FInf false => txt "inf"
  | FInf true => txt "-inf"
  | FNaN => txt "nan"
  end.

Fixpoint repr (v : value) : text :=
  match v with
  | JNull => txt "None"
  | JBool b => if b then txt "True" else txt "False"
  | JInt z => JsonText.int_text z
  | JFloat f => repr_float f
  | JStr s => repr_str s
  | JArr vs => [91] ++ str_join [44; 32] (map repr vs) ++ [93]
  | JObj kvs =>
      [123] ++ str_join [44; 32] (map (fun kv => repr_str kv.1 ++ [58; 32] ++ repr kv.2) kvs) ++ [125]
  end.

(** [str(v)] *)
Definition str (v : value) : text :=
  match v with
  | JStr s => s
  | _ => repr v
  end.

End Repr.

End PyRepr.
