(* ===== verification/Schema.v ===== *)
(** The data model of pdf_to_json.py (lines 9-31) and its validation.

    [Options], [ExamProblem] and [ExamSet] are the pydantic models of the
    source, as records; [Subject] is the [Literal["process", "industry"]]
    of the field [subject].  [model_validate] is
    [ExamSet.model_validate] (line 109) on the value [json.loads]
    returned: it checks every field of every model in declaration order
    and returns either the list of all the errors, each with its location
    (a path of keys and list indices) and its pydantic error type, or the
    validated record.  Keys a model does not declare are ignored, which is
    pydantic's default.  [model_dump] is the value [model_dump_json]
    serialises (line 122), fields in declaration order.

    The coercions are those of pydantic's lax mode for the inputs
    [json.loads] can produce: an [int] field takes an int, a bool, a
    float with an integral value and a string of decimal digits; a [str]
    field takes only a string; a [Literal] field takes only one of its
    strings; a model takes only a dict; a [List] takes only a list. *)

From S2P Require Import Prelude Text Json JsonText.
Import Json.

Module Schema.

(** ** The models (lines 12-31) *)

Record Options : Type := mkOptions { A : text; B : text; C : text; D : text }.

Inductive Subject : Type := process | industry.

Record ExamProblem : Type := mkExamProblem {
  year : Z;
  exam_number : text;
  source : text;
  number : Z;
  subject : Subject;
  question : text;
  options : Options;
  answer : text
}.

Record ExamSet : Type := mkExamSet { problems : list ExamProblem }.

(** ** Validation errors *)

Inductive loc_item : Type := LKey (k : text) | LIdx (i : nat).

Inductive err_type : Type :=
  | missing | model_type | list_type | string_type
  | int_type | int_parsing | int_parsing_size | int_from_float | finite_number | literal_error.

Record ValidationError : Type := mkErr { loc : list loc_item; type : err_type }.

Abbreviation vres T := (list ValidationError + T)%type.

Definition at_loc (it : loc_item) (e : ValidationError) : ValidationError :=
  mkErr (it :: loc e) (type e).

Definition fail {T : Type} (t : err_type) : vres T := inl [mkErr [] t].

(** ** Field validators *)

Definition validate_str (v : value) : vres text :=
  match v with
  | JStr s => inr s
  | _ => fail string_type
  end.

(** Unicode White_Space, which pydantic trims around a number. *)
Definition is_white_space (c : Z) : bool :=
  ((9 <=? c) && (c <=? 13)) || (c =? 32) || (c =? 0x85) || (c =? 0xA0) ||
  (c =? 0x1680) || ((0x2000 <=? c) && (c <=? 0x200A)) || (c =? 0x2028) ||
  (c =? 0x2029) || (c =? 0x202F) || (c =? 0x205F) || (c =? 0x3000).

Fixpoint lstrip (s : text) : text :=
  match s with
  | c :: s' => if is_white_space c then lstrip s' else s
  | [] => []
  end.

Definition trim (s : text) : text := rev (lstrip (rev (lstrip s))).

(** An optional sign and at least one decimal digit. *)
Definition parse_decimal (s : text) : option Z :=
  match s with
  | 43 :: ((_ :: _) as d) => digits_value 0 d
  | 45 :: ((_ :: _) as d) => Z.opp <$> digits_value 0 d
  | _ :: _ => digits_value 0 s
  | [] => None
  end.

(** "12.000" is read as 12. *)
Definition strip_decimal_zeros (s : text) : option text :=
  match list_find (fun c => c = 46) s with
  | Some (i, _) => if forallb (fun c => c =? 48) (drop (S i) s) then Some (take i s) else None
  | None => None
  end.

(** The length of the UTF-8 form of [s], as Rust's [str::len]. *)
Definition utf8_len (s : text) : Z :=
  foldr (fun c n => (if c <? 0x80 then 1 else if c <? 0x800 then 2 else if c <? 0x10000 then 3 else 4) + n) 0 s.

(** pydantic-core's [str_as_int]: the text is trimmed; beyond 4300 bytes
    it is refused with [int_parsing_size]; otherwise it is an optional
    sign and digits, or that followed by a fraction of zeros. *)
Definition str_as_int (s : text) : err_type + Z :=
  let t := trim s in
  if 4300 <? utf8_len t then inl int_parsing_size
  else
    match parse_decimal t with
    | Some z => inr z
    | None =>
        match strip_decimal_zeros t ≫= parse_decimal with
        | Some z => inr z
        | None => inl int_parsing
        end
    end.

(** pydantic-core's [float_as_int]: an integral float strictly between
    [i64::MIN] and [i64::MAX] as floats (-2^63 and 2^63). *)
Definition float_as_int (z : Z) : vres Z :=
  if (- 2 ^ 63 <? z) && (z <? 2 ^ 63) then inr z else fail int_parsing_size.

Definition validate_int (v : value) : vres Z :=
  match v with
  | JInt z => inr z
  | JBool b => inr (Z.b2z b)
  | JFloat (FDec m e) =>
      if 0 <=? e then float_as_int (m * 10 ^ e)
      else if m mod 10 ^ (- e) =? 0 then float_as_int (m / 10 ^ (- e)) else fail int_from_float
  | JFloat _ => fail finite_number
  | JStr s => match str_as_int s with inr z => inr z | inl t => fail t end
  | _ => fail int_type
  end.

Definition validate_subject (v : value) : vres Subject :=
  match v with
  | JStr s =>
      if decide (s = txt "process") then inr process
      else if decide (s = txt "industry") then inr industry
      else fail literal_error
  | _ => fail literal_error
  end.

(** A required field: [missing] when the key is absent, otherwise the
    errors of its validator located under the key. *)
Definition field {T : Type} (k : text) (kvs : list (text * value))
    (f : value -> vres T) : vres T :=
  match dict_get k kvs with
  | None => inl [mkErr [LKey k] missing]
  | Some v => acc_map_err (at_loc (LKey k)) (f v)
  end.

(** ** Model validators *)

Definition validate_options (v : value) : vres Options :=
  match v with
  | JObj kvs =>
      mkOptions <$$> field (txt "A") kvs validate_str <*> field (txt "B") kvs validate_str
        <*> field (txt "C") kvs validate_str <*> field (txt "D") kvs validate_str
  | _ => fail model_type
  end.

Definition validate_problem (v : value) : vres ExamProblem :=
  match v with
  | JObj kvs =>
      mkExamProblem <$$> field (txt "year") kvs validate_int
        <*> field (txt "exam_number") kvs validate_str
        <*> field (txt "source") kvs validate_str
        <*> field (txt "number") kvs validate_int
        <*> field (txt "subject") kvs validate_subject
        <*> field (txt "question") kvs validate_str
        <*> field (txt "options") kvs validate_options
        <*> field (txt "answer") kvs validate_str
  | _ => fail model_type
  end.

Fixpoint validate_items {T : Type} (f : value -> vres T) (i : nat) (vs : list value)
  : vres (list T) :=
  match vs with
  | [] => inr []
  | v :: vs' => cons <$$> acc_map_err (at_loc (LIdx i)) (f v) <*> validate_items f (S i) vs'
  end.

Definition validate_list {T : Type} (f : value -> vres T) (v : value) : vres (list T) :=
  match v with
  | JArr vs => validate_items f 0 vs
  | _ => fail list_type
  end.

(** [ExamSet.model_validate(raw_json_data)] *)
Definition model_validate (v : value) : vres ExamSet :=
  match v with
  | JObj kvs => mkExamSet <$$> field (txt "problems") kvs (validate_list validate_problem)
  | _ => fail model_type
  end.

(** ** Serialisation *)

Definition dump_subject (s : Subject) : value :=
  JStr (match s with process => txt "process" | industry => txt "industry" end).

Definition dump_options (o : Options) : value :=
  JObj [(txt "A", JStr (A o)); (txt "B", JStr (B o)); (txt "C", JStr (C o));
        (txt "D", JStr (D o))].

Definition dump_problem (p : ExamProblem) : value :=
  JObj [(txt "year", JInt (year p)); (txt "exam_number", JStr (exam_number p));
        (txt "source", JStr (source p)); (txt "number", JInt (number p));
        (txt "subject", dump_subject (subject p)); (txt "question", JStr (question p));
        (txt "options", dump_options (options p)); (txt "answer", JStr (answer p))].

(** [validated_data.model_dump()], which [model_dump_json] prints. *)
Definition model_dump (es : ExamSet) : value :=
  JObj [(txt "problems", JArr (map dump_problem (problems es)))].

(** ** The schema as a relation

    What the models declare, stated without the validator: a value
    validates to a record when every declared key is present and holds
    a value of the declared type (for [int], a value pydantic coerces to
    that integer). *)

Definition has_field {T : Type} (kvs : list (text * value)) (k : text)
    (R : value -> T -> Prop) (x : T) : Prop :=
  exists v, dict_get k kvs = Some v /\ R v x.

Definition str_of (v : value) (s : text) : Prop := v = JStr s.
Definition int_of (v : value) (z : Z) : Prop := validate_int v = inr z.
Definition subject_of (v : value) (s : Subject) : Prop := v = dump_subject s.

Definition options_of (v : value) (o : Options) : Prop :=
  exists kvs, v = JObj kvs /\
    has_field kvs (txt "A") str_of (A o) /\ has_field kvs (txt "B") str_of (B o) /\
    has_field kvs (txt "C") str_of (C o) /\ has_field kvs (txt "D") str_of (D o).

Definition problem_of (v : value) (p : ExamProblem) : Prop :=
  exists kvs, v = JObj kvs /\
    has_field kvs (txt "year") int_of (year p) /\
    has_field kvs (txt "exam_number") str_of (exam_number p) /\
    has_field kvs (txt "source") str_of (source p) /\
    has_field kvs (txt "number") int_of (number p) /\
    has_field kvs (txt "subject") subject_of (subject p) /\
    has_field kvs (txt "question") str_of (question p) /\
    has_field kvs (txt "options") options_of (options p) /\
    has_field kvs (txt "answer") str_of (answer p).

Definition exam_set_of (v : value) (es : ExamSet) : Prop :=
  exists kvs vs, v = JObj kvs /\ dict_get (txt "problems") kvs = Some (JArr vs) /\
    Forall2 problem_of vs (problems es).

(** The keys [ExamProblem] declares. *)
Definition problem_keys : list text :=
  [txt "year"; txt "exam_number"; txt "source"; txt "number"; txt "subject";
   txt "question"; txt "options"; txt "answer"].

(** The value a location points to: keys in dicts, indices in lists. *)
Fixpoint value_at (v : value) (l : list loc_item) : option value :=
  match l with
  | [] => Some v
  | LKey k :: l' => match v with JObj kvs => dict_get k kvs ≫= fun w => value_at w l' | _ => None end
  | LIdx i :: l' => match v with JArr vs => vs !! i ≫= fun w => value_at w l' | _ => None end
  end.

(** An error is located in [v] when a [missing] error names a key absent
    from a dict of [v], and any other error names a value of [v]. *)
Definition located (v : value) (e : ValidationError) : Prop :=
  match type e with
  | missing => exists pre k kvs, loc e = pre ++ [LKey k] /\
      value_at v pre = Some (JObj kvs) /\ dict_get k kvs = None
  | _ => is_Some (value_at v (loc e))
  end.

(** The strings of a problem: code points, as Python strings are. *)
Definition problem_text (p : ExamProblem) : list text :=
  [exam_number p; source p; question p; A (options p); B (options p); C (options p);
   D (options p); answer p].
Definition exam_set_chars_ok (es : ExamSet) : Prop :=
  Forall (fun p => Forall chars_ok (problem_text p)) (problems es).

(** A validator whose every error is located in its input. *)
Definition locates {T : Type} (f : value -> vres T) : Prop :=
  forall v, Forall (located v) (errs_of (f v)).

(** ** Lemmas *)


Lemma field_spec {T : Type} (f : value -> vres T) (R : value -> T -> Prop) k kvs x :
  (forall v, f v = inr x <-> R v x) ->
  field k kvs f = inr x <-> has_field kvs k R x.
Proof.
  intros Hf. unfold field, has_field. destruct (dict_get k kvs) as [v|].
  - split.
    + intros H. exists v. split; [done|]. apply Hf. destruct (f v); simpl in H; congruence.
    + intros (? & [= <-] & HR). apply Hf in HR. by rewrite HR.
  - split; [discriminate|]. intros (? & ? & _). discriminate.
Qed.

Lemma validate_str_spec v s : validate_str v = inr s <-> str_of v s.
Proof. unfold str_of. destruct v; simpl; naive_solver. Qed.

Lemma validate_subject_spec v s : validate_subject v = inr s <-> subject_of v s.
Proof.
  unfold subject_of, dump_subject.
  destruct v; simpl; try (split; [discriminate|destruct s; discriminate]).
  repeat case_decide; subst; destruct s; split; intros Hv; simplify_eq; try done;
    vm_compute in *; congruence.
Qed.

Lemma has_field_str kvs k s : has_field kvs k str_of s <-> field k kvs validate_str = inr s.
Proof. symmetry. apply (field_spec validate_str str_of). intros. apply validate_str_spec. Qed.
Lemma has_field_int kvs k z : has_field kvs k int_of z <-> field k kvs validate_int = inr z.
Proof. symmetry. by apply (field_spec validate_int int_of). Qed.
Lemma has_field_subject kvs k s : has_field kvs k subject_of s <-> field k kvs validate_subject = inr s.
Proof. symmetry. apply (field_spec validate_subject subject_of). intros. apply validate_subject_spec. Qed.

Lemma validate_options_spec v o : validate_options v = inr o <-> options_of v o.
Proof.
  unfold options_of. destruct v; simpl; try (split; [discriminate|naive_solver]).
  setoid_rewrite has_field_str. split.
  - intros H. acc_inv. eexists; split; [reflexivity|]. simpl. auto.
  - intros (? & [= <-] & -> & -> & -> & ->). by destruct o.
Qed.

Lemma has_field_options kvs k o : has_field kvs k options_of o <-> field k kvs validate_options = inr o.
Proof. symmetry. apply (field_spec validate_options options_of). intros. apply validate_options_spec. Qed.

Lemma validate_problem_spec v p : validate_problem v = inr p <-> problem_of v p.
Proof.
  unfold problem_of. destruct v; simpl; try (split; [discriminate|naive_solver]).
  setoid_rewrite has_field_subject. setoid_rewrite has_field_options.
  setoid_rewrite has_field_int. setoid_rewrite has_field_str. split.
  - intros H. acc_inv. eexists; split; [reflexivity|]. simpl. auto 10.
  - intros (? & [= <-] & -> & -> & -> & -> & -> & -> & -> & ->). by destruct p.
Qed.

Lemma validate_items_spec {T : Type} (f : value -> vres T) (R : value -> T -> Prop) i vs xs :
  (forall v x, f v = inr x <-> R v x) ->
  validate_items f i vs = inr xs <-> Forall2 R vs xs.
Proof.
  intros Hf. revert i xs. induction vs as [|v vs IH]; intros i xs; simpl.
  - split; [intros [= <-]; constructor | intros H; by inversion H].
  - split.
    + intros H. acc_inv. destruct (f v) eqn:Hv; simpl in *; simplify_eq.
      constructor; [by apply Hf | by eapply IH].
    + intros H. inversion H as [|? x ? xs' HR Hrest]; subst.
      apply Hf in HR. rewrite HR. apply (IH (S i)) in Hrest. by rewrite Hrest.
Qed.

(** C7: model_validate accepts a value exactly when the value has every
    declared field with a value of the declared type (the schema as a
    relation), and returns the record the relation gives. *)
Theorem model_validate_spec v es : model_validate v = inr es <-> exam_set_of v es.
Proof.
  unfold exam_set_of. destruct v; cbn [model_validate]; try (split; [discriminate|naive_solver]).
  unfold field, validate_list.
  pose proof (validate_items_spec validate_problem problem_of 0) as Hspec.
  destruct (dict_get (txt "problems") kvs) as [w|] eqn:Hget; [|naive_solver].
  split.
  - intros H. destruct w as [| | | | |vs|]; cbn [fail acc_map_err acc_fmap] in H;
      try discriminate.
    destruct (validate_items validate_problem 0 vs) eqn:Hi; cbn in H; simplify_eq.
    exists kvs, vs. split; [reflexivity|]. split; [exact Hget|].
    apply Hspec; [apply validate_problem_spec | done].
  - intros (? & vs & [= <-] & Hget' & Hall). rewrite Hget in Hget'. injection Hget' as ->. apply Hspec in Hall; [|apply validate_problem_spec].
    simpl. rewrite Hall. by destruct es.
Qed.

Lemma validate_dump_problem p : validate_problem (dump_problem p) = inr p.
Proof. destruct p as [? ? ? ? [] ? [] ?]; vm_compute; reflexivity. Qed.

Lemma validate_items_dump i ps : validate_items validate_problem i (map dump_problem ps) = inr ps.
Proof.
  revert i. induction ps as [|p ps IH]; intros i; cbn [map validate_items]; [done|].
  by rewrite validate_dump_problem, IH.
Qed.

(** Validating what [model_dump] produced gives the record back. *)
Theorem model_validate_dump es : model_validate (model_dump es) = inr es.
Proof.
  destruct es as [ps]. unfold model_validate, model_dump, field, validate_list.
  cbn [dict_get problems]. rewrite decide_True by done.
  cbn [acc_map_err acc_fmap]. rewrite validate_items_dump. reflexivity.
Qed.

(** ** Errors: where they are reported *)

Lemma errs_field_some {T : Type} k kvs (f : value -> vres T) v :
  dict_get k kvs = Some v -> errs_of (field k kvs f) = map (at_loc (LKey k)) (errs_of (f v)).
Proof. intros H. unfold field. rewrite H. apply errs_of_map_err. Qed.

Lemma errs_field_none {T : Type} k kvs (f : value -> vres T) :
  dict_get k kvs = None -> errs_of (field k kvs f) = [mkErr [LKey k] missing].
Proof. intros H. unfold field. by rewrite H. Qed.

Lemma errs_validate_items_elem {T : Type} (f : value -> vres T) i vs j v e :
  vs !! j = Some v -> e ∈ errs_of (f v) ->
  at_loc (LIdx (i + j)) e ∈ errs_of (validate_items f i vs).
Proof.
  revert i j. induction vs as [|v' vs IH]; intros i j Hj He; [done|].
  cbn [validate_items]. rewrite errs_of_ap, errs_of_fmap, errs_of_map_err.
  destruct j as [|j]; simpl in Hj.
  - injection Hj as ->. rewrite Nat.add_0_r. apply elem_of_app. left. by apply list_elem_of_fmap_2.
  - apply elem_of_app. right. rewrite <- Nat.add_succ_comm. by apply IH.
Qed.

(** Every error of one problem is reported by [model_validate], under
    the key [problems] and the problem's index. *)
Lemma problem_errors_reported kvs vs i w e :
  dict_get (txt "problems") kvs = Some (JArr vs) -> vs !! i = Some w ->
  e ∈ errs_of (validate_problem w) ->
  exists es, model_validate (JObj kvs) = inl es /\
    at_loc (LKey (txt "problems")) (at_loc (LIdx i) e) ∈ es.
Proof.
  intros Hget Hi He. apply errs_of_inl. cbn [model_validate].
  rewrite errs_of_fmap, (errs_field_some _ _ _ _ Hget). apply list_elem_of_fmap_2.
  apply (errs_validate_items_elem _ 0 _ i w e Hi He).
Qed.

Lemma validate_problem_errs kvs :
  errs_of (validate_problem (JObj kvs)) =
  errs_of (field (txt "year") kvs validate_int) ++ errs_of (field (txt "exam_number") kvs validate_str) ++
  errs_of (field (txt "source") kvs validate_str) ++ errs_of (field (txt "number") kvs validate_int) ++
  errs_of (field (txt "subject") kvs validate_subject) ++ errs_of (field (txt "question") kvs validate_str) ++
  errs_of (field (txt "options") kvs validate_options) ++ errs_of (field (txt "answer") kvs validate_str).
Proof. cbn [validate_problem]. autorewrite with qg_rw. by rewrite !app_assoc. Qed.

Lemma validate_options_errs kvs :
  errs_of (validate_options (JObj kvs)) =
  errs_of (field (txt "A") kvs validate_str) ++ errs_of (field (txt "B") kvs validate_str) ++
  errs_of (field (txt "C") kvs validate_str) ++ errs_of (field (txt "D") kvs validate_str).
Proof. cbn [validate_options]. autorewrite with qg_rw. by rewrite !app_assoc. Qed.

(** C12: a problem whose options lack one of A, B, C, D is rejected with a
    missing error located at problems, the index, options and the key. *)
Theorem model_validate_missing_option kvs vs i pkvs okvs k :
  dict_get (txt "problems") kvs = Some (JArr vs) ->
  vs !! i = Some (JObj pkvs) ->
  dict_get (txt "options") pkvs = Some (JObj okvs) ->
  k ∈ [txt "A"; txt "B"; txt "C"; txt "D"] ->
  dict_get k okvs = None ->
  exists es, model_validate (JObj kvs) = inl es /\
    mkErr [LKey (txt "problems"); LIdx i; LKey (txt "options"); LKey k] missing ∈ es.
Proof.
  intros Hget Hi Hopt Hk Hnone.
  apply (problem_errors_reported _ _ _ _ (at_loc (LKey (txt "options")) (mkErr [LKey k] missing))
           Hget Hi).
  rewrite validate_problem_errs, (errs_field_some _ _ _ _ Hopt).
  do 6 (apply elem_of_app; right). apply elem_of_app; left.
  apply list_elem_of_fmap_2. rewrite validate_options_errs.
  repeat rewrite elem_of_cons in Hk; rewrite elem_of_nil in Hk.
  destruct Hk as [->|[->|[->|[->|[]]]]]; rewrite (errs_field_none _ _ _ Hnone); set_solver.
Qed.


(** ** Undeclared keys *)

Lemma field_dict_set_ne {T : Type} k k' w kvs (f : value -> vres T) :
  k' <> k -> field k' (dict_set k w kvs) f = field k' kvs f.
Proof. intros Hne. unfold field. by rewrite dict_get_set_ne. Qed.

(** C24: keys ExamProblem does not declare are ignored: adding or
    overwriting one does not change the validation of a problem. *)
Theorem validate_problem_extra_key kvs k w :
  k ∉ problem_keys ->
  validate_problem (JObj (dict_set k w kvs)) = validate_problem (JObj kvs).
Proof.
  unfold problem_keys. intros Hk. cbn [validate_problem].
  rewrite !(field_dict_set_ne k) by set_solver. reflexivity.
Qed.

(** The dump of a validated record is a value the JSON printer handles. *)
Lemma chars_ok_txt_keys : Forall chars_ok (problem_keys ++ [txt "problems"; txt "A"; txt "B"; txt "C"; txt "D"; txt "process"; txt "industry"]).
Proof. unfold chars_ok. vm_compute. repeat constructor; discriminate. Qed.

Lemma dump_problem_printable p : Forall chars_ok (problem_text p) -> printable (dump_problem p).
Proof.
  pose proof chars_ok_txt_keys as Hk.
  unfold problem_text. rewrite !Forall_cons. intros (H1 & H2 & H3 & H4 & H5 & H6 & H7 & H8 & _).
  repeat (apply Forall_cons in Hk as [? Hk]).
  cbn [printable dump_problem fmap list_fmap fst snd map]. split; [vm_compute; repeat constructor; set_solver|].
  split; [repeat constructor; done|].
  destruct (subject p); repeat constructor; cbn; try done; vm_compute; repeat constructor; set_solver.
Qed.

Lemma model_dump_printable es : exam_set_chars_ok es -> printable (model_dump es).
Proof.
  pose proof chars_ok_txt_keys as Hk. repeat (apply Forall_cons in Hk as [? Hk]).
  unfold exam_set_chars_ok, model_dump. intros Hes.
  cbn [printable fmap list_fmap fst snd map]. split; [apply NoDup_singleton|].
  split; [by repeat constructor|]. constructor; [|constructor].
  cbn [printable]. rewrite Forall_id_map, Forall_fmap.
  eapply Forall_impl; [exact Hes|]. intros p Hp. by apply dump_problem_printable.
Qed.

(** ** Lax mode: the int fields take numeric strings *)

Lemma lstrip_ws w x : Forall (fun c => is_white_space c = true) w -> lstrip (w ++ x) = lstrip x.
Proof. induction w as [|c w IH]; intros Hw; [done|]. apply Forall_cons in Hw as [Hc Hw]. simpl. rewrite Hc. by apply IH. Qed.

Lemma lstrip_none x : Forall (fun c => is_white_space c = false) x -> lstrip x = x.
Proof. destruct x as [|c x]; intros Hx; [done|]. apply Forall_cons in Hx as [Hc _]. simpl. by rewrite Hc. Qed.

Lemma trim_around w1 x w2 :
  Forall (fun c => is_white_space c = true) w1 -> Forall (fun c => is_white_space c = true) w2 ->
  Forall (fun c => is_white_space c = false) x -> x <> [] -> trim (w1 ++ x ++ w2) = x.
Proof.
  intros H1 H2 Hx Hne. unfold trim. rewrite lstrip_ws by done.
  destruct x as [|c r]; [done|]. pose proof Hx as Hc. apply Forall_cons in Hc as [Hc _].
  replace (lstrip ((c :: r) ++ w2)) with ((c :: r) ++ w2) by (simpl; by rewrite Hc).
  rewrite rev_app_distr, lstrip_ws by (by apply Forall_rev).
  rewrite lstrip_none by (by apply Forall_rev). apply rev_involutive.
Qed.

(** The ten digits, one by one. *)
Lemma digit_cases c : JsonText.is_digit c = true ->
  c = 48 \/ c = 49 \/ c = 50 \/ c = 51 \/ c = 52 \/ c = 53 \/ c = 54 \/ c = 55 \/ c = 56 \/ c = 57.
Proof. unfold JsonText.is_digit. intros H. bool_facts. lia. Qed.

Lemma digit_not_ws c : JsonText.is_digit c = true -> is_white_space c = false.
Proof. intros H. apply digit_cases in H. repeat destruct H as [H|H]; subst; reflexivity. Qed.

Lemma parse_decimal_digit d ds : JsonText.is_digit d = true -> parse_decimal (d :: ds) = digits_value 0 (d :: ds).
Proof. intros H. apply digit_cases in H. repeat destruct H as [H|H]; subst; reflexivity. Qed.

Lemma utf8_len_ascii s : Forall (fun c => c < 0x80) s -> utf8_len s = Z.of_nat (length s).
Proof.
  induction s as [|c s IH]; intros Hs; [done|]. apply Forall_cons in Hs as [Hc Hs].
  unfold utf8_len in *. cbn [foldr length]. rewrite IH by done.
  destruct (Z.ltb_spec c 0x80); lia.
Qed.

Lemma int_text_parts z :
  exists d ds, Forall (fun c => JsonText.is_digit c = true) (d :: ds) /\ digits_value 0 (d :: ds) = Some (Z.abs z) /\
    JsonText.int_text z = if z <? 0 then 45 :: d :: ds else d :: ds.
Proof.
  unfold JsonText.int_text. destruct (Z.ltb_spec z 0).
  - destruct (JsonText.digits_rev_spec (S (Z.to_nat (- z))) (- z)) as (d & ds & -> & Hd & _ & _ & Hv);
      [lia|lia|]. exists d, ds. rewrite Z.abs_neq by lia. done.
  - destruct (JsonText.digits_rev_spec (S (Z.to_nat z)) z) as (d & ds & -> & Hd & _ & _ & Hv);
      [lia|lia|]. exists d, ds. rewrite Z.abs_eq by lia. done.
Qed.

(** ** Error locations *)

Lemma located_fail {T : Type} v t : t <> missing -> Forall (located v) (errs_of (@fail T t)).
Proof. intros Ht. repeat constructor. unfold located. simpl. by destruct t. Qed.

Lemma located_at_key kvs k w e :
  dict_get k kvs = Some w -> located w e -> located (JObj kvs) (at_loc (LKey k) e).
Proof.
  intros Hk. unfold located, at_loc. simpl. destruct (type e).
  all: try (intros Hs; by rewrite Hk).
  intros (pre & k' & kvs' & Hl & Hv & Hn). exists (LKey k :: pre), k', kvs'.
  rewrite Hl. simpl. by rewrite Hk.
Qed.

Lemma located_at_idx vs i w e :
  vs !! i = Some w -> located w e -> located (JArr vs) (at_loc (LIdx i) e).
Proof.
  intros Hi. unfold located, at_loc. simpl. destruct (type e).
  all: try (intros Hs; by rewrite Hi).
  intros (pre & k' & kvs' & Hl & Hv & Hn). exists (LIdx i :: pre), k', kvs'.
  rewrite Hl. simpl. by rewrite Hi.
Qed.

Lemma field_locates {T : Type} (f : value -> vres T) k kvs :
  locates f -> Forall (located (JObj kvs)) (errs_of (field k kvs f)).
Proof.
  intros Hf. unfold field. destruct (dict_get k kvs) as [w|] eqn:Hk.
  - rewrite errs_of_map_err, Forall_fmap. eapply Forall_impl; [apply Hf|].
    intros e He. by eapply located_at_key.
  - repeat constructor. exists [], k, kvs. done.
Qed.

Lemma validate_str_locates : locates validate_str.
Proof. intros []; first [apply List.Forall_nil | by apply located_fail]. Qed.

Lemma str_as_int_err s t : str_as_int s = inl t -> t <> missing.
Proof. unfold str_as_int. repeat case_match; intros [= <-]; discriminate. Qed.

Lemma validate_int_locates : locates validate_int.
Proof.
  intros v. unfold validate_int, float_as_int.
  repeat case_match; first [apply List.Forall_nil | by apply located_fail
                           | apply located_fail; eapply str_as_int_err; eassumption].
Qed.

Lemma validate_subject_locates : locates validate_subject.
Proof. intros v. unfold validate_subject. repeat case_match; first [apply List.Forall_nil | by apply located_fail]. Qed.

#[local] Hint Resolve validate_str_locates validate_int_locates validate_subject_locates : qg.

Lemma validate_options_locates : locates validate_options.
Proof.
  intros [| | | | | |kvs]; try (by apply located_fail).
  rewrite validate_options_errs. repeat apply Forall_app_2; apply field_locates; eauto with qg.
Qed.

Lemma validate_problem_locates : locates validate_problem.
Proof.
  intros [| | | | | |kvs]; try (by apply located_fail).
  rewrite validate_problem_errs.
  repeat apply Forall_app_2; apply field_locates; eauto using validate_options_locates with qg.
Qed.

Lemma validate_items_locates {T : Type} (f : value -> vres T) pre vs :
  locates f -> Forall (located (JArr (pre ++ vs))) (errs_of (validate_items f (length pre) vs)).
Proof.
  intros Hf. revert pre. induction vs as [|w vs IH]; intros pre; [constructor|].
  cbn [validate_items]. rewrite errs_of_ap, errs_of_fmap, errs_of_map_err.
  apply Forall_app_2.
  - rewrite Forall_fmap. eapply Forall_impl; [apply Hf|]. intros e He. eapply located_at_idx; [|done].
    by rewrite list_lookup_middle.
  - specialize (IH (pre ++ [w])). rewrite <- app_assoc, length_app in IH. simpl in IH.
    by rewrite Nat.add_1_r in IH.
Qed.

(** C14: every error model_validate reports names a place of its input: a
    missing key of a dict of the input, or a value of the input. *)
Theorem model_validate_errors_located v es :
  model_validate v = inl es -> Forall (located v) es.
Proof.
  intros Hv. change es with (errs_of (inl (B:=ExamSet) es)). rewrite <- Hv.
  destruct v as [| | | | | |kvs]; try (by apply located_fail).
  cbn [model_validate]. rewrite errs_of_fmap. apply field_locates.
  intros [| | | | | vs|]; try (by apply located_fail).
  apply (validate_items_locates _ []), validate_problem_locates.
Qed.

(** C29: pydantic's lax mode: an int field (year, number) takes a string
    holding the decimal text of an int, with white space around it, as
    that int, unless the text is longer than 4300 characters, which
    pydantic refuses with int_parsing_size. *)
Theorem validate_int_numeric_str z w1 w2 :
  Forall (fun c => is_white_space c = true) w1 -> Forall (fun c => is_white_space c = true) w2 ->
  validate_int (JStr (w1 ++ JsonText.int_text z ++ w2)) =
    if Z.of_nat (length (JsonText.int_text z)) <=? 4300 then inr z else fail int_parsing_size.
Proof.
  intros H1 H2. destruct (int_text_parts z) as (d & ds & Hd & Hv & Ht).
  pose proof Hd as Hd0. apply Forall_cons in Hd0 as [Hd0 _].
  assert (Hnws : Forall (fun c => is_white_space c = false) (JsonText.int_text z)).
  { assert (Hds : Forall (fun c => is_white_space c = false) (d :: ds))
      by (eapply Forall_impl; [exact Hd|]; intros c; apply digit_not_ws).
    rewrite Ht. destruct (z <? 0); [by constructor|done]. }
  assert (Hlen : utf8_len (JsonText.int_text z) = Z.of_nat (length (JsonText.int_text z))).
  { apply utf8_len_ascii. assert (Hds : Forall (fun c => c < 0x80) (d :: ds))
      by (eapply Forall_impl; [exact Hd|]; intros c Hc; apply digit_cases in Hc; lia).
    rewrite Ht. destruct (z <? 0); [constructor; [lia|done]|done]. }
  cbn [validate_int]. unfold str_as_int. rewrite trim_around by (done || (rewrite Ht; by destruct (z <? 0))).
  rewrite Hlen. destruct (Z.ltb_spec 4300 (Z.of_nat (length (JsonText.int_text z)))),
    (Z.leb_spec (Z.of_nat (length (JsonText.int_text z))) 4300); try lia; [done|].
  rewrite Ht. destruct (Z.ltb_spec z 0).
  - cbn [parse_decimal]. rewrite Hv. simpl. f_equal. lia.
  - rewrite parse_decimal_digit, Hv by done. f_equal. lia.
Qed.

End Schema.
