(* ===== verification/Paths.v ===== *)
(** Path names: [os.path] as CPython's posixpath writes it, and the
    output-file name of pdf_to_json.py.

    [basename], [join] and [splitext] follow posixpath.basename,
    posixpath.join (two arguments) and genericpath._splitext with
    [sep = '/'], no altsep and [extsep = '.'].  [output_filepath] is lines
    45-51 of pdf_to_json.py: the base name of the input, its extension
    replaced by "_structured_output.json", joined to [OUT_DIR]. *)

From S2P Require Import Prelude Text.

Module Paths.

Definition SEP : Z := 47.     (* '/' *)
Definition EXTSEP : Z := 46.  (* '.' *)

(** [s.rfind(c)]: the last index of [c], or None for -1. *)
Fixpoint rfind_from (c : Z) (s : text) (i : nat) (acc : option nat) : option nat :=
  match s with
  | [] => acc
  | x :: s' => rfind_from c s' (S i) (if x =? c then Some i else acc)
  end.

Definition rfind (c : Z) (s : text) : option nat := rfind_from c s 0 None.

(** [p[rfind(sep) + 1:]] *)
Definition basename (p : text) : text :=
  drop (match rfind SEP p with Some i => S i | None => 0%nat end) p.

(** [os.path.join(a, b)] *)
Definition join (a b : text) : text :=
  match b with
  | c :: _ => if c =? SEP then b
              else if bool_decide (a = []) || bool_decide (last a = Some SEP) then a ++ b
              else a ++ [SEP] ++ b
  | [] => if bool_decide (a = []) || bool_decide (last a = Some SEP) then a ++ b
          else a ++ [SEP] ++ b
  end.

(** The loop of _splitext over [p[filenameIndex:dotIndex]]: it returns a
    split as soon as it meets a character that is not a dot. *)
Fixpoint has_non_dot (s : text) : bool :=
  match s with
  | [] => false
  | c :: s' => if c =? EXTSEP then has_non_dot s' else true
  end.

(** [os.path.splitext(p)] *)
Definition splitext (p : text) : text * text :=
  let sepIndex := rfind SEP p in
  match rfind EXTSEP p with
  | Some dotIndex =>
      let filenameIndex := match sepIndex with Some i => S i | None => 0%nat end in
      if bool_decide (filenameIndex <= dotIndex)%nat
         && has_non_dot (take (dotIndex - filenameIndex) (drop filenameIndex p))
      then (take dotIndex p, drop dotIndex p)
      else (p, [])
  | None => (p, [])
  end.

Definition SUFFIX : text := txt "_structured_output.json".
Definition OUT_DIR : text := txt "./json".

(** The directory part of every output path: ["./json/"]. *)
Definition JSON_DIR_PREFIX : text := OUT_DIR ++ [SEP].

(** Lines 48-50: [output_filename] from [file_name_only]. *)
Definition output_filename (file_name_only : text) : text :=
  (splitext file_name_only).1 ++ SUFFIX.

(** Lines 45-51: [output_filepath] from [file_path]. *)
Definition output_filepath (file_path : text) : text :=
  join OUT_DIR (output_filename (basename file_path)).

(** ** Lemmas *)

Lemma rfind_from_app c s1 s2 i acc :
  rfind_from c (s1 ++ s2) i acc = rfind_from c s2 (i + length s1) (rfind_from c s1 i acc).
Proof.
  revert i acc. induction s1 as [|x s1 IH]; intros i acc; simpl.
  - by rewrite Nat.add_0_r.
  - rewrite IH. f_equal. lia.
Qed.

Lemma rfind_snoc c s x :
  rfind c (s ++ [x]) = if x =? c then Some (length s) else rfind c s.
Proof. unfold rfind. rewrite rfind_from_app. simpl. by destruct (x =? c). Qed.

Lemma rfind_app_notin c s1 s2 :
  c ∉ s2 -> rfind c (s1 ++ s2) = rfind c s1.
Proof.
  revert s1. induction s2 as [|x s2 IH] using rev_ind; intros s1 Hc.
  - by rewrite app_nil_r.
  - rewrite app_assoc, rfind_snoc, IH by set_solver.
    destruct (Z.eqb_spec x c); [set_solver | done].
Qed.

Lemma rfind_notin c s : c ∉ s -> rfind c s = None.
Proof. intros H. by rewrite <- (app_nil_l s), rfind_app_notin. Qed.

Lemma has_non_dot_nodot (b : text) : EXTSEP ∉ b -> b <> [] -> has_non_dot b = true.
Proof.
  destruct b as [|c b]; [done|]. intros Hc _. simpl.
  destruct (Z.eqb_spec c EXTSEP); [set_solver | done].
Qed.

(** The split of "name.ext" when the name is a non-empty file name
    without dots and the extension has no dot or slash. *)
Lemma splitext_name_ext (b e : text) :
  b <> [] -> EXTSEP ∉ b -> SEP ∉ b -> EXTSEP ∉ e -> SEP ∉ e ->
  splitext (b ++ EXTSEP :: e) = (b, EXTSEP :: e).
Proof.
  intros Hb Hbd Hbs Hed Hes. unfold splitext.
  assert (Hsep : SEP ∉ b ++ EXTSEP :: e).
  { rewrite elem_of_app, elem_of_cons. intros [H|[H|H]]; [by apply Hbs| |by apply Hes].
    unfold SEP, EXTSEP in H. lia. }
  rewrite (rfind_notin SEP) by exact Hsep.
  replace (b ++ EXTSEP :: e) with ((b ++ [EXTSEP]) ++ e) by (rewrite <- app_assoc; reflexivity).
  rewrite rfind_app_notin, rfind_snoc by done. rewrite Z.eqb_refl.
  rewrite drop_0, Nat.sub_0_r, <- app_assoc.
  rewrite (take_app_length b), (drop_app_length b), has_non_dot_nodot by assumption.
  reflexivity.
Qed.

(** A name without extension keeps its whole name as root. *)
Lemma splitext_no_ext (b : text) : EXTSEP ∉ b -> splitext b = (b, []).
Proof. intros H. unfold splitext. by rewrite (rfind_notin EXTSEP). Qed.

(** C23: distinct inputs name.pdf, name.txt and name share one output file
    name, so the later ones are skipped. *)
Theorem output_filename_collision (b e1 e2 : text) :
  b <> [] -> EXTSEP ∉ b -> SEP ∉ b ->
  EXTSEP ∉ e1 -> SEP ∉ e1 -> EXTSEP ∉ e2 -> SEP ∉ e2 ->
  output_filename (b ++ EXTSEP :: e1) = output_filename (b ++ EXTSEP :: e2) /\
  output_filename (b ++ EXTSEP :: e1) = output_filename b.
Proof.
  intros Hb Hbd Hbs H1d H1s H2d H2s. unfold output_filename.
  rewrite (splitext_name_ext b e1), (splitext_name_ext b e2), splitext_no_ext
    by assumption.
  done.
Qed.

(** ** Where the output goes *)

Lemma rfind_spec c s :
  match rfind c s with
  | Some i => exists s1 s2, s = s1 ++ c :: s2 /\ (c ∉ s2) /\ length s1 = i
  | None => c ∉ s
  end.
Proof.
  induction s as [|x s IH] using rev_ind; [apply not_elem_of_nil|].
  rewrite rfind_snoc. destruct (Z.eqb_spec x c) as [->|Hne].
  - exists s, []. split; [done|]. split; [apply not_elem_of_nil|done].
  - destruct (rfind c s) as [i|].
    + destruct IH as (s1 & s2 & -> & Hc & Hlen). exists s1, (s2 ++ [x]).
      rewrite <- app_assoc. split; [done|]. split; [|done]. set_solver.
    + set_solver.
Qed.

Lemma basename_no_sep p : SEP ∉ basename p.
Proof.
  unfold basename. pose proof (rfind_spec SEP p) as Hr. destruct (rfind SEP p) as [i|].
  - destruct Hr as (s1 & s2 & -> & Hc & <-).
    rewrite drop_app_ge by lia. replace (S (length s1) - length s1)%nat with 1%nat by lia. done.
  - by rewrite drop_0.
Qed.

Lemma splitext_root_sub p c : c ∉ p -> c ∉ (splitext p).1.
Proof.
  intros Hc. unfold splitext. destruct (rfind EXTSEP p); [case_match|]; simpl; [|done|done].
  intros Hin. apply Hc. apply elem_of_take in Hin as (i & Hi & _).
  by eapply list_elem_of_lookup_2.
Qed.

(** [os.path.join(dir, name)] for a directory that does not end with a
    slash and a name without one. *)
Lemma join_child (dir name : text) :
  dir <> [] -> last dir <> Some SEP -> name <> [] -> SEP ∉ name -> join dir name = dir ++ [SEP] ++ name.
Proof.
  intros Hd Hl Hn Hs. unfold join. destruct name as [|c r]; [done|].
  rewrite (proj2 (Z.eqb_neq c SEP)) by set_solver.
  by rewrite bool_decide_eq_false_2, bool_decide_eq_false_2 by done.
Qed.

(** [os.path.join(OUT_DIR, name)] for a name that does not start with a
    slash. *)
Lemma join_out_dir (name : text) : head name <> Some SEP -> join OUT_DIR name = JSON_DIR_PREFIX ++ name.
Proof.
  unfold join, JSON_DIR_PREFIX. intros Hh.
  replace (bool_decide (OUT_DIR = []) || bool_decide (last OUT_DIR = Some SEP)) with false
    by (vm_compute; reflexivity).
  destruct name as [|c r]; [done|]. simpl in Hh.
  rewrite (proj2 (Z.eqb_neq c SEP)) by congruence. by rewrite <- app_assoc.
Qed.

Lemma output_root_head p : head ((splitext (basename p)).1 ++ SUFFIX) <> Some SEP.
Proof.
  pose proof (splitext_root_sub (basename p) SEP (basename_no_sep p)) as Hr.
  destruct ((splitext (basename p)).1) as [|c r]; simpl; [by vm_compute|].
  intros [= ->]. set_solver.
Qed.

(** Every output path is [OUT_DIR + "/" + name]. *)
Lemma output_filepath_in_out_dir p :
  exists name, output_filepath p = JSON_DIR_PREFIX ++ name.
Proof.
  exists ((splitext (basename p)).1 ++ SUFFIX). apply join_out_dir, output_root_head.
Qed.

(** C16: the output path of any input path is "./json/" followed by the
    root of the input's base name and "_structured_output.json", where
    the root has no slash: outputs never leave ./json, whatever the
    input name. *)
Theorem output_filepath_shape p :
  exists root, output_filepath p = JSON_DIR_PREFIX ++ root ++ SUFFIX /\
    (SEP ∉ root) /\ root = (splitext (basename p)).1.
Proof.
  exists ((splitext (basename p)).1). split; [|split; [|done]].
  - apply join_out_dir, output_root_head.
  - apply splitext_root_sub, basename_no_sep.
Qed.

(** C30: two inputs share an output file exactly when the roots of their
    base names (the names without directory and extension) are equal:
    the skip check of line 52 conflates exactly those inputs. *)
Theorem output_filepath_eq_iff p q :
  output_filepath p = output_filepath q <-> (splitext (basename p)).1 = (splitext (basename q)).1.
Proof.
  unfold output_filepath, output_filename. rewrite !join_out_dir by apply output_root_head.
  split; [|by intros ->]. intros H. apply app_inv_head, app_inv_tail in H. done.
Qed.

End Paths.
