(* ===== verification/Extractor.v ===== *)
(** The extractor: [extract_exams_from_pdf] and the batch loop of
    pdf_to_json.py (lines 36-167).

    The state of the program is [state]: the file system as a [gmap] from
    path names to entries (a regular file with its bytes, or a directory),
    the console as the list of messages printed so far, and the log of
    the requests sent to the remote model.  The parts of the world that
    are not code of this repository are the environment [env]: whether
    [genai.Client()] can be built, the answer of the remote model to a
    request, and whether writing a given path succeeds.

    [extract_exams_from_pdf] follows the source line by line: the
    existence check (line 40), the output name (45-51) and the skip
    (52-54), the client (56, outside the [try]), reading the PDF (85-92),
    the remote call (96-101), [json.loads] (106), [model_validate] (109),
    the messages (111-118), and the write (121-122), where [open(..., 'w')]
    creates the file empty before [f.write] runs, so a failing write
    leaves an empty file.  The handlers of lines 127-137 are the
    branches that print and return None; an exception of the client
    constructor is the only one that escapes ([Raised]).

    [main] is lines 155-167: [os.makedirs(OUT_DIR, exist_ok=True)],
    [os.listdir('./pdfs')] (which raises unless ./pdfs is a directory) and
    the loop over the list it returned, taken as a parameter because its
    order is not specified.

    The lemmas show what a call reads and writes: it reads the file
    system only at its input, at [OUT_DIR] and at its output path
    ([extract_local]) and writes only its output path ([extract_frame]);
    from these come the batch properties: failure isolation, the cache
    (over files whose outputs exist the loop writes nothing, sends no
    request and does not raise, whatever the environment) and the
    fate of the files when the client cannot be built (a file whose call
    writes nothing is [settled]). *)

From S2P Require Import Prelude Text Json Schema Paths.
Import Json Schema Paths.

Module Extractor.

Inductive entry : Type :=
  | File (data : bytes)
  | Dir.

#[export] Instance entry_eq_dec : EqDecision entry.
Proof. solve_decision. Defined.

(** What [client.models.generate_content] receives (lines 86-101). *)
Record request : Type := mkRequest {
  req_model : text;
  req_pdf : bytes;
  req_prompt : text
}.

(** What it returns: [response.text] (None when the response has no
    text), or an exception. *)
Inductive response : Type :=
  | RespText (t : option text)
  | RespError.

Record env : Type := mkEnv {
  client_ok : bool;
  remote : request -> response;
  write_ok : text -> bool
}.

(** The [print] calls, with the values they print. *)
Inductive msg : Type :=
  | MsgNotFound (path : text)
  | MsgSkip (path : text)
  | MsgCalling
  | MsgParsed (count : nat)
  | MsgSample (number : Z) (question30 : text) (answer : text)
  | MsgSaved (name : text)
  | MsgValidationFailed (errs : list ValidationError)
  | MsgDecodeFailed (preview : text)
  | MsgError
  | MsgProcessing (i n : nat) (path : text).

Record state : Type := mkState {
  fs : gmap text entry;
  console : list msg;
  requests : list request
}.

(** The value a call returns, or the exception that escapes it. *)
Inductive outcome : Type :=
  | Returned (r : option ExamSet)
  | Raised.

Definition print (st : state) (m : msg) : state :=
  mkState (fs st) (console st ++ [m]) (requests st).

Definition send (st : state) (r : request) : state :=
  mkState (fs st) (console st) (requests st ++ [r]).

Definition write_file (st : state) (path : text) (data : bytes) : state :=
  mkState (<[path := File data]> (fs st)) (console st) (requests st).

(** [os.path.exists] *)
Definition exists_path (st : state) (p : text) : bool := bool_decide (is_Some (fs st !! p)).

Definition is_dir (st : state) (p : text) : bool :=
  match fs st !! p with Some Dir => true | _ => false end.

(** [pathlib.Path(p).read_bytes()]; None when it raises. *)
Definition read_bytes (st : state) (p : text) : option bytes :=
  match fs st !! p with Some (File d) => Some d | _ => None end.

Definition MODEL : text := txt "gemini-2.5-flash-lite".

(** Lines 78-83: the instruction sent with the PDF, an f-string with the
    file name inserted (adjacent literals are concatenated). *)
Definition prompt_instruction (file_name_only : text) : text :=
  txt "這是一份包含 50 道考古題的 PDF 文件。請嚴格解析文件內容，將所有題目 (包含選項和正確答案) " ++
  txt "轉換為我指定的 JSON 格式。請確保每個題目的 'number' 欄位是從 1 到 50 的整數，並且 'source' 欄位固定為 '" ++ file_name_only ++ txt "'。" ++
  txt "對於 'subject' 欄位，請根據題目內容判斷是屬於 'process' (製程相關) 還是 'industry' (產業概論相關)。" ++
  txt "請務必確保輸出的總題數是 50 題，且答案是 A, B, C, D 之一。".

(** Lines 114-118: number, [question[:30]] and answer of the first two
    problems. *)
Definition print_samples (st : state) (ps : list ExamProblem) : state :=
  foldl (fun st p => print st (MsgSample (number p) (take 30 (question p)) (answer p)))
    st (take 2 ps).

Section Extract.
Context `{JsonCodec}.

(** Lines 120-125: [open(output_filepath, 'w')] creates the file empty
    (it fails when [OUT_DIR] is not a directory), then [f.write] encodes
    the text in UTF-8 and writes it. *)
Definition save (E : env) (st : state) (output_filepath output_filename : text)
    (vd : ExamSet) : outcome * state :=
  if negb (is_dir st OUT_DIR) then (Returned None, print st MsgError)
  else
    let st := write_file st output_filepath [] in
    match Utf8.encode (dumps (model_dump vd)) with
    | Some bs =>
        if write_ok E output_filepath
        then (Returned (Some vd), print (write_file st output_filepath bs) (MsgSaved output_filename))
        else (Returned None, print st MsgError)
    | None => (Returned None, print st MsgError)
    end.

(** Lines 103-134: parse, validate, report and save. *)
Definition handle_response (E : env) (st : state) (output_filepath output_filename : text)
    (t : text) : outcome * state :=
  match loads t with
  | None => (Returned None, print st (MsgDecodeFailed (take 500 t ++ txt "...")))
  | Some raw_json_data =>
      match model_validate raw_json_data with
      | inl errs => (Returned None, print st (MsgValidationFailed errs))
      | inr validated_data =>
          let st := print st (MsgParsed (length (problems validated_data))) in
          let st := print_samples st (problems validated_data) in
          save E st output_filepath output_filename validated_data
      end
  end.

(** Lines 36-145: [extract_exams_from_pdf(file_path)]. *)
Definition extract_exams_from_pdf (E : env) (file_path : text) (st : state)
    : outcome * state :=
  if negb (exists_path st file_path) then (Returned None, print st (MsgNotFound file_path))
  else
    let file_name_only := basename file_path in
    let output_filename := Paths.output_filename file_name_only in
    let output_filepath := join OUT_DIR output_filename in
    if exists_path st output_filepath then (Returned None, print st (MsgSkip output_filepath))
    else if negb (client_ok E) then (Raised, st)
    else
      match read_bytes st file_path with
      | None => (Returned None, print st MsgError)
      | Some data =>
          let req := mkRequest MODEL data (prompt_instruction file_name_only) in
          let st := send (print st MsgCalling) req in
          match remote E req with
          | RespError => (Returned None, print st MsgError)
          | RespText None => (Returned None, print st MsgError)
          | RespText (Some t) => handle_response E st output_filepath output_filename t
          end
      end.

(** Line 165: [FILE_PATH = './pdfs/' + fname]. *)
Definition pdf_path (fname : text) : text := txt "./pdfs/" ++ fname.

(** Lines 164-167: the loop, which stops only when an exception
    escapes [extract_exams_from_pdf]. *)
Fixpoint run_files (E : env) (n i : nat) (files : list text) (st : state) : outcome * state :=
  match files with
  | [] => (Returned None, st)
  | fname :: rest =>
      let file_path := pdf_path fname in
      let st := print st (MsgProcessing (S i) n file_path) in
      match extract_exams_from_pdf E file_path st with
      | (Raised, st') => (Raised, st')
      | (Returned _, st') => run_files E n (S i) rest st'
      end
  end.

(** [os.makedirs(OUT_DIR, exist_ok=True)]: raises when [OUT_DIR] is a
    file. *)
Definition makedirs (st : state) (p : text) : option state :=
  match fs st !! p with
  | Some Dir => Some st
  | Some (File _) => None
  | None => Some (mkState (<[p := Dir]> (fs st)) (console st) (requests st))
  end.

(** Line 163: [os.listdir('./pdfs')] raises unless ./pdfs is a directory. *)
Definition PDF_DIR : text := txt "./pdfs".

(** [os.listdir(dir)] returns [names]: the names of the entries directly
    under [dir], each once, without '.' and '..', in an order the file
    system chooses. *)
Definition listdir_spec (F : gmap text entry) (dir : text) (names : list text) : Prop :=
  NoDup names /\ forall n, n ∈ names <-> n <> [] /\ (SEP ∉ n) /\ is_Some (F !! join dir n).

(** Lines 155-167, with [files] the list [os.listdir('./pdfs')] returned. *)
Definition main (E : env) (files : list text) (st : state) : outcome * state :=
  match makedirs st OUT_DIR with
  | None => (Raised, st)
  | Some st =>
      if is_dir st PDF_DIR then run_files E (length files) 0 files st else (Raised, st)
  end.

(** A file whose call leaves the file system as it is, whatever the
    console and the request log: running it again writes nothing. *)
Definition settled (E : env) (F : gmap text entry) (p : text) : Prop :=
  forall st, fs st = F -> fs (extract_exams_from_pdf E p st).2 = F.

End Extract.

(** ** Lemmas *)

Lemma print_samples_fs st ps : fs (print_samples st ps) = fs st.
Proof.
  unfold print_samples. generalize (take 2 ps). intros l. revert st.
  induction l as [|p l IH]; intros st; simpl; [done|]. by rewrite IH.
Qed.

Lemma print_samples_requests st ps : requests (print_samples st ps) = requests st.
Proof.
  unfold print_samples. generalize (take 2 ps). intros l. revert st.
  induction l as [|p l IH]; intros st; simpl; [done|]. by rewrite IH.
Qed.

#[export] Hint Rewrite print_samples_fs print_samples_requests : qg_rw.

(** Input and output paths never meet. *)
Lemma out_dir_not_output q : OUT_DIR <> output_filepath q.
Proof.
  destruct (output_filepath_in_out_dir q) as [name ->]. intros Heq.
  apply (f_equal length) in Heq. unfold JSON_DIR_PREFIX in Heq.
  rewrite !length_app in Heq. simpl in Heq. lia.
Qed.

Lemma pdf_path_not_output f q : pdf_path f <> output_filepath q.
Proof.
  destruct (output_filepath_in_out_dir q) as [name ->]. intros Heq.
  apply (f_equal (take 3)) in Heq. vm_compute in Heq. discriminate.
Qed.

Lemma pdf_dir_not_output q : PDF_DIR <> output_filepath q.
Proof.
  destruct (output_filepath_in_out_dir q) as [name ->]. intros Heq.
  apply (f_equal (take 3)) in Heq. vm_compute in Heq. discriminate.
Qed.

Lemma pdf_path_not_out_dir f : pdf_path f <> OUT_DIR.
Proof. intros Heq. apply (f_equal (take 3)) in Heq. vm_compute in Heq. discriminate. Qed.

Section ExtractLemmas.
Context `{JsonCodec}.

(** *** Locality: what a call reads and writes *)


Lemma save_local E st1 st2 o n vd :
  fs st1 !! OUT_DIR = fs st2 !! OUT_DIR -> fs st1 !! o = fs st2 !! o ->
  (save E st1 o n vd).1 = (save E st2 o n vd).1 /\
  fs (save E st1 o n vd).2 !! o = fs (save E st2 o n vd).2 !! o.
Proof.
  intros Hd Ho. unfold save, is_dir. rewrite Hd.
  repeat case_match; cbn [fs print write_file fst snd]; rewrite ?lookup_insert_eq; auto.
Qed.

Lemma handle_local E st1 st2 o n t :
  fs st1 !! OUT_DIR = fs st2 !! OUT_DIR -> fs st1 !! o = fs st2 !! o ->
  (handle_response E st1 o n t).1 = (handle_response E st2 o n t).1 /\
  fs (handle_response E st1 o n t).2 !! o = fs (handle_response E st2 o n t).2 !! o.
Proof.
  intros Hd Ho. unfold handle_response.
  repeat case_match; cbn [fs print fst snd]; auto.
  apply save_local; by rewrite !print_samples_fs.
Qed.

Lemma extract_local (E : env) (p : text) (st1 st2 : state) :
  fs st1 !! p = fs st2 !! p -> fs st1 !! OUT_DIR = fs st2 !! OUT_DIR ->
  fs st1 !! output_filepath p = fs st2 !! output_filepath p ->
  (extract_exams_from_pdf E p st1).1 = (extract_exams_from_pdf E p st2).1 /\
  fs (extract_exams_from_pdf E p st1).2 !! output_filepath p =
  fs (extract_exams_from_pdf E p st2).2 !! output_filepath p.
Proof.
  intros Hp Hd Ho.
  unfold extract_exams_from_pdf. cbv zeta. fold (output_filepath p).
  unfold exists_path, read_bytes. rewrite Hp, Ho.
  repeat case_match; cbn [fs print send fst snd]; try done.
  all: apply handle_local; auto.
Qed.

Lemma save_frame E st o n vd q : q <> o -> fs (save E st o n vd).2 !! q = fs st !! q.
Proof.
  intros Hq. unfold save.
  repeat case_match; cbn [fs print write_file snd]; rewrite ?lookup_insert_ne; auto.
Qed.

Lemma handle_frame E st o n t q : q <> o -> fs (handle_response E st o n t).2 !! q = fs st !! q.
Proof.
  intros Hq. unfold handle_response.
  repeat case_match; cbn [fs print snd]; auto.
  rewrite save_frame by done. by rewrite print_samples_fs.
Qed.

Lemma extract_frame E p st q :
  q <> output_filepath p -> fs (extract_exams_from_pdf E p st).2 !! q = fs st !! q.
Proof.
  intros Hq. unfold extract_exams_from_pdf. cbv zeta. fold (output_filepath p).
  repeat case_match; cbn [fs print send snd]; auto.
  by rewrite handle_frame.
Qed.

(** The call changes the file system only through its output file. *)
Lemma extract_fs_eq E p st :
  fs (extract_exams_from_pdf E p st).2 !! output_filepath p = fs st !! output_filepath p ->
  fs (extract_exams_from_pdf E p st).2 = fs st.
Proof.
  intros Ho. apply map_eq. intros q.
  destruct (decide (q = output_filepath p)) as [->|Hq]; [done|]. by apply extract_frame.
Qed.

Lemma extract_out_exists E p st :
  is_Some (fs st !! output_filepath p) -> fs (extract_exams_from_pdf E p st).2 = fs st.
Proof.
  intros Hs. unfold extract_exams_from_pdf. cbv zeta. fold (output_filepath p).
  assert (Hx : exists_path st (output_filepath p) = true) by (unfold exists_path; by case_bool_decide).
  rewrite Hx. by case_match.
Qed.

Lemma extract_client_fail E p st :
  client_ok E = false -> fs (extract_exams_from_pdf E p st).2 = fs st.
Proof.
  intros Hc. unfold extract_exams_from_pdf. rewrite Hc. by repeat case_match.
Qed.

(** A call whose output file exists returns None and changes neither the
    file system nor the request log. *)
Lemma extract_cached E p st :
  is_Some (fs st !! output_filepath p) ->
  exists st', extract_exams_from_pdf E p st = (Returned None, st') /\ fs st' = fs st /\ requests st' = requests st.
Proof.
  intros Ho. unfold extract_exams_from_pdf. cbv zeta. fold (output_filepath p).
  unfold exists_path at 2. rewrite bool_decide_eq_true_2 by done.
  destruct (exists_path st p); simpl; eauto.
Qed.

(** Files that exist keep existing. *)
Lemma extract_exists_mono E p st q :
  is_Some (fs st !! q) -> is_Some (fs (extract_exams_from_pdf E p st).2 !! q).
Proof.
  intros Hs. destruct (decide (q = output_filepath p)) as [->|Hq].
  - by rewrite extract_out_exists.
  - by rewrite extract_frame.
Qed.

Lemma settled_out E F p : is_Some (F !! output_filepath p) -> settled E F p.
Proof. intros Hs st <-. by apply extract_out_exists. Qed.

Lemma handle_returned E st o n t : exists r, (handle_response E st o n t).1 = Returned r.
Proof. unfold handle_response, save. repeat case_match; simpl; eauto. Qed.

Lemma extract_raised E p st :
  (extract_exams_from_pdf E p st).1 = Raised <->
  exists_path st p = true /\ exists_path st (output_filepath p) = false /\ client_ok E = false.
Proof.
  unfold extract_exams_from_pdf. cbv zeta. fold (output_filepath p).
  destruct (exists_path st p), (exists_path st (output_filepath p)), (client_ok E);
    simpl; try naive_solver.
  repeat case_match; simpl; try naive_solver.
  match goal with |- (handle_response ?a ?b ?c ?d ?e).1 = _ <-> _ =>
    destruct (handle_returned a b c d e) as [r ->] end. naive_solver.
Qed.

(** The fold of the loop: its steps, one per file. *)
Lemma run_files_cons E n i f rest st :
  run_files E n i (f :: rest) st =
    let st1 := print st (MsgProcessing (S i) n (pdf_path f)) in
    match extract_exams_from_pdf E (pdf_path f) st1 with
    | (Raised, st') => (Raised, st')
    | (Returned _, st') => run_files E n (S i) rest st'
    end.
Proof. reflexivity. Qed.

Lemma run_files_no_raise E n i files st :
  client_ok E = true -> (run_files E n i files st).1 = Returned None.
Proof.
  intros Hc. revert i st. induction files as [|f rest IH]; intros i st; [done|].
  rewrite run_files_cons. cbv zeta.
  destruct (extract_exams_from_pdf _ _ _) as [[r|] st'] eqn:He; [apply IH|].
  apply (f_equal fst) in He; simpl in He. apply extract_raised in He. destruct He as (_ & _ & ?); congruence.
Qed.

Lemma run_files_all_settled E n i files st :
  (forall f, f ∈ files -> settled E (fs st) (pdf_path f)) ->
  fs (run_files E n i files st).2 = fs st.
Proof.
  revert i st. induction files as [|f rest IH]; intros i st Hs; [done|].
  rewrite run_files_cons. cbv zeta.
  assert (Hf : settled E (fs (print st (MsgProcessing (S i) n (pdf_path f)))) (pdf_path f))
    by (apply Hs; left).
  specialize (Hf _ eq_refl).
  destruct (extract_exams_from_pdf _ _ _) as [[r|] st'] eqn:He; simpl in *; [|done].
  rewrite IH; [done|]. intros g Hg. rewrite Hf. apply Hs. by right.
Qed.

Lemma run_files_client_fail E n i files st :
  client_ok E = false -> fs (run_files E n i files st).2 = fs st.
Proof.
  intros Hc. apply run_files_all_settled. intros f _ st' <-. by apply extract_client_fail.
Qed.

Lemma run_files_frame E n i files st q :
  (forall r, q <> output_filepath r) -> fs (run_files E n i files st).2 !! q = fs st !! q.
Proof.
  intros Hq. revert i st. induction files as [|f rest IH]; intros i st; [done|].
  rewrite run_files_cons. cbv zeta.
  pose proof (extract_frame E (pdf_path f) (print st (MsgProcessing (S i) n (pdf_path f))) q (Hq _)).
  destruct (extract_exams_from_pdf _ _ _) as [[r|] st'] eqn:He; simpl in *; [rewrite IH|]; done.
Qed.

Lemma makedirs_dir st st' : makedirs st OUT_DIR = Some st' -> fs st' !! OUT_DIR = Some Dir.
Proof. unfold makedirs. repeat case_match; intros; simplify_eq; simpl; by rewrite ?lookup_insert_eq. Qed.

(** *** The properties *)


(** C3: skip-if-exists: when the input and its output file exist, the call
    prints the skip message and returns None, with no file written and no
    request sent. *)
Theorem extract_skip (E : env) (file_path : text) (st : state) :
  exists_path st file_path = true ->
  exists_path st (output_filepath file_path) = true ->
  extract_exams_from_pdf E file_path st =
    (Returned None, print st (MsgSkip (output_filepath file_path))).
Proof.
  intros Hin Hout. unfold extract_exams_from_pdf. rewrite Hin. simpl.
  unfold output_filepath in Hout. by rewrite Hout.
Qed.

(** C1: the only file a call of extract_exams_from_pdf can change is its
    output file, and it changes it only when the output was absent, the
    request for this PDF was sent, and the answer parsed and validated; the
    file then holds the UTF-8 bytes of the printed model_dump of the
    validated data, or is left empty when the write failed. *)
Theorem extract_writes_only_validated (E : env) (p : text) (st : state) :
  let '(o, st') := extract_exams_from_pdf E p st in
  (forall q, q <> output_filepath p -> fs st' !! q = fs st !! q) /\
  (fs st' !! output_filepath p <> fs st !! output_filepath p ->
   fs st !! output_filepath p = None /\
   exists data t raw vd,
     read_bytes st p = Some data /\
     requests st' = requests st ++ [mkRequest MODEL data (prompt_instruction (basename p))] /\
     remote E (mkRequest MODEL data (prompt_instruction (basename p))) = RespText (Some t) /\
     loads t = Some raw /\ model_validate raw = inr vd /\
     (fs st' !! output_filepath p = Some (File []) \/
      exists bs, Utf8.encode (dumps (model_dump vd)) = Some bs /\
        fs st' !! output_filepath p = Some (File bs) /\ o = Returned (Some vd))).
Proof.
  unfold extract_exams_from_pdf, handle_response, save, output_filepath.
  repeat case_match; simplify_eq; cbn [fs requests print send write_file];
    autorewrite with qg_rw; split; try (intros; by rewrite ?lookup_insert_ne);
    try (intros Hne; by exfalso).
  all: intros Hne; split; [by destruct (fs st !! _) eqn:?; [exfalso|]; unfold exists_path in *;
       case_bool_decide; eauto|].
  all: do 4 eexists; repeat split; eauto; rewrite ?lookup_insert_eq; eauto 10.
Qed.

(** C4: the skip-if-exists cache of the batch: over files whose output
    files all exist, the loop changes no file, sends no request and does
    not raise, whatever the environment (whatever the model would answer,
    and even when the client cannot be built). *)
Theorem run_files_cached E n i files st :
  (forall f, f ∈ files -> is_Some (fs st !! output_filepath (pdf_path f))) ->
  (run_files E n i files st).1 = Returned None /\
  fs (run_files E n i files st).2 = fs st /\ requests (run_files E n i files st).2 = requests st.
Proof.
  revert i st. induction files as [|f rest IH]; intros i st Hout; [done|].
  rewrite run_files_cons. cbv zeta.
  destruct (extract_cached E (pdf_path f) (print st (MsgProcessing (S i) n (pdf_path f))))
    as (st' & He & Hfs & Hrq); [apply Hout; left|].
  rewrite He. destruct (IH (S i) st') as (Ho & Hf & Hr).
  - intros g Hg. rewrite Hfs. apply Hout. by right.
  - rewrite Hf, Hr, Hfs, Hrq. done.
Qed.


(** C5: failure isolation: when the client can be built, the loop never
    stops early, and the batch over l1 ++ l2 is the batch over l1 followed
    by the batch over l2, whatever happened to the files of l1. *)
Theorem run_files_isolation E n i l1 l2 st :
  client_ok E = true ->
  (run_files E n i l1 st).1 = Returned None /\
  run_files E n i (l1 ++ l2) st = run_files E n (i + length l1) l2 (run_files E n i l1 st).2.
Proof.
  intros Hc. split; [by apply run_files_no_raise|].
  revert i st. induction l1 as [|f rest IH]; intros i st; simpl; [by rewrite Nat.add_0_r|].
  destruct (extract_exams_from_pdf _ _ _) as [[r|] st'] eqn:He.
  - rewrite IH. f_equal. lia.
  - apply (f_equal fst) in He; simpl in He. apply extract_raised in He.
    destruct He as (_ & _ & ?); congruence.
Qed.

(** C11: when genai.Client() fails, the first file that exists and has no
    output raises out of extract_exams_from_pdf (the constructor is outside
    the try) and the loop stops there: the files after it are never
    processed. *)
Theorem run_files_client_abort E n i f rest st :
  client_ok E = false ->
  exists_path st (pdf_path f) = true ->
  exists_path st (output_filepath (pdf_path f)) = false ->
  run_files E n i (f :: rest) st = (Raised, print st (MsgProcessing (S i) n (pdf_path f))).
Proof.
  intros Hc Hin Hout. simpl. unfold extract_exams_from_pdf. cbv zeta. fold (output_filepath (pdf_path f)).
  unfold exists_path in *. cbn [fs print]. rewrite Hin, Hout, Hc. reflexivity.
Qed.

Lemma run_files_changes E n i files st q :
  fs (run_files E n i files st).2 !! q <> fs st !! q ->
  fs st !! q = None /\ exists r, q = output_filepath r.
Proof.
  revert i st. induction files as [|f rest IH]; intros i st; [done|].
  rewrite run_files_cons. cbv zeta.
  set (st1 := print st (MsgProcessing (S i) n (pdf_path f))).
  assert (Hq : fs (extract_exams_from_pdf E (pdf_path f) st1).2 !! q <> fs st1 !! q ->
               fs st1 !! q = None /\ exists r, q = output_filepath r).
  { intros Hne. destruct (decide (q = output_filepath (pdf_path f))) as [->|Hq].
    - split; [|eauto]. destruct (fs st1 !! _) eqn:Hs; [|done].
      exfalso. apply Hne. by rewrite extract_out_exists by (by rewrite Hs).
    - by rewrite extract_frame in Hne. }
  destruct (extract_exams_from_pdf E (pdf_path f) st1) as [[r|] st'] eqn:He; simpl in *.
  - intros Hne. destruct (decide (fs st' !! q = fs st !! q)) as [Heq|Hne'].
    + destruct (IH (S i) st') as [Hn [r' ->]]; [congruence|].
      split; [congruence|eauto].
    + by apply Hq.
  - by apply Hq.
Qed.

(** C15: the batch never deletes or modifies a file that exists: every path
    whose entry changes was absent and is the output directory or an output
    file. *)
Theorem main_changes_only_new_outputs E files st q :
  fs (main E files st).2 !! q <> fs st !! q ->
  fs st !! q = None /\ (q = OUT_DIR \/ exists r, q = output_filepath r).
Proof.
  unfold main, makedirs. destruct (fs st !! OUT_DIR) as [[d|]|] eqn:Hd; simpl; try done.
  - case_match; simpl; [|done]. intros Hne. apply run_files_changes in Hne as [? ?]. eauto.
  - intros Hne. destruct (decide (q = OUT_DIR)) as [->|Hq]; [by eauto|].
    case_match; simpl in Hne; [|by rewrite lookup_insert_ne in Hne by congruence].
    destruct (run_files_changes E (length files) 0 files
      (mkState (<[OUT_DIR:=Dir]> (fs st)) (console st) (requests st)) q) as [Hn Hr].
    + simpl. by rewrite lookup_insert_ne by congruence.
    + simpl in Hn. rewrite lookup_insert_ne in Hn by congruence. eauto.
Qed.


(** The steps up to the answer of the model, when the output is absent. *)
Lemma extract_reaches_response E p st data t :
  exists_path st p = true -> fs st !! output_filepath p = None -> client_ok E = true ->
  read_bytes st p = Some data ->
  remote E (mkRequest MODEL data (prompt_instruction (basename p))) = RespText (Some t) ->
  extract_exams_from_pdf E p st =
    handle_response E (send (print st MsgCalling) (mkRequest MODEL data (prompt_instruction (basename p))))
      (output_filepath p) (Paths.output_filename (basename p)) t.
Proof.
  intros Hin Hout Hc Hr Hrem. unfold extract_exams_from_pdf. cbv zeta. fold (output_filepath p).
  assert (Hx : exists_path st (output_filepath p) = false) by (unfold exists_path; rewrite Hout; done).
  by rewrite Hin, Hx, Hc, Hr; cbn [negb]; rewrite Hrem.
Qed.


(** C6: round trip through the output file: when a call returns validated
    data, its output file holds bytes that decode as UTF-8 to a text that
    json.loads reads as the model_dump of the data, which validates back to
    the same data. *)
Theorem extract_output_roundtrip E p st vd st' :
  extract_exams_from_pdf E p st = (Returned (Some vd), st') -> exam_set_chars_ok vd ->
  exists bs s, fs st' !! output_filepath p = Some (File bs) /\ Utf8.decode bs = Some s /\
    loads s = Some (model_dump vd) /\ model_validate (model_dump vd) = inr vd.
Proof.
  intros He Hok.
  assert (Hw : exists bs, Utf8.encode (dumps (model_dump vd)) = Some bs /\
                          fs st' !! output_filepath p = Some (File bs)).
  { revert He. unfold extract_exams_from_pdf, handle_response, save. cbv zeta. fold (output_filepath p).
    repeat case_match; intros; simplify_eq; cbn [fs print write_file]; rewrite ?lookup_insert_eq; eauto. }
  destruct Hw as (bs & Henc & Hf). exists bs, (dumps (model_dump vd)).
  split; [done|]. split; [by apply utf8_decode_encode|].
  split; [by apply loads_dumps, model_dump_printable|]. apply model_validate_dump.
Qed.

(** C8: an answer that is not JSON, or JSON that fails validation, is
    reported (decode failure with the first 500 characters, or the
    validation errors) and nothing is written; the request was sent and the
    call returns None. *)
Theorem extract_rejects_response E p st data t m :
  exists_path st p = true -> fs st !! output_filepath p = None -> client_ok E = true ->
  read_bytes st p = Some data ->
  remote E (mkRequest MODEL data (prompt_instruction (basename p))) = RespText (Some t) ->
  (loads t = None /\ m = MsgDecodeFailed (take 500 t ++ txt "...") \/
   exists raw errs, loads t = Some raw /\ model_validate raw = inl errs /\ m = MsgValidationFailed errs) ->
  extract_exams_from_pdf E p st =
    (Returned None, mkState (fs st) (console st ++ [MsgCalling; m])
                      (requests st ++ [mkRequest MODEL data (prompt_instruction (basename p))])).
Proof.
  intros Hin Hout Hc Hr Hrem Hm.
  rewrite (extract_reaches_response E p st data t) by done. unfold handle_response.
  destruct Hm as [[-> ->]|(raw & errs & -> & -> & ->)];
    unfold print, send; simpl; by rewrite <- app_assoc.
Qed.

Lemma main_frame E files st q :
  q <> OUT_DIR -> (forall r, q <> output_filepath r) -> fs (main E files st).2 !! q = fs st !! q.
Proof.
  intros Hd Hq. unfold main, makedirs.
  repeat case_match; simplify_eq; simpl; rewrite ?run_files_frame by done; simpl; try done;
    by rewrite lookup_insert_ne by congruence.
Qed.
End ExtractLemmas.

End Extractor.
