(* ===== verification/Console.v ===== *)
(** The console of pdf_to_json.py: the text of every [print] call of
    [extract_exams_from_pdf] and of the batch loop, and the shape of the
    log a batch prints.

    [render] is the text a message of [Extractor.msg] prints: [print]
    writes its arguments separated by a space, then a newline, and an
    f-string inserts [str()] of its values.  Two texts are not code of
    this repository and are the parameters of the section: [str(e)] of
    a pydantic [ValidationError] (line 131), which pydantic formats, and
    [str(e)] of the exception the outer handler reports (line 138).

    The theorems are about the list of messages: a call that returns
    prints messages that are neither verdicts nor progress lines and then
    exactly one verdict (not found, skip, saved, validation failure,
    decode failure, error), and it returns the validated record exactly
    when that verdict is the saved message; so the console of a batch is,
    for each file in the order of the listing, the line
    [Processing i/n: path] followed by the log of its call. *)

From S2P Require Import Prelude Text Json JsonText Schema Paths Extractor.
Import Json Schema Paths Extractor.

Module Console.

Definition NL : text := [10].

Section Render.
Variable str_validation_error : list ValidationError -> text.
Variable str_exception : text.

(** [print] of its arguments. *)
Definition print_line (args : list text) : text := str_join [32] args ++ NL.

Definition render (m : msg) : text :=
  match m with
  | MsgNotFound p => print_line [txt "錯誤: 找不到檔案 " ++ p]
  | MsgSkip p => print_line [txt "輸出檔案 " ++ p ++ txt " 已存在 - 跳過"]
  | MsgCalling => print_line [txt "正在要求模型進行解析與結構化輸出 (這可能需要幾分鐘)..."]
  | MsgParsed n =>
      print_line [NL ++ txt "--- 結構化資料提取成功 ---"] ++
      print_line [txt "共成功解析 " ++ JsonText.int_text (Z.of_nat n) ++ txt " 筆資料。"] ++
      print_line [NL ++ txt "--- 範例輸出 (前兩題) ---"]
  | MsgSample k q a =>
      print_line [txt "題目 " ++ JsonText.int_text k ++ txt ": " ++ q ++ txt "..."] ++
      print_line [txt "  -> 答案: " ++ a]
  | MsgSaved name => print_line [NL ++ txt "所有結構化資料已儲存至: " ++ name]
  | MsgValidationFailed errs =>
      print_line [NL ++ txt "--- Pydantic 驗證失敗 ---"] ++
      print_line [txt "模型輸出的 JSON 結構與 Pydantic 定義不符。"] ++
      print_line [str_validation_error errs]
  | MsgDecodeFailed preview =>
      print_line [NL ++ txt "--- JSON 解析失敗 ---"] ++
      print_line [txt "模型回傳的不是有效的 JSON 字串。"] ++
      print_line [txt "原始模型輸出:"; preview]
  | MsgError => print_line [NL ++ txt "發生錯誤: " ++ str_exception]
  | MsgProcessing i n p =>
      print_line [txt "Processing " ++ JsonText.int_text (Z.of_nat i) ++ txt "/" ++
                  JsonText.int_text (Z.of_nat n) ++ txt ": " ++ p]
  end.

(** What the program has written to standard output. *)
Definition stdout (st : state) : text := mjoin (map render (console st)).

End Render.

(** The messages that end a call: the outcome reported for a file. *)
Definition verdict_msg (m : msg) : bool :=
  match m with
  | MsgNotFound _ | MsgSkip _ | MsgSaved _ | MsgValidationFailed _ | MsgDecodeFailed _
  | MsgError => true
  | _ => false
  end.

Definition saved_msg (m : msg) : bool := match m with MsgSaved _ => true | _ => false end.

Definition is_progress (m : msg) : bool := match m with MsgProcessing _ _ _ => true | _ => false end.

(** A message printed on the way to a verdict. *)
Definition quiet (m : msg) : Prop := verdict_msg m = false /\ is_progress m = false.

(** What one call that returns prints: quiet messages, then one verdict. *)
Definition call_log (ms : list msg) : Prop :=
  exists pre m, ms = pre ++ [m] /\ Forall quiet pre /\ verdict_msg m = true.

(** The log of a call that returned [r]: a [call_log] whose verdict is
    the saved message exactly when [r] is the validated record. *)
Definition reported (ms : list msg) (r : option ExamSet) : Prop :=
  call_log ms /\ (is_Some r <-> exists m, last ms = Some m /\ saved_msg m = true).

(** The console of the loop over [files] from index [i], when the call
    for the k-th file printed the k-th log of [mss]. *)
Fixpoint batch_log (n i : nat) (files : list text) (mss : list (list msg)) : list msg :=
  match files, mss with
  | f :: files', ms :: mss' => MsgProcessing (S i) n (pdf_path f) :: ms ++ batch_log n (S i) files' mss'
  | _, _ => []
  end.

(** ** Lemmas *)

Lemma print_samples_console st ps :
  console (print_samples st ps) =
    console st ++ map (fun p => MsgSample (number p) (take 30 (question p)) (answer p)) (take 2 ps).
Proof.
  unfold print_samples. generalize (take 2 ps). intros l. revert st.
  induction l as [|p l IH]; intros st; simpl; [by rewrite app_nil_r|].
  rewrite IH. simpl. by rewrite <- app_assoc.
Qed.

Lemma reported_one m r :
  verdict_msg m = true -> (is_Some r <-> saved_msg m = true) -> reported [m] r.
Proof. intros Hv Hs. split; [by exists [], m|]. rewrite Hs. naive_solver. Qed.

Lemma reported_app pre ms r : Forall quiet pre -> reported ms r -> reported (pre ++ ms) r.
Proof.
  intros Hpre ((pre' & m & -> & Hq & Hv) & Hs). split.
  - exists (pre ++ pre'), m. rewrite <- app_assoc. split; [done|]. by rewrite Forall_app.
  - by rewrite app_assoc, !last_snoc in *.
Qed.

(** A verdict alone; the tactic closes the side conditions by evaluation. *)
Ltac verdict_alone := apply reported_one; [reflexivity|split; [intros [? ?]; discriminate|discriminate]].

Section Logs.
Context `{JsonCodec}.

Lemma save_log E st o n vd oc st' :
  save E st o n vd = (oc, st') -> exists r ms, oc = Returned r /\ console st' = console st ++ ms /\ reported ms r.
Proof.
  unfold save. repeat case_match; intros [= <- <-]; eexists _, [_]; (split; [done|split; [done|]]);
    [verdict_alone| |verdict_alone..].
  apply reported_one; [reflexivity|]. split; [intros _; reflexivity|]. intros _. eexists. reflexivity.
Qed.

Lemma handle_log E st o n t oc st' :
  handle_response E st o n t = (oc, st') ->
  exists r ms, oc = Returned r /\ console st' = console st ++ ms /\ reported ms r.
Proof.
  unfold handle_response. destruct (loads t) as [raw|];
    [|intros [= <- <-]; eexists _, [_]; split; [done|split; [done|verdict_alone]]].
  destruct (model_validate raw) as [errs|vd];
    [intros [= <- <-]; eexists _, [_]; split; [done|split; [done|verdict_alone]]|].
  intros Hs. destruct (save_log _ _ _ _ _ _ _ Hs) as (r & ms & -> & Hc & Hr).
  rewrite print_samples_console in Hc. cbn [console print] in Hc.
  exists r, (MsgParsed (length (problems vd)) ::
    map (fun p => MsgSample (number p) (take 30 (question p)) (answer p)) (take 2 (problems vd)) ++ ms).
  split; [done|split; [rewrite Hc; by rewrite <- !app_assoc|]].
  apply (reported_app (_ :: _)); [|done]. constructor; [split; reflexivity|]. apply Forall_forall.
  intros m Hm. apply list_elem_of_fmap in Hm as (p & -> & _). split; reflexivity.
Qed.

Lemma extract_log E p st r st' :
  extract_exams_from_pdf E p st = (Returned r, st') -> exists ms, console st' = console st ++ ms /\ reported ms r.
Proof.
  unfold extract_exams_from_pdf. cbv zeta.
  repeat case_match; intros He; simplify_eq;
    try (eexists [_]; split; [reflexivity|verdict_alone]);
    try (exists [MsgCalling; MsgError]; split; [cbn [console send print]; by rewrite <- app_assoc|
           apply (reported_app [MsgCalling]); [repeat constructor|verdict_alone]]).
  destruct (handle_log _ _ _ _ _ _ _ He) as (r' & ms & [= <-] & Hc & Hr).
  exists (MsgCalling :: ms). split; [rewrite Hc; cbn [console send print]; by rewrite <- app_assoc|].
  apply (reported_app [MsgCalling]); [repeat constructor|done].
Qed.

(** C28: the console of the batch, when the client can be built: for
    each file, in the order of the listing, the progress line
    Processing i/n: ./pdfs/<name> and then the messages of its call,
    which end with exactly one verdict (not found, skip, saved,
    validation failure, decode failure or error) and hold no other
    verdict and no progress line. *)
Theorem run_files_console E n i files st :
  client_ok E = true ->
  exists mss, length mss = length files /\ Forall call_log mss /\
    console (run_files E n i files st).2 = console st ++ batch_log n i files mss.
Proof.
  intros Hc. revert i st. induction files as [|f rest IH]; intros i st.
  - exists []. by rewrite app_nil_r.
  - rewrite run_files_cons. cbv zeta.
    destruct (extract_exams_from_pdf _ _ _) as [[r|] st'] eqn:He.
    + destruct (extract_log _ _ _ _ _ He) as (ms & Hms & Hr & _).
      destruct (IH (S i) st') as (mss & Hl & Hall & Hcon).
      exists (ms :: mss). split_and!; [simpl; lia|by constructor|].
      rewrite Hcon, Hms. cbn. by rewrite <- !app_assoc.
    + apply (f_equal fst) in He; simpl in He. apply extract_raised in He.
      destruct He as (_ & _ & ?); congruence.
Qed.

End Logs.

End Console.
