(* ===== verification/Refinement.v ===== *)
(** The contract of the extractor, and the refinement theorems.

    Section 4.1 and 7 of the specification describe [convert(inputPath)]
    abstractly: a missing input fails, an existing output is skipped, an
    answer that does not parse or validate fails with nothing written,
    and a validated answer is written, serialised, to the output file; a
    batch runs [convert] on every file, and no failure stops it.  The
    inductive [convert] states this contract on the file system alone
    (with [Aborted] for a client that cannot be built), and [batch] its
    sequential composition over the files, where no step aborts.

    [extract_refines_convert]: a call of [extract_exams_from_pdf] is a
    [convert] step, with the verdict its return value gives, when the
    output directory exists, the write of its output succeeds and the
    model never answers a string UTF-8 cannot encode
    ([encodable_answers]).  [main_refines_batch]: under the same
    conditions, for every file, and a client that can be built, the
    batch of [main] is a [batch] of the contract.  EndToEnd.v shows that
    without the condition on the answer no verdict of the contract
    describes the call (the empty file it leaves). *)

From S2P Require Import Prelude Text Json Schema Paths Extractor.
Import Json Schema Paths Extractor.

Module Refinement.

(** The outcomes of [convert] in the specification. *)
Inductive verdict : Type :=
  | Skipped
  | Failed
  | Converted (es : ExamSet)
  | Aborted.

Section Spec.
Context `{JsonCodec}.

(** The bytes of the file at [p], if it is a file. *)
Definition read_of (F : gmap text entry) (p : text) : option bytes :=
  match F !! p with Some (File d) => Some d | _ => None end.

Definition request_for (p : text) (data : bytes) : request :=
  mkRequest MODEL data (prompt_instruction (basename p)).

(** The answer for [p] validates to [es] and prints to [bs]. *)
Definition answer_converts (E : env) (F : gmap text entry) (p : text) (es : ExamSet) (bs : bytes) : Prop :=
  exists data t raw, read_of F p = Some data /\ remote E (request_for p data) = RespText (Some t) /\
    loads t = Some raw /\ model_validate raw = inr es /\ Utf8.encode (dumps (model_dump es)) = Some bs.

(** The contract of one call. *)
Inductive convert (E : env) (p : text) (F : gmap text entry) : verdict -> gmap text entry -> Prop :=
  | convert_missing : F !! p = None -> convert E p F Failed F
  | convert_skip : is_Some (F !! p) -> is_Some (F !! output_filepath p) -> convert E p F Skipped F
  | convert_abort : is_Some (F !! p) -> F !! output_filepath p = None -> client_ok E = false ->
      convert E p F Aborted F
  | convert_fail : is_Some (F !! p) -> F !! output_filepath p = None -> client_ok E = true ->
      (forall es bs, ~ answer_converts E F p es bs) -> convert E p F Failed F
  | convert_ok es bs : is_Some (F !! p) -> F !! output_filepath p = None -> client_ok E = true ->
      answer_converts E F p es bs -> convert E p F (Converted es) (<[output_filepath p := File bs]> F).

(** The verdict a return value reports: [Returned None] is a skip or a
    failure, [Returned (Some es)] a conversion, [Raised] an abort. *)
Definition verdict_of (o : outcome) (v : verdict) : Prop :=
  match o, v with
  | Raised, Aborted => True
  | Returned (Some es), Converted es' => es = es'
  | Returned None, (Skipped | Failed) => True
  | _, _ => False
  end.

(** The contract of the batch: every file in turn, none aborting. *)
Inductive batch (E : env) : list text -> gmap text entry -> gmap text entry -> Prop :=
  | batch_nil F : batch E [] F F
  | batch_cons f rest F v F1 F' :
      convert E (pdf_path f) F v F1 -> v <> Aborted -> batch E rest F1 F' -> batch E (f :: rest) F F'.

(** The model never answers a string that UTF-8 cannot encode. *)
Definition encodable_answers (E : env) : Prop :=
  forall req t raw es, remote E req = RespText (Some t) -> loads t = Some raw ->
    model_validate raw = inr es -> is_Some (Utf8.encode (dumps (model_dump es))).

End Spec.

Section Proofs.
Context `{JsonCodec}.

Ltac no_answer :=
  let es := fresh in let bs := fresh in
  intros es bs (? & ? & ? & Hr' & Hrem' & Hl' & Hv' & He');
  unfold read_of, request_for in *; simplify_eq; congruence.

Lemma exists_path_lookup st q : exists_path st q = bool_decide (is_Some (fs st !! q)).
Proof. reflexivity. Qed.

Theorem extract_refines_convert E p st :
  is_dir st OUT_DIR = true -> write_ok E (output_filepath p) = true -> encodable_answers E ->
  let '(o, st') := extract_exams_from_pdf E p st in
  exists v, convert E p (fs st) v (fs st') /\ verdict_of o v.
Proof.
  intros Hd Hw Henc. unfold extract_exams_from_pdf. cbv zeta. fold (output_filepath p).
  rewrite !exists_path_lookup.
  destruct (fs st !! p) as [ep|] eqn:Hp; cbn [fs print negb bool_decide].
  2: { exists Failed. split; [by apply convert_missing|done]. }
  destruct (fs st !! output_filepath p) as [eo|] eqn:Ho; cbn [fs print].
  { exists Skipped. split; [apply convert_skip; by rewrite ?Hp, ?Ho|done]. }
  destruct (client_ok E) eqn:Hc; simpl.
  2: { exists Aborted. split; [apply convert_abort; by rewrite ?Hp|done]. }
  assert (Hfailed : forall st', fs st' = fs st -> (forall es bs, ~ answer_converts E (fs st) p es bs) ->
            exists v, convert E p (fs st) v (fs st') /\ verdict_of (Returned None) v).
  { intros st' -> Hno. exists Failed. split; [|done]. apply convert_fail; by rewrite ?Hp. }
  destruct (read_bytes st p) as [data|] eqn:Hr;
    change (read_bytes st p) with (read_of (fs st) p) in Hr.
  2: { apply Hfailed; [done|]. no_answer. }
  destruct (remote E _) as [[t|]|] eqn:Hrem; [|apply Hfailed; [done|no_answer]..].
  unfold handle_response. destruct (loads t) as [raw|] eqn:Hl; [|apply Hfailed; [done|no_answer]].
  destruct (model_validate raw) as [errs|es] eqn:Hv; [apply Hfailed; [done|no_answer]|].
  unfold save. unfold is_dir in *. cbn [fs print send]. autorewrite with qg_rw. cbn [fs print send].
  rewrite Hd. cbn [negb].
  destruct (Henc _ _ _ _ Hrem Hl Hv) as [bs Hbs]. rewrite Hbs, Hw. cbn [fs print write_file].
  autorewrite with qg_rw. cbn [fs print send]. rewrite insert_insert_eq.
  exists (Converted es). split; [|done].
  apply convert_ok; [by rewrite Hp|done|done|]. exists data, t, raw. done.
Qed.

Theorem run_files_refines_batch E n i files st :
  client_ok E = true -> is_dir st OUT_DIR = true -> (forall q, write_ok E q = true) ->
  encodable_answers E ->
  batch E files (fs st) (fs (run_files E n i files st).2).
Proof.
  intros Hc Hd Hw Henc. revert i st Hd. induction files as [|f rest IH]; intros i st Hd; [constructor|].
  rewrite run_files_cons. cbv zeta.
  set (st1 := print st (MsgProcessing (S i) n (pdf_path f))).
  pose proof (extract_refines_convert E (pdf_path f) st1 Hd (Hw _) Henc) as Href.
  pose proof (fun q Hq => extract_frame E (pdf_path f) st1 q Hq) as Hfr.
  destruct (extract_exams_from_pdf E (pdf_path f) st1) as [o st'] eqn:He.
  destruct Href as (v & Hconv & Hv).
  destruct o as [r|]; [|apply (f_equal fst), extract_raised in He; destruct He as (_ & _ & ?); congruence].
  apply (batch_cons _ _ _ _ v (fs st')); [exact Hconv| by destruct v, r | apply IH].
  unfold is_dir in *. cbn in Hfr. rewrite Hfr by apply out_dir_not_output. done.
Qed.

(** C2: refinement: when the client can be built, ./pdfs is a directory,
    ./json is not a file, every write succeeds and the model never
    answers a string UTF-8 cannot encode, the batch of [main] is a batch
    of the specification's contract: every file in turn, skipped,
    failed with nothing written, or converted with its serialised
    record written, and none aborting. *)
Theorem main_refines_batch E files st :
  client_ok E = true -> is_dir st PDF_DIR = true -> (forall d, fs st !! OUT_DIR <> Some (File d)) ->
  (forall q, write_ok E q = true) -> encodable_answers E ->
  batch E files (<[OUT_DIR := Dir]> (fs st)) (fs (main E files st).2).
Proof.
  intros Hc Hp Hd Hw Henc. unfold main, makedirs.
  destruct (fs st !! OUT_DIR) as [[d|]|] eqn:Ho; [by destruct (Hd d)| |].
  - rewrite Hp, insert_id by done. apply run_files_refines_batch; unfold is_dir; by rewrite ?Ho.
  - unfold is_dir in *. cbn [fs]. rewrite lookup_insert_ne by (by vm_compute). rewrite Hp.
    refine (run_files_refines_batch E (length files) 0 files
              (mkState (<[OUT_DIR:=Dir]> (fs st)) (console st) (requests st)) Hc _ Hw Henc).
    unfold is_dir. cbn [fs]. by rewrite lookup_insert_eq.
Qed.

End Proofs.
End Refinement.
