(* ===== verification/Inspector.v ===== *)
(** The inspector: inspect_outputs.py (lines 1-11).

    The script lists the directory [DIR = './out'], and for each entry
    opens it as text, reads it with [json.load], takes the first record
    of [obj['problems']] and prints the number of records and the key
    [str(year) + '-' + exam_number + '\t' + source].  It has no handler:
    the first exception ends the script.

    The Python operations are modelled on the values [json.loads]
    builds: [getitem_str] is [v[k]] with a string key, [getitem_int] is
    [v[i]] with an int, [py_len] is [len], [add_str] is [str + v], and
    [str(v)] is [PyRepr.str].  The exceptions are the constructors of [exn];
    a computation that can raise returns [exn + T], with the monad of
    stdpp's [MBind] classes.  Opening a file in text mode decodes it as
    UTF-8 (the locale of the extractor's output) and translates the line
    endings "\r\n" and "\r" to "\n" ([translate_newlines]).

    [str()] of a float, a list or a dict is Python's [repr] (PyRepr.v),
    which depends on CPython's float formatting and on the Unicode table
    of printable characters: the two parameters of the section. *)

From S2P Require Import Prelude Text Json JsonText PyRepr Schema Paths Extractor.
Import Json Schema Paths Extractor.

Module Inspector.

(** The exceptions of the script. *)
Inductive exn : Type :=
  | FileNotFoundError
  | NotADirectoryError
  | IsADirectoryError
  | UnicodeDecodeError
  | JSONDecodeError
  | KeyError
  | IndexError
  | TypeError.

Abbreviation res T := (exn + T)%type.

#[export] Instance res_ret : MRet (sum exn) := fun _ x => inr x.
#[export] Instance res_bind : MBind (sum exn) :=
  fun _ _ f m => match m with inl e => inl e | inr x => f x end.

Definition raise {T : Type} (e : exn) : res T := inl e.

(** Line 5. *)
Definition DIR : text := txt "./out".

(** [v[k]] with a string [k]. *)
Definition getitem_str (v : value) (k : text) : res value :=
  match v with
  | JObj kvs => match dict_get k kvs with Some w => mret w | None => raise KeyError end
  | _ => raise TypeError
  end.

(** [v[i]] with an int [i >= 0]: a list or a string is indexed, a dict
    (whose keys are strings) has no key [i]. *)
Definition getitem_int (v : value) (i : nat) : res value :=
  match v with
  | JArr vs => match vs !! i with Some w => mret w | None => raise IndexError end
  | JStr s => match s !! i with Some c => mret (JStr [c]) | None => raise IndexError end
  | JObj _ => raise KeyError
  | _ => raise TypeError
  end.

Definition py_len (v : value) : res nat :=
  match v with
  | JArr vs => mret (length vs)
  | JStr s => mret (length s)
  | JObj kvs => mret (length kvs)
  | _ => raise TypeError
  end.

(** [s + v] for a string [s]. *)
Definition add_str (s : text) (v : value) : res text :=
  match v with JStr t => mret (s ++ t) | _ => raise TypeError end.

(** Text-mode reading: "\r\n" and "\r" become "\n". *)
Fixpoint translate_newlines (after_cr : bool) (s : text) : text :=
  match s with
  | [] => []
  | c :: r =>
      if after_cr && (c =? 10) then translate_newlines false r
      else if c =? 13 then 10 :: translate_newlines true r
      else c :: translate_newlines false r
  end.

Section Inspect.
(** The tables of CPython that [str()] of a float or of a non-ASCII
    character inside a list or a dict depends on (see PyRepr.v). *)
Variable isprintable : Z -> bool.
Variable float_repr : Z -> Z -> text.

(** Lines 8-9: [open(f)] and [json.load(f)]. *)
Definition load_file (F : gmap text entry) (path : text) : res value :=
  match F !! path with
  | None => raise FileNotFoundError
  | Some Dir => raise IsADirectoryError
  | Some (File bs) =>
      match Utf8.decode bs with
      | None => raise UnicodeDecodeError
      | Some s =>
          match JsonText.loads (translate_newlines false s) with
          | Some obj => mret obj
          | None => raise JSONDecodeError
          end
      end
  end.

(** Lines 10-11: the record count and the key of the first record, in
    the order Python evaluates them; [print] separates its two arguments
    with a space. *)
Definition summarize (obj : value) : res text :=
  ps ← getitem_str obj (txt "problems");
  p0 ← getitem_int ps 0;
  ps' ← getitem_str obj (txt "problems");
  n ← py_len ps';
  y ← getitem_str p0 (txt "year");
  e ← getitem_str p0 (txt "exam_number");
  s1 ← add_str (PyRepr.str isprintable float_repr y ++ txt "-") e;
  src ← getitem_str p0 (txt "source");
  s2 ← add_str (s1 ++ [9]) src;
  mret (JsonText.int_text (Z.of_nat n) ++ [32] ++ s2).

(** Lines 7-11 for the entry [f] of [dir]. *)
Definition entry_line (F : gmap text entry) (dir f : text) : res text :=
  load_file F (join dir f) ≫= summarize.

(** Lines 6-11 over the entries [names] of [dir], in the order
    [os.listdir] gave them: the lines printed, and the exception that
    ended the loop, if any. *)
Fixpoint inspect_loop (F : gmap text entry) (dir : text) (names : list text) (out : list text)
    : option exn * list text :=
  match names with
  | [] => (None, out)
  | f :: rest =>
      match entry_line F dir f with
      | inl e => (Some e, out)
      | inr line => inspect_loop F dir rest (out ++ [line])
      end
  end.

(** [os.listdir(dir)] raises when [dir] is absent or is a file. *)
Definition inspect_dir (F : gmap text entry) (dir : text) (names : list text)
    : option exn * list text :=
  match F !! dir with
  | None => (Some FileNotFoundError, [])
  | Some (File _) => (Some NotADirectoryError, [])
  | Some Dir => inspect_loop F dir names []
  end.

(** The script: the loop over [DIR]. *)
Definition inspect (F : gmap text entry) (names : list text) : option exn * list text :=
  inspect_dir F DIR names.

End Inspect.

(** A file the extractor wrote for [es]: the UTF-8 bytes of
    [model_dump_json(indent=2)] of a record set whose strings are code
    points, with at least one record. *)
Definition written (F : gmap text entry) (path : text) (es : ExamSet) : Prop :=
  exists bs, F !! path = Some (File bs) /\ Utf8.encode (JsonText.dumps (model_dump es)) = Some bs /\
             exam_set_chars_ok es /\ problems es <> [].

(** The line line 11 prints for such a file. *)
Definition summary_line (es : ExamSet) : text :=
  match problems es with
  | [] => []
  | p0 :: _ =>
      JsonText.int_text (Z.of_nat (length (problems es))) ++ [32] ++
      JsonText.int_text (year p0) ++ txt "-" ++ exam_number p0 ++ [9] ++ source p0
  end.

(** ** Lemmas *)

Lemma digits_rev_no_cr f n : 13 ∉ JsonText.digits_rev f n.
Proof.
  revert n. induction f as [|f IH]; intros n; simpl; [set_solver|].
  rewrite elem_of_cons. intros [Hc|Hc]; [zlia|]. case_match; [set_solver|]. by apply (IH (n / 10)).
Qed.

Lemma int_text_no_cr z : 13 ∉ JsonText.int_text z.
Proof.
  unfold JsonText.int_text.
  case_match; rewrite ?elem_of_cons, list_elem_of_In, <- in_rev, <- list_elem_of_In;
    [intros [?|Hc]; [lia|revert Hc]|]; apply digits_rev_no_cr.
Qed.

Lemma escape_char_no_cr c : 0 <= c -> 13 ∉ JsonText.escape_char c.
Proof.
  intros Hc. unfold JsonText.escape_char, JsonText.hex_digit.
  repeat case_match; rewrite ?elem_of_cons, ?elem_of_nil; zlia.
Qed.

Lemma dump_string_no_cr s : chars_ok s -> 13 ∉ JsonText.dump_string s.
Proof.
  intros Hs. unfold JsonText.dump_string. rewrite elem_of_cons, elem_of_app, list_elem_of_bind.
  intros [?|[(c & Hc & Hin)|?]]; [lia| |set_solver].
  unfold chars_ok in Hs. rewrite Forall_forall in Hs. by eapply escape_char_no_cr; [apply Hs|].
Qed.

Lemma indent_no_cr k : 13 ∉ JsonText.indent k.
Proof. unfold JsonText.indent. rewrite elem_of_replicate. lia. Qed.

Lemma sep_items_no_cr {T : Type} (f : T -> text) k (l : list T) first :
  Forall (fun x => 13 ∉ f x) l -> 13 ∉ JsonText.sep_items f k l first.
Proof.
  revert first. induction l as [|x l IH]; intros first Hl; simpl; [set_solver|].
  apply Forall_cons in Hl as [Hx Hl]. pose proof (indent_no_cr k).
  rewrite !elem_of_app. intros [H1|[H1|[H1|H1]]]; [|done|done|by eapply IH].
  destruct first; set_solver.
Qed.

Lemma dumps_no_cr v lvl : printable v -> 13 ∉ JsonText.dumps_at lvl v.
Proof.
  revert lvl. induction v as [| b | z | f | s | vs IH | kvs IH] using value_ind'; intros lvl Hp;
    cbn [printable] in Hp; cbn [JsonText.dumps_at].
  - closed_decide.
  - destruct b; closed_decide.
  - apply int_text_no_cr.
  - done.
  - by apply dump_string_no_cr.
  - rewrite Forall_id_map in Hp. destruct vs as [|w ws]; [closed_decide|].
    pose proof (indent_no_cr lvl). rewrite elem_of_cons, !elem_of_app, elem_of_cons.
    intros [?|[Hc|[?|?]]]; [lia| |lia|set_solver]. revert Hc. apply sep_items_no_cr.
    rewrite Forall_forall in IH, Hp |- *. intros x Hx. by apply IH, Hp.
  - destruct Hp as (_ & Hk & Hp). rewrite Forall_id_map in Hp.
    destruct kvs as [|kv kvs]; [closed_decide|].
    pose proof (indent_no_cr lvl). rewrite elem_of_cons, !elem_of_app, elem_of_cons.
    intros [?|[Hc|[?|?]]]; [lia| |lia|set_solver]. revert Hc. apply sep_items_no_cr.
    rewrite Forall_forall in IH, Hp, Hk |- *. intros x Hx.
    rewrite elem_of_app, elem_of_cons, elem_of_cons. intros [Hc|[?|[?|Hc]]]; [|lia|lia|].
    + revert Hc. by apply dump_string_no_cr, Hk.
    + revert Hc. by apply IH, Hp.
Qed.

Lemma translate_newlines_no_cr s : 13 ∉ s -> translate_newlines false s = s.
Proof.
  induction s as [|c s IH]; intros Hs; simpl; [done|].
  rewrite elem_of_cons in Hs. destruct (Z.eqb_spec c 13); [lia|]. rewrite IH; naive_solver.
Qed.

Lemma load_file_dump F path es bs :
  F !! path = Some (File bs) -> Utf8.encode (JsonText.dumps (model_dump es)) = Some bs ->
  exam_set_chars_ok es -> load_file F path = inr (model_dump es).
Proof.
  intros HF Henc Hok. pose proof (model_dump_printable es Hok) as Hp.
  unfold load_file. rewrite HF, (utf8_decode_encode _ _ Henc).
  rewrite translate_newlines_no_cr by (by apply dumps_no_cr).
  by rewrite JsonText.loads_dumps.
Qed.

Lemma getitem_problems es :
  getitem_str (model_dump es) (txt "problems") = inr (JArr (map dump_problem (problems es))).
Proof. reflexivity. Qed.

Lemma getitem_year p : getitem_str (dump_problem p) (txt "year") = inr (JInt (year p)).
Proof. reflexivity. Qed.

Lemma getitem_exam_number p :
  getitem_str (dump_problem p) (txt "exam_number") = inr (JStr (exam_number p)).
Proof. reflexivity. Qed.

Lemma getitem_source p : getitem_str (dump_problem p) (txt "source") = inr (JStr (source p)).
Proof. reflexivity. Qed.

Lemma summarize_dump isp fr es p0 rest :
  problems es = p0 :: rest ->
  summarize isp fr (model_dump es) =
    inr (JsonText.int_text (Z.of_nat (length (p0 :: rest))) ++ [32] ++
         JsonText.int_text (year p0) ++ txt "-" ++ exam_number p0 ++ [9] ++ source p0).
Proof.
  intros Hps. unfold summarize. rewrite getitem_problems, Hps.
  cbn [mbind res_bind mret res_ret getitem_int map lookup list_lookup py_len].
  rewrite getitem_year, getitem_exam_number, getitem_source.
  cbn [mbind res_bind mret res_ret add_str PyRepr.str].
  rewrite <- (length_map dump_problem (p0 :: rest)), <- !app_assoc. reflexivity.
Qed.

Lemma dir_not_output r : DIR <> output_filepath r.
Proof.
  destruct (output_filepath_in_out_dir r) as [name ->]. intros Heq.
  apply (f_equal (take 3)) in Heq. vm_compute in Heq. discriminate.
Qed.

Lemma dir_not_out_dir : DIR <> OUT_DIR.
Proof. by vm_compute. Qed.

(** C17: the inspector reads ./out, a directory the extractor never creates:
    after a batch started without ./out, the inspector raises
    FileNotFoundError and prints nothing. *)
Theorem inspect_after_extractor `{JsonCodec} isp fr E files st names :
  fs st !! DIR = None ->
  inspect isp fr (fs (main E files st).2) names = (Some FileNotFoundError, []).
Proof.
  intros Hd. unfold inspect, inspect_dir.
  rewrite main_frame; [by rewrite Hd|apply dir_not_out_dir|apply dir_not_output].
Qed.

(** C18: on a file the extractor wrote for a non-empty record set, the
    inspector prints the number of records, a space, then year-exam_number,
    a tab and source of the first record. *)
Theorem inspect_output_line isp fr F path es bs p0 rest :
  F !! path = Some (File bs) -> Utf8.encode (JsonText.dumps (model_dump es)) = Some bs ->
  exam_set_chars_ok es -> problems es = p0 :: rest ->
  load_file F path ≫= summarize isp fr =
    inr (JsonText.int_text (Z.of_nat (length (p0 :: rest))) ++ [32] ++
         JsonText.int_text (year p0) ++ txt "-" ++ exam_number p0 ++ [9] ++ source p0).
Proof.
  intros HF Henc Hok Hps. rewrite (load_file_dump F path es bs) by done.
  apply summarize_dump, Hps.
Qed.

(** C19: the inspector raises KeyError when the object has no problems key,
    IndexError when problems is empty, and TypeError when the top level is a
    list. *)
Theorem summarize_shape_errors isp fr kvs vs :
  (dict_get (txt "problems") kvs = None -> summarize isp fr (JObj kvs) = inl KeyError) /\
  (dict_get (txt "problems") kvs = Some (JArr []) -> summarize isp fr (JObj kvs) = inl IndexError) /\
  summarize isp fr (JArr vs) = inl TypeError.
Proof.
  unfold summarize, getitem_str. split; [|split]; [intros H; by rewrite H..|done].
Qed.

Lemma inspect_loop_app isp fr F dir l1 l2 out lines :
  mapM (entry_line isp fr F dir) l1 = inr lines ->
  inspect_loop isp fr F dir (l1 ++ l2) out = inspect_loop isp fr F dir l2 (out ++ lines).
Proof.
  revert out lines. induction l1 as [|f l1 IH]; intros out lines Hm; simpl in *.
  - injection Hm as <-. by rewrite app_nil_r.
  - destruct (entry_line isp fr F dir f) as [e|line]; [done|].
    cbn in Hm. destruct (mapM _ l1) as [e|ls] eqn:Hl; [done|]. injection Hm as <-.
    rewrite (IH _ ls) by done. by rewrite <- app_assoc.
Qed.

(** C20: the inspector stops at the first entry that raises: it prints the
    lines of the entries before it and nothing after. *)
Theorem inspect_loop_first_error isp fr F dir l1 f l2 lines e :
  mapM (entry_line isp fr F dir) l1 = inr lines -> entry_line isp fr F dir f = inl e ->
  inspect_loop isp fr F dir (l1 ++ f :: l2) [] = (Some e, lines).
Proof.
  intros Hm He. rewrite (inspect_loop_app isp fr F dir l1 (f :: l2) [] lines Hm). simpl.
  by rewrite He.
Qed.

Lemma entry_line_written isp fr F dir f es :
  written F (join dir f) es -> entry_line isp fr F dir f = inr (summary_line es).
Proof.
  intros (bs & HF & Henc & Hok & Hne). unfold entry_line, summary_line.
  destruct (problems es) as [|p0 rest] eqn:Hps; [done|].
  rewrite (load_file_dump F _ es bs) by done. cbn [mbind res_bind].
  by apply summarize_dump.
Qed.

Lemma inspect_loop_all isp fr F dir names out (line : text -> text) :
  Forall (fun f => entry_line isp fr F dir f = inr (line f)) names ->
  inspect_loop isp fr F dir names out = (None, out ++ map line names).
Proof.
  revert out. induction names as [|f names IH]; intros out Hall; simpl.
  - by rewrite app_nil_r.
  - apply Forall_cons in Hall as [Hf Hall]. rewrite Hf, IH by done. by rewrite <- app_assoc.
Qed.

(** C27: when every entry of ./out is a file the extractor wrote, the
    inspector runs to the end of the listing: it raises nothing and
    prints one line per entry, in the order os.listdir gave them. *)
Theorem inspect_completes isp fr F names (sets : text -> ExamSet) :
  F !! DIR = Some Dir -> listdir_spec F DIR names ->
  (forall n, n <> [] -> (SEP ∉ n) -> is_Some (F !! join DIR n) -> written F (join DIR n) (sets n)) ->
  inspect isp fr F names = (None, map (fun n => summary_line (sets n)) names).
Proof.
  intros Hd [_ Hls] Hw. unfold inspect, inspect_dir. rewrite Hd.
  rewrite (inspect_loop_all isp fr F DIR names [] (fun n => summary_line (sets n))); [done|].
  apply Forall_forall. intros n Hn.
  apply entry_line_written, Hw; apply Hls, Hn.
Qed.

End Inspector.
