(* ===== verification/EndToEnd.v ===== *)
(** Concrete states of the two scripts and the witnesses of the
    theorems: the example of the specification (./pdfs holding
    examA.pdf, the model answering one record), a two-file batch, a
    model answer with a lone surrogate escape, and ./out holding one
    output of the extractor.  [stale_output_breaks_convert] shows that
    the empty file a failed write leaves is allowed by no verdict of the
    specification's contract.  The witnesses apply the theorems of the
    development to concrete inputs where their hypotheses hold. *)

From S2P Require Import Prelude Text Json JsonText PyRepr Schema Paths Extractor Console Refinement Inspector.
Import Json Schema Paths Extractor Inspector.

Module EndToEnd.

(** ** Scenarios *)

(** The runs use the JSON layer of JsonText.v, which implements the
    interface the extractor is written against. *)
#[export] Instance json_codec : JsonCodec := {|
  loads := JsonText.loads;
  dumps := JsonText.dumps;
  loads_dumps := JsonText.loads_dumps
|}.

(** JSON text written with single quotes for double quotes. *)
Definition jtxt (s : string) : text := map (fun c => if c =? 39 then 34 else c) (txt s).

Definition examA_pdf : bytes := [37; 80; 68; 70].

Definition examA_response : text :=
  jtxt "{'problems': [{'year': 111, 'exam_number': '1', 'source': 'examA.pdf', 'number': 1, 'subject': 'process', 'question': 'Q?', 'options': {'A': 'a', 'B': 'b', 'C': 'c', 'D': 'd'}, 'answer': 'A'}]}".

Definition examA_record : ExamProblem :=
  mkExamProblem 111 (txt "1") (txt "examA.pdf") 1 process (txt "Q?")
    (mkOptions (txt "a") (txt "b") (txt "c") (txt "d")) (txt "A").

Definition examA_env : env :=
  mkEnv true (fun r => RespText (Some examA_response)) (fun _ => true).

Definition examA_state : state :=
  mkState {[ txt "./pdfs" := Dir; txt "./pdfs/examA.pdf" := File examA_pdf ]} [] [].

Definition examA_out : text := txt "./json/examA_structured_output.json".

Definition good_response : text :=
  jtxt "{'problems': [{'year': 112, 'exam_number': '2', 'source': 'good.pdf', 'number': 1, 'subject': 'industry', 'question': 'Q', 'options': {'A': 'a', 'B': 'b', 'C': 'c', 'D': 'd'}, 'answer': 'B'}]}".

Definition iso_env : env :=
  mkEnv true (fun r => if bool_decide (req_pdf r = [1]) then RespText (Some (txt "not json"))
                       else RespText (Some good_response)) (fun _ => true).

Definition iso_state : state :=
  mkState {[ txt "./pdfs" := Dir; txt "./pdfs/bad.pdf" := File [1]; txt "./pdfs/good.pdf" := File [2] ]} [] [].

(** A lone surrogate escape in the answer of the model. *)
Definition surrogate_response : text :=
  jtxt "{'problems': [{'year': 111, 'exam_number': '1', 'source': 's.pdf', 'number': 1, 'subject': 'process', 'question': '\ud800', 'options': {'A': 'a', 'B': 'b', 'C': 'c', 'D': 'd'}, 'answer': 'A'}]}".

Definition surrogate_env : env := mkEnv true (fun _ => RespText (Some surrogate_response)) (fun _ => true).

Definition surrogate_state : state :=
  mkState {[ txt "./json" := Dir; txt "./pdfs/s.pdf" := File [1] ]} [] [].

Definition surrogate_raw : value := default JNull (JsonText.loads surrogate_response).

Definition surrogate_set : ExamSet :=
  match model_validate surrogate_raw with inr es => es | inl _ => mkExamSet [] end.

(** The state after the first batch of the example: the output exists. *)
Definition examA_done : state := (main examA_env [txt "examA.pdf"] examA_state).2.

(** The state after [os.makedirs]: the directory ./json exists. *)
Definition examA_ready : state :=
  mkState {[ txt "./json" := Dir; txt "./pdfs" := Dir; txt "./pdfs/examA.pdf" := File examA_pdf ]} [] [].

Definition examA_set : ExamSet := mkExamSet [examA_record].

Definition no_client_env : env := mkEnv false (fun _ => RespError) (fun _ => true).

Definition record_kvs (subject_value : value) (options_kvs : list (text * value)) : list (text * value) :=
  [(txt "year", JInt 111); (txt "exam_number", JStr (txt "1")); (txt "source", JStr (txt "x.pdf"));
   (txt "number", JInt 1); (txt "subject", subject_value); (txt "question", JStr (txt "Q"));
   (txt "options", JObj options_kvs); (txt "answer", JStr (txt "A"))].

Definition options_abc : list (text * value) :=
  [(txt "A", JStr (txt "a")); (txt "B", JStr (txt "b")); (txt "C", JStr (txt "c"))].

Definition options_abcd : list (text * value) := options_abc ++ [(txt "D", JStr (txt "d"))].

(** A record whose options lack D, and one whose subject is "other". *)
Definition missing_d_kvs : list (text * value) :=
  [(txt "problems", JArr [JObj (record_kvs (JStr (txt "process")) options_abc)])].

Definition other_subject_kvs : list (text * value) :=
  [(txt "problems", JArr [JObj (record_kvs (JStr (txt "other")) options_abcd)])].

Definition validation_errors (v : value) : list ValidationError :=
  match model_validate v with inl es => es | inr _ => [] end.

(** ./out holding one output file of the extractor, for examA. *)
Definition examA_out_name : text := txt "examA_structured_output.json".

Definition out_tree : gmap text entry :=
  <[join DIR examA_out_name := File (default [] (Utf8.encode (JsonText.dumps (model_dump examA_set))))]>
    (<[DIR := Dir]> ∅).


(** ** Witnesses *)


Lemma extract_skip_witness :
  extract_exams_from_pdf examA_env (pdf_path (txt "examA.pdf")) examA_done =
    (Returned None, print examA_done (MsgSkip (output_filepath (pdf_path (txt "examA.pdf"))))).
Proof. apply extract_skip; vm_compute; reflexivity. Defined.

Lemma run_files_isolation_witness :
  (run_files iso_env 2 0 [txt "bad.pdf"] iso_state).1 = Returned None /\
  run_files iso_env 2 0 ([txt "bad.pdf"] ++ [txt "good.pdf"]) iso_state =
    run_files iso_env 2 (0 + length [txt "bad.pdf"]) [txt "good.pdf"]
      (run_files iso_env 2 0 [txt "bad.pdf"] iso_state).2.
Proof. apply run_files_isolation. reflexivity. Defined.

Lemma extract_output_roundtrip_witness :
  exists bs s, fs (extract_exams_from_pdf examA_env (pdf_path (txt "examA.pdf")) examA_ready).2
                 !! output_filepath (pdf_path (txt "examA.pdf")) = Some (File bs) /\
    Utf8.decode bs = Some s /\ loads s = Some (model_dump examA_set) /\
    model_validate (model_dump examA_set) = inr examA_set.
Proof.
  apply (extract_output_roundtrip examA_env (pdf_path (txt "examA.pdf")) examA_ready examA_set
           (extract_exams_from_pdf examA_env (pdf_path (txt "examA.pdf")) examA_ready).2).
  - vm_compute. reflexivity.
  - unfold exam_set_chars_ok, problem_text, chars_ok. closed_decide.
Defined.

Lemma extract_rejects_response_witness :
  extract_exams_from_pdf iso_env (pdf_path (txt "bad.pdf")) iso_state =
    (Returned None, mkState (fs iso_state)
       (console iso_state ++ [MsgCalling; MsgDecodeFailed (take 500 (txt "not json") ++ txt "...")])
       (requests iso_state ++ [mkRequest MODEL [1] (prompt_instruction (basename (pdf_path (txt "bad.pdf"))))])).
Proof.
  refine (extract_rejects_response iso_env (pdf_path (txt "bad.pdf")) iso_state [1] (txt "not json")
            (MsgDecodeFailed (take 500 (txt "not json") ++ txt "...")) _ _ _ _ _ (or_introl (conj _ _)));
    vm_compute; reflexivity.
Defined.

Lemma model_validate_errors_located_witness :
  Forall (located (JObj missing_d_kvs)) (validation_errors (JObj missing_d_kvs)).
Proof. apply model_validate_errors_located. vm_compute. reflexivity. Defined.

Lemma model_validate_missing_option_witness :
  exists es, model_validate (JObj missing_d_kvs) = inl es /\
    mkErr [LKey (txt "problems"); LIdx 0; LKey (txt "options"); LKey (txt "D")] missing ∈ es.
Proof.
  apply (model_validate_missing_option missing_d_kvs [JObj (record_kvs (JStr (txt "process")) options_abc)]
           0 (record_kvs (JStr (txt "process")) options_abc) options_abc (txt "D"));
    try (vm_compute; reflexivity).
  closed_decide.
Defined.


Lemma run_files_client_abort_witness :
  run_files no_client_env 1 0 [txt "examA.pdf"] examA_ready =
    (Raised, print examA_ready (MsgProcessing 1 1 (pdf_path (txt "examA.pdf")))).
Proof. apply run_files_client_abort; vm_compute; reflexivity. Defined.

Lemma main_changes_only_new_outputs_witness :
  fs examA_state !! examA_out = None /\ (examA_out = OUT_DIR \/ exists r, examA_out = output_filepath r).
Proof.
  apply (main_changes_only_new_outputs examA_env [txt "examA.pdf"] examA_state examA_out).
  vm_compute. discriminate.
Defined.

Lemma inspect_after_extractor_witness :
  inspect (fun _ => true) (fun _ _ => []) (fs (main examA_env [txt "examA.pdf"] examA_state).2) [txt "examA_structured_output.json"] =
    (Some FileNotFoundError, []).
Proof. apply inspect_after_extractor. vm_compute. reflexivity. Defined.

Lemma inspect_output_line_witness :
  load_file (fs examA_done) examA_out ≫= summarize (fun _ => true) (fun _ _ => []) =
    inr (JsonText.int_text (Z.of_nat (length [examA_record])) ++ [32] ++
         JsonText.int_text (year examA_record) ++ txt "-" ++ exam_number examA_record ++ [9] ++
         source examA_record).
Proof.
  apply (inspect_output_line (fun _ => true) (fun _ _ => []) (fs examA_done) examA_out examA_set
           (default [] (Utf8.encode (JsonText.dumps (model_dump examA_set))))); try (vm_compute; reflexivity).
  unfold exam_set_chars_ok, problem_text, chars_ok. closed_decide.
Defined.

Lemma summarize_shape_errors_witness :
  summarize (fun _ => true) (fun _ _ => []) (JObj [(txt "problems", JArr [])]) = inl IndexError.
Proof. apply (proj1 (proj2 (summarize_shape_errors (fun _ => true) (fun _ _ => []) [(txt "problems", JArr [])] []))). reflexivity. Defined.

Lemma inspect_loop_first_error_witness :
  inspect_loop (fun _ => true) (fun _ _ => []) (fs examA_done) OUT_DIR
    ([txt "examA_structured_output.json"] ++ txt "missing.json" :: []) [] =
    (Some FileNotFoundError, [txt "1 111-1" ++ [9] ++ txt "examA.pdf"]).
Proof. apply inspect_loop_first_error; vm_compute; reflexivity. Defined.

Lemma dump_string_verbatim_witness :
  JsonText.dump_string (txt "題目 Q?") = 34 :: txt "題目 Q?" ++ [34].
Proof. apply JsonText.dump_string_verbatim. closed_decide. Defined.

Lemma output_filename_collision_witness :
  output_filename (txt "a" ++ EXTSEP :: txt "pdf") = output_filename (txt "a" ++ EXTSEP :: txt "txt") /\
  output_filename (txt "a" ++ EXTSEP :: txt "pdf") = output_filename (txt "a").
Proof. apply output_filename_collision; closed_decide. Defined.

Lemma validate_problem_extra_key_witness :
  validate_problem (JObj (dict_set (txt "extra") JNull (record_kvs (JStr (txt "process")) options_abcd))) =
  validate_problem (JObj (record_kvs (JStr (txt "process")) options_abcd)).
Proof. apply validate_problem_extra_key. closed_decide. Defined.

Lemma extract_writes_only_validated_witness :
  let '(o, st') := extract_exams_from_pdf examA_env (pdf_path (txt "examA.pdf")) examA_ready in
  (forall q, q <> output_filepath (pdf_path (txt "examA.pdf")) -> fs st' !! q = fs examA_ready !! q) /\
  (fs st' !! output_filepath (pdf_path (txt "examA.pdf")) <>
     fs examA_ready !! output_filepath (pdf_path (txt "examA.pdf")) ->
   fs examA_ready !! output_filepath (pdf_path (txt "examA.pdf")) = None /\
   exists data t raw vd,
     read_bytes examA_ready (pdf_path (txt "examA.pdf")) = Some data /\
     requests st' = requests examA_ready ++
       [mkRequest MODEL data (prompt_instruction (basename (pdf_path (txt "examA.pdf"))))] /\
     remote examA_env (mkRequest MODEL data (prompt_instruction (basename (pdf_path (txt "examA.pdf"))))) =
       RespText (Some t) /\
     loads t = Some raw /\ model_validate raw = inr vd /\
     (fs st' !! output_filepath (pdf_path (txt "examA.pdf")) = Some (File []) \/
      exists bs, Utf8.encode (dumps (model_dump vd)) = Some bs /\
        fs st' !! output_filepath (pdf_path (txt "examA.pdf")) = Some (File bs) /\ o = Returned (Some vd))).
Proof. exact (extract_writes_only_validated examA_env (pdf_path (txt "examA.pdf")) examA_ready). Defined.

Lemma model_validate_spec_witness :
  model_validate (model_dump examA_set) = inr examA_set <-> exam_set_of (model_dump examA_set) examA_set.
Proof. exact (model_validate_spec (model_dump examA_set) examA_set). Defined.

Lemma utf8_encode_is_Some_witness :
  is_Some (Utf8.encode (txt "題目")) <-> Forall (fun c => Utf8.is_scalar c = true) (txt "題目").
Proof. exact (utf8_encode_is_Some (txt "題目")). Defined.

Lemma main_refines_batch_witness :
  Refinement.batch examA_env [txt "examA.pdf"] (<[OUT_DIR := Dir]> (fs examA_state))
    (fs (main examA_env [txt "examA.pdf"] examA_state).2).
Proof.
  apply Refinement.main_refines_batch; [reflexivity | vm_compute; reflexivity | | |].
  - intros d. vm_compute. discriminate.
  - intros q. reflexivity.
  - intros req t raw es Hrem Hl Hv. unfold examA_env, remote in Hrem. injection Hrem as <-.
    assert (E1 : loads examA_response = Some (model_dump examA_set)) by (vm_compute; reflexivity).
    rewrite E1 in Hl. injection Hl as <-.
    assert (E2 : model_validate (model_dump examA_set) = inr examA_set) by (vm_compute; reflexivity).
    rewrite E2 in Hv. injection Hv as <-. vm_compute. eexists. reflexivity.
Defined.

Lemma out_tree_child n :
  n <> [] -> SEP ∉ n -> is_Some (out_tree !! join DIR n) -> n = examA_out_name.
Proof.
  intros Hn Hs Hsome. unfold out_tree in Hsome.
  rewrite !lookup_insert_is_Some', lookup_empty in Hsome.
  rewrite !(join_child DIR) in Hsome by first [done | closed_decide].
  destruct Hsome as [H|[H|[? H]]]; [| |done].
  - by apply app_inv_head, (app_inv_head [SEP]) in H.
  - apply (f_equal length) in H. rewrite !length_app in H. simpl in H. lia.
Qed.

Lemma utf8_decode_scalars_witness :
  Forall (fun c => Utf8.is_scalar c = true) (default [] (Utf8.decode [0xE9; 0xA1; 0x8C])).
Proof. apply (utf8_decode_scalars [0xE9; 0xA1; 0x8C]). vm_compute. reflexivity. Defined.

Lemma inspect_completes_witness :
  inspect (fun _ => true) (fun _ _ => []) out_tree [examA_out_name] = (None, [summary_line examA_set]).
Proof.
  apply (inspect_completes (fun _ => true) (fun _ _ => []) out_tree [examA_out_name] (fun _ => examA_set)).
  - vm_compute. reflexivity.
  - split; [apply NoDup_singleton|]. intros n. rewrite list_elem_of_singleton. split.
    + intros ->. split; [discriminate|split; [closed_decide|vm_compute; eauto]].
    + intros (Hn & Hs & Hsome). by apply out_tree_child.
  - intros n Hn Hs Hsome. rewrite (out_tree_child n Hn Hs Hsome).
    eexists. split; [vm_compute; reflexivity|]. split; [vm_compute; reflexivity|].
    split; [unfold exam_set_chars_ok, problem_text, chars_ok; closed_decide|discriminate].
Defined.

Lemma run_files_console_witness :
  exists mss, length mss = length [txt "examA.pdf"] /\ Forall Console.call_log mss /\
    console (run_files examA_env 1 0 [txt "examA.pdf"] examA_ready).2 =
      console examA_ready ++ Console.batch_log 1 0 [txt "examA.pdf"] mss.
Proof. apply Console.run_files_console. reflexivity. Defined.

Lemma validate_int_numeric_str_witness :
  validate_int (JStr ([32] ++ JsonText.int_text 111 ++ [10])) =
    if Z.of_nat (length (JsonText.int_text 111)) <=? 4300 then inr 111 else fail int_parsing_size.
Proof. apply validate_int_numeric_str; repeat constructor. Defined.

Lemma run_files_cached_witness :
  (run_files examA_env 1 0 [txt "examA.pdf"] examA_done).1 = Returned None /\
  fs (run_files examA_env 1 0 [txt "examA.pdf"] examA_done).2 = fs examA_done /\
  requests (run_files examA_env 1 0 [txt "examA.pdf"] examA_done).2 = requests examA_done.
Proof.
  apply run_files_cached. intros f Hf. apply list_elem_of_singleton in Hf as ->.
  vm_compute. eexists. reflexivity.
Defined.

End EndToEnd.
